(** * bear_hug widgets: tile buffers, layouts, viewports, animation, menus

    A shallow embedding of [bear_hug/widgets.py].  Python objects live in a
    heap indexed by object identity, numpy arrays live in a second store so
    that two widgets built on the same array really share it, and every
    method is a computation in a state monad whose failures keep the state
    reached at the [raise].  Two arrays of the store share all their
    memory or none: a numpy view onto a part of another array is not
    represented.  Seconds are IEEE binary64 floats, as in Python. *)

From Stdlib Require Import ZArith Floats Lia List Bool String.
From stdpp Require Import base gmap list strings.

Local Open Scope Z_scope.

(** ** The Python runtime: exceptions and stateful computations *)

Module Py.

Inductive exn :=
| BearException
| BearLayoutException
| AttributeError
| IndexError
| KeyError
| ValueError
| TypeError
| RecursionError
| OverflowError
| SystemError.

#[global] Instance exn_eq_dec : EqDecision exn.
Proof. solve_decision. Defined.

Inductive outcome (A : Type) :=
| Return (a : A)
| Raise (e : exn).
Arguments Return {A} a.
Arguments Raise {A} e.

(** A method call maps the state before the call to its outcome and the
    state after it; a raised exception leaves whatever was mutated before
    the [raise]. *)
Definition M (S A : Type) : Type := S → outcome A * S.

Definition ret {S A} (a : A) : M S A := λ s, (Return a, s).

Definition bind {S A B} (c : M S A) (k : A → M S B) : M S B :=
  λ s, match c s with
       | (Return a, s') => k a s'
       | (Raise e, s') => (Raise e, s')
       end.

Definition raise {S A} (e : exn) : M S A := λ s, (Raise e, s).
Definition get {S} : M S S := λ s, (Return s, s).
Definition put {S} (s : S) : M S unit := λ _, (Return tt, s).
Definition modify {S} (f : S → S) : M S unit := λ s, (Return tt, f s).

(** [try: c except e: h] *)
Definition try_except {S A} (c : M S A) (e : exn) (h : M S A) : M S A :=
  λ s, match c s with
       | (Raise e', s') => if decide (e' = e) then h s' else (Raise e', s')
       | r => r
       end.

(** [for x in xs: body x] over a snapshot of the list. *)
Fixpoint for_each {S A} (xs : list A) (body : A → M S unit) : M S unit :=
  match xs with
  | [] => ret tt
  | x :: xs' => bind (body x) (λ _, for_each xs' body)
  end.

(** Delivering a list of events to a handler in turn, up to the first
    exception; the answers of the handler are collected. *)
Fixpoint feed {S E A} (h : E → M S A) (events : list E) : M S (list A) :=
  match events with
  | [] => ret []
  | e :: es => bind (h e) (λ r, bind (feed h es) (λ rs, ret (r :: rs)))
  end.

(** The interpreter's bound on nested calls ([sys.getrecursionlimit()]). *)
Definition recursion_limit : nat := 1000.

End Py.

Import Py.

Declare Scope py_scope.
Delimit Scope py_scope with py.
Notation "x <- c ;; k" := (bind c (λ x, k))
  (at level 100, c at next level, k at level 200, right associativity) : py_scope.
Notation "c ;; k" := (bind c (λ _, k))
  (at level 100, k at level 200, right associativity) : py_scope.
Local Open Scope py_scope.

(** ** numpy: two-dimensional structured arrays and basic slices *)

Module Numpy.

(** One cell of dtype [render_dt]: the fields the widgets read and write. *)
Record Tile := mkTile { char : nat; color : Z; bkcolor : Z }.

#[global] Instance Tile_eq_dec : EqDecision Tile.
Proof. solve_decision. Defined.

(** A 2-D array is its shape and its cells; cells outside the shape are
    never consulted. *)
Record ndarray := mkArray {
  shape0 : nat;
  shape1 : nat;
  item : Z → Z → Tile
}.

Definition height (a : ndarray) : Z := Z.of_nat (shape0 a).
Definition width (a : ndarray) : Z := Z.of_nat (shape1 a).

(** [slice(start, stop).indices(len)] for step 1: negative bounds count
    from the end, everything is clipped to [0, len], and an inverted range
    is empty. *)
Definition slice_index (len i : Z) : Z :=
  if i <? 0 then Z.max 0 (i + len) else Z.min i len.

Definition slice_bounds (len start stop : Z) : Z * Z :=
  let s := slice_index len start in
  let e := slice_index len stop in
  (s, Z.max s e).

(** Assignment broadcasts the value to the shape of the target: each
    dimension of the value is the target's or 1. *)
Definition broadcastable (n t : Z) : bool := (n =? t) || (n =? 1).
Definition bidx (n i : Z) : Z := if n =? 1 then 0 else i.

(** [a[y0:y1, x0:x1] = src].  The value is read in full before the target
    is written (numpy copies on overlap), so [src] may be [a] itself. *)
Definition setitem_slice (a : ndarray) (y0 y1 x0 x1 : Z) (src : ndarray)
  : option ndarray :=
  let '(sy, ey) := slice_bounds (height a) y0 y1 in
  let '(sx, ex) := slice_bounds (width a) x0 x1 in
  if broadcastable (height src) (ey - sy) && broadcastable (width src) (ex - sx)
  then Some {| shape0 := shape0 a; shape1 := shape1 a;
               item := λ y x,
                 if (sy <=? y) && (y <? ey) && (sx <=? x) && (x <? ex)
                 then item src (bidx (height src) (y - sy))
                               (bidx (width src) (x - sx))
                 else item a y x |}
  else None.

(** [a[y0:y1, x0:x1]] *)
Definition getitem_slice (a : ndarray) (y0 y1 x0 x1 : Z) : ndarray :=
  let '(sy, ey) := slice_bounds (height a) y0 y1 in
  let '(sx, ex) := slice_bounds (width a) x0 x1 in
  {| shape0 := Z.to_nat (ey - sy); shape1 := Z.to_nat (ex - sx);
     item := λ y x, item a (sy + y) (sx + x) |}.

(** [a[field].tolist()] *)
Definition tolist {A} (f : Tile → A) (a : ndarray) : list (list A) :=
  map (λ y, map (λ x, f (item a (Z.of_nat y) (Z.of_nat x))) (seq 0 (shape1 a)))
      (seq 0 (shape0 a)).

Definition rows (a : ndarray) : list (list Tile) := tolist id a.

(** An array from its rows (all rows as long as the first). *)
Definition array (d : Tile) (rs : list (list Tile)) : ndarray :=
  {| shape0 := length rs; shape1 := length (hd [] rs);
     item := λ y x, nth (Z.to_nat x) (nth (Z.to_nat y) rs []) d |}.

(** [a['color'] = c] *)
Definition set_color (c : Z) (a : ndarray) : ndarray :=
  {| shape0 := shape0 a; shape1 := shape1 a;
     item := λ y x, let t := item a y x in
                    {| char := char t; color := c; bkcolor := bkcolor t |} |}.

End Numpy.

Import Numpy.

(** ** Objects, events and the world *)

Abbreviation loc := nat (only parsing).   (* identity of an array *)
Abbreviation wid := nat (only parsing).   (* identity of a widget *)
Abbreviation tid := nat (only parsing).   (* identity of a BearTerminal *)

Inductive value :=
| VNone
| VStr (s : string)
| VInt (z : Z)
| VNum (f : float).

Record BearEvent := mkEvent { event_type : string; event_value : value }.

Definition is_str (v : value) (s : string) : bool :=
  match v with VStr s' => String.eqb s' s | _ => false end.

Inductive parent_ref :=
| NoParent
| WidgetParent (w : wid)
| TerminalParent (t : tid).

(** Attributes that [Layout.__init__] and [Layout.add_child] create.
    [_child_pointers] is read by [scroll_to], [get_child_on_pos] and the
    background setter, but no statement of widgets.py assigns it: it is
    [None] (attribute absent) unless a caller planted it. *)
Record Layout_attrs := mkLayout {
  children : list wid;
  child_locations : gmap wid (Z * Z);
  needs_redraw : bool;
  _child_pointers : option (list (list (list wid)))
}.

(** Attributes of the scrollable classes: the viewport, for a
    [ScrollableWidget] the full array [_tile_array] behind its view, for a
    [ScrollableLayout] the [chars] and [colors] its [_rebuild_self] sets. *)
Record Scrollable_attrs := mkScrollable {
  view_pos : Z * Z;
  view_size : Z * Z;
  _tile_array : option loc;
  chars : list (list nat);
  colors : list (list Z)
}.

(** Attributes of [MenuItem]; [action] is the list of events its callback
    returns ([None] is the empty list). *)
Record MenuItem_attrs := mkMenuItem {
  item_color : Z;              (* [self.color] *)
  highlight_color : Z;
  action : list BearEvent;
  item_needs_redraw : bool     (* [self.needs_redraw] of the item *)
}.

(** Attributes of [MenuWidget]. *)
Record Menu_attrs := mkMenu {
  _current_highlight : Z;
  current_delay : float;
  input_delay : float;
  switch_sound : option string;
  activation_sound : option string
}.

(** An instance of [Widget] or of one of its subclasses: the base
    attributes and, per class it is an instance of, that class's own. *)
Record widget := mkWidget {
  tile_array : loc;
  hidden : bool;
  _terminal : option tid;
  _parent : parent_ref;
  as_Layout : option Layout_attrs;
  as_Scrollable : option Scrollable_attrs;
  as_MenuItem : option MenuItem_attrs;
  as_Menu : option Menu_attrs
}.

(** Modelled from the spec: BearTerminal (bear_hug.bear_hug is not under
    src/).  Of the display backend only the interface the widgets call is
    kept: [update_widget] is recorded in [updates], [check_state] answers
    the pointer position and [widget_locations] where a top-level widget
    was placed. *)
Record world := mkWorld {
  arrays : gmap loc ndarray;
  objs : gmap wid widget;
  next_id : wid;
  updates : list (tid * wid);
  check_state : tid → Z * Z;
  widget_locations : tid → gmap wid (Z * Z)
}.

Definition with_arrays (f : gmap loc ndarray → gmap loc ndarray) (s : world) :=
  {| arrays := f (arrays s); objs := objs s; next_id := next_id s;
     updates := updates s; check_state := check_state s;
     widget_locations := widget_locations s |}.
Definition with_objs (f : gmap wid widget → gmap wid widget) (s : world) :=
  {| arrays := arrays s; objs := f (objs s); next_id := next_id s;
     updates := updates s; check_state := check_state s;
     widget_locations := widget_locations s |}.
Definition with_next_id (n : wid) (s : world) :=
  {| arrays := arrays s; objs := objs s; next_id := n;
     updates := updates s; check_state := check_state s;
     widget_locations := widget_locations s |}.
Definition with_updates (f : list (tid * wid) → list (tid * wid)) (s : world) :=
  {| arrays := arrays s; objs := objs s; next_id := next_id s;
     updates := f (updates s); check_state := check_state s;
     widget_locations := widget_locations s |}.

Definition with_hidden (b : bool) (o : widget) :=
  {| tile_array := tile_array o; hidden := b; _terminal := _terminal o;
     _parent := _parent o; as_Layout := as_Layout o;
     as_Scrollable := as_Scrollable o; as_MenuItem := as_MenuItem o;
     as_Menu := as_Menu o |}.
Definition with_terminal (t : option tid) (o : widget) :=
  {| tile_array := tile_array o; hidden := hidden o; _terminal := t;
     _parent := _parent o; as_Layout := as_Layout o;
     as_Scrollable := as_Scrollable o; as_MenuItem := as_MenuItem o;
     as_Menu := as_Menu o |}.
Definition with_parent (p : parent_ref) (o : widget) :=
  {| tile_array := tile_array o; hidden := hidden o; _terminal := _terminal o;
     _parent := p; as_Layout := as_Layout o;
     as_Scrollable := as_Scrollable o; as_MenuItem := as_MenuItem o;
     as_Menu := as_Menu o |}.
Definition with_Layout (f : option Layout_attrs → option Layout_attrs) (o : widget) :=
  {| tile_array := tile_array o; hidden := hidden o; _terminal := _terminal o;
     _parent := _parent o; as_Layout := f (as_Layout o);
     as_Scrollable := as_Scrollable o; as_MenuItem := as_MenuItem o;
     as_Menu := as_Menu o |}.
Definition with_Scrollable (f : option Scrollable_attrs → option Scrollable_attrs)
    (o : widget) :=
  {| tile_array := tile_array o; hidden := hidden o; _terminal := _terminal o;
     _parent := _parent o; as_Layout := as_Layout o;
     as_Scrollable := f (as_Scrollable o); as_MenuItem := as_MenuItem o;
     as_Menu := as_Menu o |}.
Definition with_MenuItem (f : option MenuItem_attrs → option MenuItem_attrs)
    (o : widget) :=
  {| tile_array := tile_array o; hidden := hidden o; _terminal := _terminal o;
     _parent := _parent o; as_Layout := as_Layout o;
     as_Scrollable := as_Scrollable o; as_MenuItem := f (as_MenuItem o);
     as_Menu := as_Menu o |}.
Definition with_Menu (f : option Menu_attrs → option Menu_attrs) (o : widget) :=
  {| tile_array := tile_array o; hidden := hidden o; _terminal := _terminal o;
     _parent := _parent o; as_Layout := as_Layout o;
     as_Scrollable := as_Scrollable o; as_MenuItem := as_MenuItem o;
     as_Menu := f (as_Menu o) |}.

Definition with_children (f : list wid → list wid) (l : Layout_attrs) :=
  {| children := f (children l); child_locations := child_locations l;
     needs_redraw := needs_redraw l; _child_pointers := _child_pointers l |}.
Definition with_child_locations
    (f : gmap wid (Z * Z) → gmap wid (Z * Z)) (l : Layout_attrs) :=
  {| children := children l; child_locations := f (child_locations l);
     needs_redraw := needs_redraw l; _child_pointers := _child_pointers l |}.
Definition with_needs_redraw (b : bool) (l : Layout_attrs) :=
  {| children := children l; child_locations := child_locations l;
     needs_redraw := b; _child_pointers := _child_pointers l |}.

(** *** Heap access *)

(** Dereferencing.  A Python reference always designates a live object;
    a heap that lacks one is not a state of the program, and reading it
    is reported as [SystemError], which no method raises otherwise. *)
Definition load (w : wid) : M world widget :=
  λ s, match objs s !! w with
       | Some o => (Return o, s)
       | None => (Raise SystemError, s)
       end.

Definition load_array (l : loc) : M world ndarray :=
  λ s, match arrays s !! l with
       | Some a => (Return a, s)
       | None => (Raise SystemError, s)
       end.

Definition update (w : wid) (f : widget → widget) : M world unit :=
  modify (with_objs (alter f w)).

Definition store_array (l : loc) (a : ndarray) : M world unit :=
  modify (with_arrays <[l := a]>).

(** Reading an attribute that only [Layout] instances have. *)
Definition Layout_of (self : wid) : M world Layout_attrs :=
  o <- load self ;;
  match as_Layout o with
  | Some l => ret l
  | None => raise AttributeError
  end.

Definition update_Layout (self : wid) (f : Layout_attrs → Layout_attrs)
  : M world unit :=
  update self (with_Layout (fmap f)).

(** Object creation: a fresh identity. *)
Definition new (o : widget) : M world wid :=
  λ s, (Return (next_id s),
        with_next_id (S (next_id s)) (with_objs <[next_id s := o]> s)).

(** [terminal.update_widget(w)] *)
Definition update_widget (t : tid) (w : wid) : M world unit :=
  modify (with_updates (λ u, u ++ [(t, w)])).

(** ** class Widget *)

(** [Widget.__init__(tile_array, terminal=...)] *)
Definition Widget_init (array : loc) (terminal : option tid) : M world wid :=
  new {| tile_array := array; hidden := false; _terminal := terminal;
         _parent := NoParent; as_Layout := None; as_Scrollable := None;
         as_MenuItem := None; as_Menu := None |}.

(** The [parent] setter.  Its type check admits a Widget, a BearTerminal
    or a false value, which is all a [parent_ref] can be. *)
Definition set_parent (self : wid) (value : parent_ref) : M world unit :=
  update self (with_parent value).

(** The [terminal] setters of [Widget] and of [Layout], chosen by the
    class of [self].  The Layout one hands the value on to every child,
    which calls the child's own setter; [depth] is what is left of the
    interpreter's recursion limit.  Their type check admits a BearTerminal
    or a false value, which is all an [option tid] can be. *)
Fixpoint set_terminal (depth : nat) (self : wid) (value : option tid)
  : M world unit :=
  match depth with
  | O => raise RecursionError
  | S d =>
      o <- load self ;;
      update self (with_terminal value) ;;
      match as_Layout o with
      | None => ret tt
      | Some l => for_each (children l) (λ child, set_terminal d child value)
      end
  end.

(** ** class Layout *)

(** What a caller may pass as [child]: a Widget (or subclass) instance, or
    any other object, which may or may not have a [tile_array] with a
    two-dimensional [shape]. *)
Inductive pyobj :=
| PyWidget (w : wid)
| PyOther (tile_array_shape : option (Z * Z)).

(** [child.tile_array.shape] *)
Definition shape_of (child : pyobj) : M world (Z * Z) :=
  match child with
  | PyWidget c =>
      o <- load c ;;
      a <- load_array (tile_array o) ;;
      ret (height a, width a)
  | PyOther (Some sh) => ret sh
  | PyOther None => raise AttributeError
  end.

(** [Layout.add_child(child, pos)] *)
Definition add_child (self : wid) (child : pyobj) (pos : Z * Z) : M world unit :=
  me <- load self ;;
  a <- load_array (tile_array me) ;;
  let layout_y := height a in
  let layout_x := width a in
  sh <- shape_of child ;;
  let '(child_y, child_x) := sh in
  let '(pos_y, pos_x) := pos in
  match child with
  | PyOther _ => raise BearLayoutException
  | PyWidget c =>
      l <- Layout_of self ;;
      if bool_decide (c ∈ children l) then raise BearLayoutException
      else if (layout_y <? child_y) || (layout_x <? child_x)
      then raise BearLayoutException
      else if (child_y + pos_y >? layout_y) || (child_x + pos_x >? layout_x)
      then raise BearLayoutException
      else if bool_decide (c = self) then raise BearLayoutException
      else
        update_Layout self (with_children (λ cs, cs ++ [c])) ;;
        update_Layout self (with_child_locations <[c := pos]>) ;;
        me' <- load self ;;
        set_terminal recursion_limit c (_terminal me') ;;
        set_parent c (WidgetParent self) ;;
        update_Layout self (with_needs_redraw true)
  end.

(** [Layout.__init__(tile_array, terminal=...)]: the background child is a
    plain Widget built on the very array the Layout was given. *)
Definition Layout_init (array : loc) (terminal : option tid) : M world wid :=
  self <- Widget_init array terminal ;;
  update self (with_Layout (λ _, Some {| children := []; child_locations := ∅;
                                         needs_redraw := false;
                                         _child_pointers := None |})) ;;
  me <- load self ;;
  _ <- load_array (tile_array me) ;;
  w <- Widget_init array None ;;
  add_child self (PyWidget w) (0, 0) ;;
  update_Layout self (with_needs_redraw false) ;;
  ret self.

(** [list.remove(x)]: drops the first occurrence. *)
Fixpoint list_remove (x : wid) (l : list wid) : list wid :=
  match l with
  | [] => []
  | y :: l' => if decide (y = x) then l' else y :: list_remove x l'
  end.

(** [Layout.remove_child(child)] *)
Definition remove_child (self : wid) (child : wid) : M world unit :=
  l <- Layout_of self ;;
  if bool_decide (child ∈ children l) then
    match child_locations l !! child with
    | None => raise KeyError
    | Some _ =>
        update_Layout self (with_child_locations (delete child)) ;;
        update_Layout self (with_children (list_remove child)) ;;
        set_terminal recursion_limit child None ;;
        set_parent child NoParent ;;
        update_Layout self (with_needs_redraw true)
    end
  else raise BearLayoutException.

(** [Layout.move_child(child, new_pos)] *)
Definition move_child (self : wid) (child : wid) (new_pos : Z * Z) : M world unit :=
  update_Layout self (with_child_locations <[child := new_pos]>) ;;
  update_Layout self (with_needs_redraw true).

(** One turn of the loop of [Layout._rebuild_self]. *)
Definition paste_child (self : wid) (child : wid) : M world unit :=
  c <- load child ;;
  if hidden c then ret tt
  else
    ca <- load_array (tile_array c) ;;
    l <- Layout_of self ;;
    match child_locations l !! child with
    | None => raise KeyError
    | Some (pos_y, pos_x) =>
        me <- load self ;;
        a <- load_array (tile_array me) ;;
        match setitem_slice a pos_y (pos_y + height ca)
                              pos_x (pos_x + width ca) ca with
        | None => raise ValueError
        | Some a' => store_array (tile_array me) a'
        end
    end.

(** [Layout._rebuild_self()] *)
Definition Layout_rebuild_self (self : wid) : M world unit :=
  l <- Layout_of self ;;
  for_each (children l) (paste_child self).

(** [Layout.on_event(event)], with [rebuild] the [_rebuild_self] of the
    class of [self]. *)
Definition Layout_on_event_with (rebuild : wid → M world unit)
    (self : wid) (event : BearEvent) : M world unit :=
  if negb (String.eqb (event_type event) "service") then ret tt
  else if negb (is_str (event_value event) "tick_over") then ret tt
  else
    l <- Layout_of self ;;
    if negb (needs_redraw l) then ret tt
    else
      rebuild self ;;
      me <- load self ;;
      match _parent me with
      | TerminalParent _ =>
          match _terminal me with
          | Some t => update_widget t self
          | None => raise AttributeError
          end
      | _ => ret tt
      end ;;
      update_Layout self (with_needs_redraw false).

(** [seq[i]] for a Python list. *)
Definition py_getitem {S A} (l : list A) (i : Z) : M S A :=
  let j := if i <? 0 then i + Z.of_nat (length l) else i in
  if j <? 0 then raise IndexError
  else match l !! Z.to_nat j with
       | Some x => ret x
       | None => raise IndexError
       end.

(** [Layout.get_child_on_pos(pos, return_bg)] *)
Definition get_child_on_pos (self : wid) (pos : Z * Z) (return_bg : bool)
  : M world (option wid) :=
  l <- Layout_of self ;;
  match _child_pointers l with
  | None => raise AttributeError
  | Some cp =>
      row <- py_getitem cp (snd pos) ;;
      stack <- py_getitem row (fst pos) ;;
      if 1 <? Z.of_nat (length stack) then
        top <- py_getitem stack (-1) ;;
        ret (Some top)
      else if return_bg then
        bg <- py_getitem (children l) 0 ;;
        ret (Some bg)
      else ret None
  end.

(** ** class ScrollableWidget *)

(** The checks that open [ScrollableWidget.__init__] (lines 584 to 591):
    the position of the viewport, then its size, each raising
    [BearLayoutException].  What follows them in the constructor makes
    the widget's [tile_array] a numpy view that shares the memory of the
    full array; arrays that share memory in part are outside this model,
    so the embedding of the constructor ends with its checks. *)
Definition ScrollableWidget_init_checks (array : loc) (view_pos view_size : Z * Z)
  : M world unit :=
  a <- load_array array ;;
  if negb ((0 <=? fst view_pos) && (fst view_pos <=? height a - fst view_size))
     || negb ((0 <=? snd view_pos) && (snd view_pos <=? width a - snd view_size))
  then raise BearLayoutException
  else if negb ((0 <? fst view_size) && (fst view_size <=? height a))
          || negb ((0 <? snd view_size) && (snd view_size <=? width a))
  then raise BearLayoutException
  else ret tt.

(** ** class ScrollableLayout *)

Definition Scrollable_of (self : wid) : M world Scrollable_attrs :=
  o <- load self ;;
  match as_Scrollable o with
  | Some sc => ret sc
  | None => raise AttributeError
  end.

(** [ScrollableLayout._rebuild_self()]: only the view is cut out of the
    array; the children are not walked. *)
Definition ScrollableLayout_rebuild_self (self : wid) : M world unit :=
  me <- load self ;;
  a <- load_array (tile_array me) ;;
  sc <- Scrollable_of self ;;
  let view := getitem_slice a (snd (view_pos sc)) (snd (view_pos sc) + snd (view_size sc))
                              (fst (view_pos sc)) (fst (view_pos sc) + fst (view_size sc)) in
  update self (with_Scrollable (fmap (λ sc,
    {| view_pos := view_pos sc; view_size := view_size sc;
       _tile_array := _tile_array sc;
       chars := tolist char view; colors := tolist color view |}))).

(** [ScrollableLayout.__init__(tile_array, view_pos, view_size)] *)
Definition ScrollableLayout_init (array : loc) (terminal : option tid)
    (view_pos view_size : Z * Z) : M world wid :=
  self <- Layout_init array terminal ;;
  me <- load self ;;
  a <- load_array (tile_array me) ;;
  if negb ((0 <=? fst view_pos) && (fst view_pos <=? width a - fst view_size))
     || negb ((0 <=? snd view_pos) && (snd view_pos <=? height a - snd view_size))
  then raise BearLayoutException
  else if negb ((0 <? fst view_size) && (fst view_size <=? height a))
          || negb ((0 <? snd view_size) && (snd view_size <=? width a))
  then raise BearLayoutException
  else
    update self (with_Scrollable (λ _, Some {| view_pos := view_pos;
                                               view_size := view_size;
                                               _tile_array := None;
                                               chars := []; colors := [] |})) ;;
    ScrollableLayout_rebuild_self self ;;
    ret self.

Definition with_view_pos (p : Z * Z) (sc : Scrollable_attrs) :=
  {| view_pos := p; view_size := view_size sc; _tile_array := _tile_array sc;
     chars := chars sc; colors := colors sc |}.

(** [ScrollableLayout.scroll_to(pos)].  The chained comparisons stop at
    their first false link, so [self._child_pointers] is only looked up
    once [0 <= pos[0]] holds. *)
Definition scroll_to (self : wid) (pos : list value) : M world unit :=
  match pos with
  | [VInt p0; VInt p1] =>
      if negb (0 <=? p0) then raise BearLayoutException
      else
        l <- Layout_of self ;;
        match _child_pointers l with
        | None => raise AttributeError
        | Some cp =>
            row0 <- py_getitem cp 0 ;;
            sc <- Scrollable_of self ;;
            if negb (p0 <=? Z.of_nat (length row0) - fst (view_size sc))
            then raise BearLayoutException
            else if negb (0 <=? p1) then raise BearLayoutException
            else if negb (p1 <=? Z.of_nat (length cp) - snd (view_size sc))
            then raise BearLayoutException
            else update self (with_Scrollable (fmap (with_view_pos (p0, p1))))
        end
  | _ => raise BearLayoutException
  end.

(** [ScrollableLayout.scroll_by(shift)] *)
Definition scroll_by (self : wid) (shift : Z * Z) : M world unit :=
  sc <- Scrollable_of self ;;
  scroll_to self [VInt (fst (view_pos sc) + fst shift);
                  VInt (snd (view_pos sc) + snd shift)].

(** [self._rebuild_self()] as [Layout.on_event] resolves it. *)
Definition rebuild_self (self : wid) : M world unit :=
  o <- load self ;;
  match as_Scrollable o with
  | Some _ => ScrollableLayout_rebuild_self self
  | None => Layout_rebuild_self self
  end.

Definition Layout_on_event : wid → BearEvent → M world unit :=
  Layout_on_event_with rebuild_self.

(** ** class MenuItem *)

Definition MenuItem_of (self : wid) : M world MenuItem_attrs :=
  o <- load self ;;
  match as_MenuItem o with
  | Some it => ret it
  | None => raise AttributeError
  end.

Definition with_item_needs_redraw (b : bool) (it : MenuItem_attrs) :=
  {| item_color := item_color it; highlight_color := highlight_color it;
     action := action it; item_needs_redraw := b |}.

(** [MenuItem.highlight()] and [MenuItem.unhighlight()]; calling either on
    an object that is not a MenuItem is an AttributeError. *)
Definition recolor (pick : MenuItem_attrs → Z) (self : wid) : M world unit :=
  it <- MenuItem_of self ;;
  o <- load self ;;
  a <- load_array (tile_array o) ;;
  store_array (tile_array o) (set_color (pick it) a) ;;
  update self (with_MenuItem (fmap (with_item_needs_redraw true))).

Definition highlight : wid → M world unit := recolor highlight_color.
Definition unhighlight : wid → M world unit := recolor item_color.

(** [MenuItem.activate()] *)
Definition activate (self : wid) : M world (list BearEvent) :=
  it <- MenuItem_of self ;;
  ret (action it).

(** ** class MenuWidget *)

Definition Menu_of (self : wid) : M world Menu_attrs :=
  o <- load self ;;
  match as_Menu o with
  | Some m => ret m
  | None => raise AttributeError
  end.

Definition with_current_highlight (h : Z) (m : Menu_attrs) :=
  {| _current_highlight := h; current_delay := current_delay m;
     input_delay := input_delay m; switch_sound := switch_sound m;
     activation_sound := activation_sound m |}.
Definition with_current_delay (d : float) (m : Menu_attrs) :=
  {| _current_highlight := _current_highlight m; current_delay := d;
     input_delay := input_delay m; switch_sound := switch_sound m;
     activation_sound := activation_sound m |}.

Definition update_Menu (self : wid) (f : Menu_attrs → Menu_attrs) : M world unit :=
  update self (with_Menu (fmap f)).

(** The [current_highlight] setter. *)
Definition set_current_highlight (self : wid) (value : Z) : M world unit :=
  l <- Layout_of self ;;
  if negb ((1 <=? value) && (value <=? Z.of_nat (length (children l)) - 1))
  then raise ValueError
  else
    m <- Menu_of self ;;
    old <- py_getitem (children l) (_current_highlight m) ;;
    unhighlight old ;;
    update_Menu self (with_current_highlight value) ;;
    new' <- py_getitem (children l) value ;;
    highlight new' ;;
    update_Layout self (with_needs_redraw true).

(** What [on_event] hands back: events, and (from the loop over the
    children of a menu) the children that answered. *)
Inductive emitted :=
| Emit (e : BearEvent)
| EmitWidget (w : wid).

(** [float(z)] for a Python [int]: the nearest binary64 number, ties to
    even; there is none ([OverflowError]) beyond the largest float. *)
Definition float_of_int (z : Z) : option float :=
  let f := SF2Prim (binary_normalize prec emax z 0 false) in
  if PrimFloat.is_infinity f then None else Some f.

(** The right operand of [self.current_delay += event.event_value] and of
    [self.have_waited += event.event_value].  The attribute on the left is
    a float here (the [0] that the classes store is [0.0]), so an [int]
    operand is converted first; for sums of [int] ticks alone Python stays
    in exact integers, which this agrees with below [2^53]. *)
Definition as_number (v : value) : option float :=
  match v with
  | VInt z => float_of_int z
  | VNum f => Some f
  | _ => None
  end.

(** What the [+=] raises on an operand that [as_number] refuses. *)
Definition number_error (v : value) : exn :=
  match v with
  | VInt _ => OverflowError
  | _ => TypeError
  end.

(** [list.index(x)] *)
Fixpoint list_index (x : wid) (l : list wid) : option Z :=
  match l with
  | [] => None
  | y :: l' => if decide (y = x) then Some 0 else Z.succ <$> list_index x l'
  end.

Fixpoint collect {S A B} (xs : list A) (f : A → M S (list B)) : M S (list B) :=
  match xs with
  | [] => ret []
  | x :: xs' => r <- f x ;; rs <- collect xs' f ;; ret (r ++ rs)
  end.

(** The three branches of [MenuWidget.on_event] that look at the event:
    the result is [(r, have_switched, have_activated)]. *)
Definition MenuWidget_react (self : wid) (event : BearEvent)
  : M world (list BearEvent * bool * bool) :=
  m <- Menu_of self ;;
  let v := event_value event in
  if String.eqb (event_type event) "tick"
     && PrimFloat.leb (current_delay m) (input_delay m) then
    match as_number v with
    | Some dt =>
        update_Menu self (with_current_delay (current_delay m + dt)%float) ;;
        ret ([], false, false)
    | None => raise (number_error v)
    end
  else if String.eqb (event_type event) "key_down"
          && PrimFloat.leb (input_delay m) (current_delay m) then
    update_Menu self (with_current_delay 0%float) ;;
    l <- Layout_of self ;;
    if is_str v "TK_SPACE" || is_str v "TK_ENTER" then
      it <- py_getitem (children l) (_current_highlight m) ;;
      r <- activate it ;;
      ret (r, false, true)
    else if (is_str v "TK_UP" || is_str v "TK_W")
            && (1 <? _current_highlight m) then
      set_current_highlight self (_current_highlight m - 1) ;;
      ret ([], true, false)
    else if (is_str v "TK_DOWN" || is_str v "TK_S")
            && (_current_highlight m <? Z.of_nat (length (children l)) - 2) then
      set_current_highlight self (_current_highlight m + 1) ;;
      ret ([], true, false)
    else ret ([], false, false)
  else if String.eqb (event_type event) "misc_input"
          && is_str v "TK_MOUSE_MOVE" then
    me <- load self ;;
    match _terminal me with
    | None => ret ([], false, false)
    | Some t =>
        s <- get ;;
        let '(mouse_x, mouse_y) := check_state s t in
        match widget_locations s t !! self with
        | None => raise KeyError
        | Some (x, y) =>
            a <- load_array (tile_array me) ;;
            if (x <=? mouse_x) && (mouse_x <? x + width a)
               && (y <=? mouse_y) && (mouse_y <? y + height a) then
              b <- get_child_on_pos self (mouse_x - x, mouse_y - y) false ;;
              match b with
              | None => ret ([], false, false)
              | Some b' =>
                  ob <- load b' ;;
                  match as_MenuItem ob with
                  | None => ret ([], false, false)
                  | Some _ =>
                      l <- Layout_of self ;;
                      match list_index b' (children l) with
                      | None => raise ValueError
                      | Some i =>
                          set_current_highlight self i ;;
                          ret ([], true, false)
                      end
                  end
              end
            else ret ([], false, false)
        end
    end
  else ret ([], false, false).

(** [if sound and flag: ret.append(BearEvent('play_sound', sound))]: the
    test is Python's truth of [sound], so neither [None] nor the empty
    string is ever played. *)
Definition truthy (sound : option string) : bool :=
  match sound with
  | Some (String _ _) => true
  | _ => false
  end.

Definition play_sound (sound : option string) (flag : bool) : list emitted :=
  if truthy sound && flag then
    match sound with
    | Some snd' => [Emit (mkEvent "play_sound" (VStr snd'))]
    | None => []
    end
  else [].

(** [MenuWidget.on_event(event)]; [child_on_event] is [item.on_event] as
    the class of each child resolves it.  (The [print] of the pressed key
    is left out.) *)
Definition MenuWidget_on_event
    (child_on_event : wid → BearEvent → M world (list emitted))
    (self : wid) (event : BearEvent) : M world (list emitted) :=
  res <- MenuWidget_react self event ;;
  let '(r, have_switched, have_activated) := res in
  l <- Layout_of self ;;
  answered <- collect (children l) (λ item,
    response <- child_on_event item event ;;
    ret (match response with [] => [] | _ => [EmitWidget item] end)) ;;
  m <- Menu_of self ;;
  let switch := play_sound (switch_sound m) have_switched in
  let activation := play_sound (activation_sound m) have_activated in
  Layout_on_event self event ;;
  ret (map Emit r ++ answered ++ switch ++ activation).

(** [w.on_event(event)] for the classes of this file that live in the
    heap: [MenuWidget], [Layout] (and [ScrollableLayout]), and the passive
    [Widget] and [MenuItem]. *)
Fixpoint on_event (depth : nat) (self : wid) (event : BearEvent)
  : M world (list emitted) :=
  match depth with
  | O => raise RecursionError
  | S d =>
      o <- load self ;;
      match as_Menu o, as_Layout o with
      | Some _, _ => MenuWidget_on_event (on_event d) self event
      | None, Some _ => Layout_on_event self event ;; ret []
      | None, None => ret []
      end
  end.

(** ** Animation and the two playback widgets

    These widgets keep their state in themselves.  Seconds are Python
    floats (IEEE binary64): [+=] is the rounded sum and [>=] the float
    comparison, so ten ticks of [0.01] add up to [0.09999999999999999],
    short of a frame time of [0.1]. *)

Module Anim.

Definition image : Type := list (list nat) * list (list Z).

(** [class Animation]: [frames] is not empty (the constructor reads
    [frames[0]]) and [frame_time] is the float quotient [1 / fps]; the
    constructor raises [ZeroDivisionError] on an [fps] of zero, so the
    [fps] of an Animation is never zero. *)
Record Animation := mkAnimation { frames : list image; fps : float }.

Definition frame_time (a : Animation) : float := (1 / fps a)%float.
Definition len (a : Animation) : Z := Z.of_nat (length (frames a)).

(** [self.parent is self.terminal] *)
Definition parent_is_terminal (p : parent_ref) (t : option tid) : bool :=
  match p, t with
  | NoParent, None => true
  | TerminalParent a, Some b => bool_decide (a = b)
  | _, _ => false
  end.

Definition ecs_update : BearEvent := mkEvent "ecs_update" VNone.
Definition tick (dt : float) : BearEvent := mkEvent "tick" (VNum dt).


End Anim.

Module Simple.
Import Anim.

(** The attributes of a [SimpleAnimationWidget], and [updates], the calls
    of [terminal.update_widget(self)] made so far. *)
Record SimpleAnimationWidget := mkSimple {
  animation : Animation;
  running_index : Z;
  have_waited : float;
  emit_ecs : bool;
  is_running : bool;
  chars : list (list nat);
  colors : list (list Z);
  parent : parent_ref;
  terminal : option tid;
  updates : list tid
}.

Definition with_have_waited (q : float) (w : SimpleAnimationWidget) :=
  {| animation := animation w; running_index := running_index w;
     have_waited := q; emit_ecs := emit_ecs w; is_running := is_running w;
     chars := chars w; colors := colors w; parent := parent w;
     terminal := terminal w; updates := updates w |}.
Definition with_running_index (i : Z) (w : SimpleAnimationWidget) :=
  {| animation := animation w; running_index := i;
     have_waited := have_waited w; emit_ecs := emit_ecs w;
     is_running := is_running w;
     chars := chars w; colors := colors w; parent := parent w;
     terminal := terminal w; updates := updates w |}.
Definition with_chars (c : list (list nat)) (w : SimpleAnimationWidget) :=
  {| animation := animation w; running_index := running_index w;
     have_waited := have_waited w; emit_ecs := emit_ecs w;
     is_running := is_running w;
     chars := c; colors := colors w; parent := parent w;
     terminal := terminal w; updates := updates w |}.
Definition with_colors (c : list (list Z)) (w : SimpleAnimationWidget) :=
  {| animation := animation w; running_index := running_index w;
     have_waited := have_waited w; emit_ecs := emit_ecs w;
     is_running := is_running w;
     chars := chars w; colors := c; parent := parent w;
     terminal := terminal w; updates := updates w |}.
Definition with_is_running (b : bool) (w : SimpleAnimationWidget) :=
  {| animation := animation w; running_index := running_index w;
     have_waited := have_waited w; emit_ecs := emit_ecs w;
     is_running := b;
     chars := chars w; colors := colors w; parent := parent w;
     terminal := terminal w; updates := updates w |}.
Definition with_updates (u : list tid) (w : SimpleAnimationWidget) :=
  {| animation := animation w; running_index := running_index w;
     have_waited := have_waited w; emit_ecs := emit_ecs w;
     is_running := is_running w;
     chars := chars w; colors := colors w; parent := parent w;
     terminal := terminal w; updates := u |}.

(** [SimpleAnimationWidget.on_event(event)] *)
Definition on_event (event : BearEvent)
  : M SimpleAnimationWidget (option BearEvent) :=
  self <- get ;;
  if String.eqb (event_type event) "tick" && is_running self then
    match as_number (event_value event) with
    | None => raise (number_error (event_value event))
    | Some dt =>
        modify (with_have_waited (have_waited self + dt)%float) ;;
        self <- get ;;
        if PrimFloat.leb (frame_time (animation self)) (have_waited self) then
          modify (with_running_index (running_index self + 1)) ;;
          self <- get ;;
          (if running_index self >=? len (animation self)
           then modify (with_running_index 0) else ret tt) ;;
          self <- get ;;
          f <- py_getitem (frames (animation self)) (running_index self) ;;
          modify (with_chars (fst f)) ;;
          self <- get ;;
          f <- py_getitem (frames (animation self)) (running_index self) ;;
          modify (with_colors (snd f)) ;;
          modify (with_have_waited 0%float) ;;
          self <- get ;;
          if emit_ecs self then ret (Some ecs_update) else ret None
        else ret None
    end
  else if parent_is_terminal (parent self) (terminal self)
          && String.eqb (event_type event) "service"
          && is_str (event_value event) "tick_over" then
    match terminal self with
    | None => raise AttributeError
    | Some t => modify (λ w, with_updates (updates w ++ [t]) w) ;; ret None
    end
  else ret None.

(** [stop()] and [start()] *)
Definition stop : M SimpleAnimationWidget unit := modify (with_is_running false).
Definition start : M SimpleAnimationWidget unit := modify (with_is_running true).

End Simple.

Module Multiple.
Import Anim.

(** The attributes of a [MultipleAnimationWidget], and [updates], the
    calls of [terminal.update_widget(self)] made so far. *)
Record MultipleAnimationWidget := mkMultiple {
  animations : gmap string Animation;
  current_animation : string;
  running_index : Z;
  have_waited : float;
  emit_ecs : bool;
  cycle : bool;
  am_running : bool;
  chars : list (list nat);
  colors : list (list Z);
  parent : parent_ref;
  terminal : option tid;
  updates : list tid
}.

Definition with_have_waited (q : float) (w : MultipleAnimationWidget) :=
  {| animations := animations w; current_animation := current_animation w;
     running_index := running_index w; have_waited := q;
     emit_ecs := emit_ecs w; cycle := cycle w; am_running := am_running w;
     chars := chars w; colors := colors w; parent := parent w;
     terminal := terminal w; updates := updates w |}.
Definition with_running_index (i : Z) (w : MultipleAnimationWidget) :=
  {| animations := animations w; current_animation := current_animation w;
     running_index := i; have_waited := have_waited w;
     emit_ecs := emit_ecs w; cycle := cycle w; am_running := am_running w;
     chars := chars w; colors := colors w; parent := parent w;
     terminal := terminal w; updates := updates w |}.
Definition with_am_running (b : bool) (w : MultipleAnimationWidget) :=
  {| animations := animations w; current_animation := current_animation w;
     running_index := running_index w; have_waited := have_waited w;
     emit_ecs := emit_ecs w; cycle := cycle w; am_running := b;
     chars := chars w; colors := colors w; parent := parent w;
     terminal := terminal w; updates := updates w |}.
Definition with_chars (c : list (list nat)) (w : MultipleAnimationWidget) :=
  {| animations := animations w; current_animation := current_animation w;
     running_index := running_index w; have_waited := have_waited w;
     emit_ecs := emit_ecs w; cycle := cycle w; am_running := am_running w;
     chars := c; colors := colors w; parent := parent w;
     terminal := terminal w; updates := updates w |}.
Definition with_colors (c : list (list Z)) (w : MultipleAnimationWidget) :=
  {| animations := animations w; current_animation := current_animation w;
     running_index := running_index w; have_waited := have_waited w;
     emit_ecs := emit_ecs w; cycle := cycle w; am_running := am_running w;
     chars := chars w; colors := c; parent := parent w;
     terminal := terminal w; updates := updates w |}.
Definition with_updates (u : list tid) (w : MultipleAnimationWidget) :=
  {| animations := animations w; current_animation := current_animation w;
     running_index := running_index w; have_waited := have_waited w;
     emit_ecs := emit_ecs w; cycle := cycle w; am_running := am_running w;
     chars := chars w; colors := colors w; parent := parent w;
     terminal := terminal w; updates := u |}.

(** The [animation] property. *)
Definition animation : M MultipleAnimationWidget Animation :=
  self <- get ;;
  match animations self !! current_animation self with
  | Some a => ret a
  | None => raise KeyError
  end.

(** [MultipleAnimationWidget.on_event(event)] *)
Definition on_event (event : BearEvent)
  : M MultipleAnimationWidget (option BearEvent) :=
  self <- get ;;
  if am_running self then
    if String.eqb (event_type event) "tick" then
      match as_number (event_value event) with
      | None => raise (number_error (event_value event))
      | Some dt =>
          modify (with_have_waited (have_waited self + dt)%float) ;;
          self <- get ;;
          a <- animation ;;
          if PrimFloat.leb (frame_time a) (have_waited self) then
            modify (with_running_index (running_index self + 1)) ;;
            self <- get ;;
            a <- animation ;;
            (if running_index self >=? len a then
               if cycle self then modify (with_running_index 0)
               else modify (with_am_running false)
             else ret tt) ;;
            self <- get ;;
            a <- animation ;;
            f <- py_getitem (frames a) (running_index self) ;;
            modify (with_chars (fst f)) ;;
            self <- get ;;
            a <- animation ;;
            f <- py_getitem (frames a) (running_index self) ;;
            modify (with_colors (snd f)) ;;
            modify (with_have_waited 0%float) ;;
            self <- get ;;
            if emit_ecs self then ret (Some ecs_update) else ret None
          else ret None
      end
    else if parent_is_terminal (parent self) (terminal self)
            && String.eqb (event_type event) "service"
            && is_str (event_value event) "tick_over" then
      match terminal self with
      | None => raise AttributeError
      | Some t => modify (λ w, with_updates (updates w ++ [t]) w) ;; ret None
      end
    else ret None
  else ret None.

(** [MultipleAnimationWidget.set_animation(anim_id, cycle)] *)
Definition set_animation (anim_id : string) (cycle' : bool)
  : M MultipleAnimationWidget unit :=
  self <- get ;;
  match animations self !! anim_id with
  | None => raise BearException
  | Some _ =>
      put {| animations := animations self; current_animation := anim_id;
             running_index := running_index self;
             have_waited := have_waited self; emit_ecs := emit_ecs self;
             cycle := cycle'; am_running := true;
             chars := chars self; colors := colors self;
             parent := parent self; terminal := terminal self;
             updates := updates self |}
  end.

End Multiple.

(** ** class SwitchingWidget *)

Module Switching.

(** After [__init__] the instance has [tile_array] and [layer] (the chars
    and colors of the initial image, as [Widget.__init__] receives them);
    [chars] and [colors] appear with the first switch. *)
Record SwitchingWidget := mkSwitching {
  images : gmap string Anim.image;
  current_image : string;
  tile_array : list (list nat);
  layer : list (list Z);
  chars : option (list (list nat));
  colors : option (list (list Z))
}.

Definition lookup_image (image_id : string) : M SwitchingWidget Anim.image :=
  self <- get ;;
  match images self !! image_id with
  | Some i => ret i
  | None => raise KeyError
  end.

(** [SwitchingWidget.switch_to_image(image_id)] *)
Definition switch_to_image (image_id : string) : M SwitchingWidget unit :=
  self <- get ;;
  if negb (String.eqb image_id (current_image self)) then
    try_except
      (i <- lookup_image image_id ;;
       modify (λ w, {| images := images w; current_image := current_image w;
                       tile_array := tile_array w; layer := layer w;
                       chars := Some (fst i); colors := colors w |}) ;;
       i <- lookup_image image_id ;;
       modify (λ w, {| images := images w; current_image := current_image w;
                       tile_array := tile_array w; layer := layer w;
                       chars := chars w; colors := Some (snd i) |}) ;;
       modify (λ w, {| images := images w; current_image := image_id;
                       tile_array := tile_array w; layer := layer w;
                       chars := chars w; colors := colors w |}))
      KeyError
      (raise BearException)
  else ret tt.

End Switching.

(** * Vocabulary of the specification *)

(** What a recomposite needs to know of a child: whether it is hidden,
    which array it draws from, and that array's height and width. *)
Definition geom (s : world) (c : wid) : option (bool * loc * Z * Z) :=
  match objs s !! c with
  | Some oc =>
      match arrays s !! tile_array oc with
      | Some ca => Some (hidden oc, tile_array oc, height ca, width ca)
      | None => None
      end
  | None => None
  end.

(** The child, placed at its recorded offset, lies within the [h] by [w]
    grid of the Layout. *)
Definition valid_child (s : world) (h w : Z) (l : Layout_attrs) (c : wid) : bool :=
  match geom s c, child_locations l !! c with
  | Some (_, _, ch, cw), Some (py, px) =>
      (0 <=? py) && (py + ch <=? h) && (0 <=? px) && (px + cw <=? w)
  | _, _ => false
  end.

(** The Layout invariant of the data model: every child lies within the
    Layout's own grid. *)
Definition valid_layout (s : world) (self : wid) : bool :=
  match objs s !! self with
  | Some me =>
      match as_Layout me, arrays s !! tile_array me with
      | Some l, Some a =>
          forallb (valid_child s (height a) (width a) l) (children l)
      | _, _ => false
      end
  | None => false
  end.

(** Child [c] is shown and its rectangle contains the Layout cell (y, x). *)
Definition covers (s : world) (l : Layout_attrs) (c : wid) (y x : Z) : bool :=
  match geom s c, child_locations l !! c with
  | Some (hid, _, ch, cw), Some (py, px) =>
      negb hid && (py <=? y) && (y <? py + ch) && (px <=? x) && (x <? px + cw)
  | _, _ => false
  end.

(** The tile at (y, x) of the array stored at [k]. *)
Definition cell (s : world) (k : loc) (y x : Z) : option Tile :=
  (λ a, item a y x) <$> arrays s !! k.

(** The tile buffer of widget [w], row by row. *)
Definition buffer (s : world) (w : wid) : option (list (list Tile)) :=
  match objs s !! w with
  | Some o => rows <$> arrays s !! tile_array o
  | None => None
  end.

(** The tile child [c] holds for the Layout cell (y, x). *)
Definition child_cell (s : world) (l : Layout_attrs) (c : wid) (y x : Z)
  : option Tile :=
  match objs s !! c, child_locations l !! c with
  | Some oc, Some (py, px) => cell s (tile_array oc) (y - py) (x - px)
  | _, _ => None
  end.

Definition same_shape (a a' : ndarray) : Prop :=
  shape0 a' = shape0 a ∧ shape1 a' = shape1 a.

(** [s'] differs from [s] at most in the cells of the array at [k]. *)
Definition repainted (k : loc) (s s' : world) : Prop :=
  objs s' = objs s ∧
  (∀ k', k' ≠ k → arrays s' !! k' = arrays s !! k') ∧
  ∃ a a', arrays s !! k = Some a ∧ arrays s' !! k = Some a' ∧ same_shape a a'.


(** The viewport condition as the specification words it, for a backing
    buffer [bw] wide and [bh] high: position and size are checked width
    against width and height against height. *)
Definition viewport_as_stated (bw bh pos_x pos_y size_w size_h : Z) : bool :=
  (0 <=? pos_x) && (pos_x <=? bw - size_w) &&
  (0 <=? pos_y) && (pos_y <=? bh - size_h) &&
  (0 <? size_w) && (size_w <=? bw) && (0 <? size_h) && (size_h <=? bh).

(** The five grounds on which [add_child] turns a Widget down, for a
    Layout with attributes [l] on array [a] and a child on array [ca]. *)
Definition add_child_rejects (a ca : ndarray) (l : Layout_attrs)
    (self c : wid) (pos : Z * Z) : bool :=
  bool_decide (c ∈ children l)
  || ((height a <? height ca) || (width a <? width ca))
  || ((height ca + fst pos >? height a) || (width ca + snd pos >? width a))
  || bool_decide (c = self).

(** [s'] differs from [s] at most in that some widgets had their
    [_terminal] set to [v]. *)
Definition terminal_set (v : option tid) (s s' : world) : Prop :=
  s' = with_objs (λ _, objs s') s ∧
  ∀ w, objs s' !! w = objs s !! w ∨
       ∃ o, objs s !! w = Some o ∧ objs s' !! w = Some (with_terminal v o).

(** What [add_child] does once it has accepted the child. *)
Definition add_child_commit (self c : wid) (pos : Z * Z) : M world unit :=
  update_Layout self (with_children (λ cs, cs ++ [c])) ;;
  update_Layout self (with_child_locations <[c := pos]>) ;;
  me' <- load self ;;
  set_terminal recursion_limit c (_terminal me') ;;
  set_parent c (WidgetParent self) ;;
  update_Layout self (with_needs_redraw true).

(** The viewport that [ScrollableLayout.__init__] accepts on an array [h]
    high and [w] wide: the position is checked against width then height,
    the size against height then width. *)
Definition ScrollableLayout_accepts (h w : Z) (view_pos view_size : Z * Z) : bool :=
  (0 <=? fst view_pos) && (fst view_pos <=? w - fst view_size)
  && ((0 <=? snd view_pos) && (snd view_pos <=? h - snd view_size))
  && ((0 <? fst view_size) && (fst view_size <=? h))
  && ((0 <? snd view_size) && (snd view_size <=? w)).

(** The viewport is a window of at least one row and one column that
    lies within an array [h] high and [w] wide, component 0 of position
    and size counting rows and component 1 columns. *)
Definition window_inside (h w : Z) (view_pos view_size : Z * Z) : bool :=
  (0 <=? fst view_pos) && (0 <? fst view_size)
  && (fst view_pos + fst view_size <=? h)
  && (0 <=? snd view_pos) && (0 <? snd view_size)
  && (snd view_pos + snd view_size <=? w).

(** ** Example inputs *)

Definition tile (n : nat) : Tile := mkTile n 0 0.

(** A store of arrays given by their rows, and nothing else. *)
Definition world_of (arrs : list (list (list Tile))) : world :=
  {| arrays := list_to_map (imap (λ i rs, (i, array (tile 0) rs)) arrs);
     objs := ∅; next_id := 0%nat; updates := [];
     check_state := λ _, (0, 0); widget_locations := λ _, ∅ |}.

Definition blank (h w : nat) : list (list Tile) := replicate h (replicate w (tile 0)).

(** Runs a program and keeps the world it leaves. *)
Definition after {A} (c : M world A) (s : world) : world := snd (c s).


(** The Layout object of [stack3] and its Layout attributes. *)
Definition no_widget : widget := mkWidget 0 false None NoParent None None None None.
Definition no_layout : Layout_attrs := mkLayout [] ∅ false None.

(** A 2x2 Layout on array 0 with one 1x1 child (array 1) at (1, 1):
    objects 0 (Layout), 1 (background), 2 (child). *)
Definition corner : world :=
  after (L <- Layout_init 0%nat None ;;
         c <- Widget_init 1%nat None ;; add_child L (PyWidget c) (1, 1))
        (world_of [[[tile 1; tile 2]; [tile 3; tile 4]]; [[tile 9]]]).

(** [corner] with the Layout placed directly on terminal 7. *)
Definition corner_on_terminal : world :=
  after (set_terminal recursion_limit 0%nat (Some 7%nat) ;;
         set_parent 0%nat (TerminalParent 7%nat)) corner.

(** Two 1x1 Layouts, objects 0 and 2 (backgrounds 1 and 3), the second a
    child of the first. *)
Definition nested : world :=
  after (L1 <- Layout_init 0%nat None ;;
         L2 <- Layout_init 1%nat None ;;
         add_child L1 (PyWidget L2) (0, 0))
        (world_of [[[tile 1]]; [[tile 2]]]).

(** The scenario of the specification: a scrollable viewport with a 20x20
    backing buffer, a 5x5 view at (0, 0); object 0. *)
Definition viewport20 : world :=
  after (ScrollableLayout_init 0%nat None (0, 0) (5, 5)) (world_of [blank 20 20]).

Definition tick_over : BearEvent := mkEvent "service" (VStr "tick_over").
Definition key_down (k : string) : BearEvent := mkEvent "key_down" (VStr k).

(** The index after an advance of the cycling widget. *)
Definition wrap (n i : Z) : Z := if i + 1 >=? n then 0 else i + 1.

(** Three 1x1 frames showing 0, 1, 2, at 10 frames a second. *)
Definition frame (n : nat) : Anim.image := ([[n]], [[0]]).
Definition three_frames : Anim.Animation :=
  Anim.mkAnimation [frame 0; frame 1; frame 2] 10.

(** A running [SimpleAnimationWidget] and a running
    [MultipleAnimationWidget] on [three_frames], at frame [i]. *)
Definition demo_simple : Simple.SimpleAnimationWidget :=
  Simple.mkSimple three_frames 0 0 true true [[0%nat]] [[0]] NoParent None [].
Definition demo_multiple (cycle : bool) (i : Z) : Multiple.MultipleAnimationWidget :=
  Multiple.mkMultiple {[ "walk"%string := three_frames ]} "walk" i 0 true cycle true
                      [[0%nat]] [[0]] NoParent None [].



(** [terminal.update_widget(self)], made when the parent of [me] is a
    BearTerminal. *)
Definition push_if_on_terminal (me : widget) (self : wid) (s : world) : world :=
  match _parent me, _terminal me with
  | TerminalParent _, Some t => with_updates (λ u, u ++ [(t, self)]) s
  | _, _ => s
  end.


(** The Layout object of [corner_on_terminal] and its Layout attributes. *)
Definition corner_me : widget :=
  Eval vm_compute in default no_widget (objs corner_on_terminal !! 0%nat).
Definition corner_l : Layout_attrs :=
  Eval vm_compute in default no_layout (as_Layout corner_me).

(** ** Menus *)

(** [c] is a live object that is neither a menu nor a Layout: its
    [on_event] is the one of [Widget], which does nothing. *)
Definition passive (s : world) (c : wid) : bool :=
  match objs s !! c with
  | Some o => match as_Menu o, as_Layout o with
              | None, None => true
              | _, _ => false
              end
  | None => false
  end.

(** [c] is a MenuItem whose tile array is live. *)
Definition is_item (s : world) (c : wid) : bool :=
  match objs s !! c with
  | Some o => match as_MenuItem o, arrays s !! tile_array o with
              | Some _, Some _ => true
              | _, _ => false
              end
  | None => false
  end.

(** The children at the indices 1 .. N-2. *)
Definition navigable (cs : list wid) : list wid :=
  drop 1 (take (length cs - 1) cs).

(** A menu as its constructor builds it: background first, then the
    items, a header last, the children passive, the navigable ones
    MenuItems, and the highlight on one of them. *)
Definition menu_ok (s : world) (self : wid) : bool :=
  match objs s !! self with
  | Some me =>
      match as_Menu me, as_Layout me, as_MenuItem me with
      | Some m, Some l, None =>
          forallb (passive s) (children l)
          && forallb (is_item s) (navigable (children l))
          && ((1 <=? _current_highlight m)
              && (_current_highlight m <=? Z.of_nat (length (children l)) - 2))
      | _, _, _ => false
      end
  | None => false
  end.

Definition current_highlight (s : world) (self : wid) : option Z :=
  _current_highlight <$> (objs s !! self ≫= as_Menu).

Definition children_of (s : world) (self : wid) : option (list wid) :=
  children <$> (objs s !! self ≫= as_Layout).

Definition is_key_event (event : BearEvent) : bool :=
  String.eqb (event_type event) "key_down" || String.eqb (event_type event) "key_up".

(** Where a key press that the menu accepts leaves a highlight [h] among
    [n] children: Up and W one back unless at 1, Down and S one on unless
    at n-2, anything else where it was. *)
Definition moved (key : value) (n h : Z) : Z :=
  if is_str key "TK_SPACE" || is_str key "TK_ENTER" then h
  else if is_str key "TK_UP" || is_str key "TK_W" then
    if 1 <? h then h - 1 else h
  else if is_str key "TK_DOWN" || is_str key "TK_S" then
    if h <? n - 2 then h + 1 else h
  else h.

(** Where an event leaves the highlight: only an accepted key press moves
    it. *)
Definition highlight_after (event : BearEvent) (m : Menu_attrs) (n : Z) : Z :=
  if String.eqb (event_type event) "key_down"
     && PrimFloat.leb (input_delay m) (current_delay m)
  then moved (event_value event) n (_current_highlight m)
  else _current_highlight m.

(** Two states of an object of the same kind: same array, same Layout
    and menu attributes, a MenuItem still a MenuItem; anything that is no
    MenuItem is unchanged. *)
Definition same_kind (o o' : widget) : Prop :=
  (as_MenuItem o = None → o' = o)
  ∧ tile_array o' = tile_array o ∧ as_Layout o' = as_Layout o
  ∧ as_Menu o' = as_Menu o
  ∧ (is_Some (as_MenuItem o') ↔ is_Some (as_MenuItem o)).

(** [s'] differs from [s] in the menu [self] and in the colours and
    redraw flags of MenuItems. *)
Definition menu_step (self : wid) (s s' : world) : Prop :=
  (∀ w, w ≠ self →
        match objs s !! w with
        | Some o => ∃ o', objs s' !! w = Some o' ∧ same_kind o o'
        | None => objs s' !! w = None
        end)
  ∧ (∀ k, is_Some (arrays s !! k) → is_Some (arrays s' !! k)).

(** A menu (object 0, on array 0) with a background (object 1), three
    MenuItems (objects 2, 3, 4) and a header (object 5); the first item
    is highlighted and the input delay has run out. *)
Definition an_item : MenuItem_attrs := mkMenuItem 1 2 [] false.
Definition menu5 : world :=
  after (L <- Layout_init 0%nat None ;;
         i1 <- Widget_init 1%nat None ;;
         update i1 (with_MenuItem (λ _, Some an_item)) ;;
         add_child L (PyWidget i1) (2, 2) ;;
         i2 <- Widget_init 2%nat None ;;
         update i2 (with_MenuItem (λ _, Some an_item)) ;;
         add_child L (PyWidget i2) (5, 2) ;;
         i3 <- Widget_init 3%nat None ;;
         update i3 (with_MenuItem (λ _, Some an_item)) ;;
         add_child L (PyWidget i3) (8, 2) ;;
         h <- Widget_init 4%nat None ;;
         add_child L (PyWidget h) (0, 2) ;;
         update L (with_Menu (λ _, Some (mkMenu 1 (2 / 10) (2 / 10) None None))) ;;
         highlight i1)
        (world_of [blank 13 7; [[tile 1; tile 2; tile 3]]; [[tile 4; tile 5; tile 6]];
                   [[tile 7; tile 8; tile 9]]; [[tile 0; tile 0; tile 0]]]).

Definition menu5_me : widget :=
  Eval vm_compute in default no_widget (objs menu5 !! 0%nat).

(** A tick that carries a number of seconds. *)
Definition is_tick_event (event : BearEvent) : bool :=
  String.eqb (event_type event) "tick"
  && bool_decide (is_Some (as_number (event_value event))).

(** The menu takes a key press only once its input delay has run out. *)
Definition accepts_input (s : world) (self : wid) : bool :=
  match objs s !! self ≫= as_Menu with
  | Some m => PrimFloat.leb (input_delay m) (current_delay m)
  | None => false
  end.

(** ** Further example inputs *)

(** The arrays of [corner], its Layout and child objects, and [spare]:
    [corner] with one more 1x1 widget (object 3, on array 1) that is in
    no Layout. *)
Definition corner_a : ndarray := array (tile 0) [[tile 1; tile 2]; [tile 3; tile 4]].
Definition corner_ca : ndarray := array (tile 0) [[tile 9]].
Definition corner_layout : widget :=
  Eval vm_compute in default no_widget (objs corner !! 0%nat).
Definition corner_child : widget :=
  Eval vm_compute in default no_widget (objs corner !! 2%nat).
Definition spare : world := after (Widget_init 1%nat None) corner.
Definition spare_widget : widget :=
  Eval vm_compute in default no_widget (objs spare !! 3%nat).

(** A Layout 3 high and 1 wide (object 0, array 0) with one child 2 high
    (object 2, array 1) at (0, 0). *)
Definition tall : world :=
  after (L <- Layout_init 0%nat None ;;
         c <- Widget_init 1%nat None ;; add_child L (PyWidget c) (0, 0))
        (world_of [[[tile 1]; [tile 2]; [tile 3]]; [[tile 8]; [tile 9]]]).
Definition tall_layout : widget :=
  Eval vm_compute in default no_widget (objs tall !! 0%nat).
Definition tall_l : Layout_attrs :=
  Eval vm_compute in default no_layout (as_Layout tall_layout).
Definition tall_child : widget :=
  Eval vm_compute in default no_widget (objs tall !! 2%nat).
Definition tall_a : ndarray := array (tile 0) [[tile 1]; [tile 2]; [tile 3]].
Definition tall_ca : ndarray := array (tile 0) [[tile 8]; [tile 9]].

(** The viewport object of [viewport20] and its scrollable attributes. *)
Definition viewport20_me : widget :=
  Eval vm_compute in default no_widget (objs viewport20 !! 0%nat).
Definition viewport20_sc : Scrollable_attrs :=
  Eval vm_compute in
    default {| view_pos := (0, 0); view_size := (0, 0); _tile_array := None;
               chars := []; colors := [] |} (as_Scrollable viewport20_me).

(** The widget shows the frame its index points at. *)
Definition Simple_shows (w : Simple.SimpleAnimationWidget) : Prop :=
  Anim.frames (Simple.animation w) !! Z.to_nat (Simple.running_index w)
  = Some (Simple.chars w, Simple.colors w).

(** A Layout 3 high and 1 wide (object 0, array 0), placed on terminal
    7, whose child 2 high (object 2, array 1) was added at row -1:
    [add_child] compares only the far edge of the child with the Layout,
    so it takes the offset. *)
Definition sunk_setup : M world unit :=
  L <- Layout_init 0%nat None ;;
  c <- Widget_init 1%nat None ;;
  add_child L (PyWidget c) (-1, 0) ;;
  set_terminal recursion_limit L (Some 7%nat) ;;
  set_parent L (TerminalParent 7%nat).
Definition three_rows : world :=
  world_of [[[tile 1]; [tile 2]; [tile 3]]; [[tile 8]; [tile 9]]].
Definition sunk : world := after sunk_setup three_rows.
Definition sunk_me : widget :=
  Eval vm_compute in default no_widget (objs sunk !! 0%nat).
Definition sunk_l : Layout_attrs :=
  Eval vm_compute in default no_layout (as_Layout sunk_me).

(** A [SwitchingWidget] with two images, showing the first. *)
Definition demo_switching : Switching.SwitchingWidget :=
  Switching.mkSwitching {[ "idle"%string := frame 0; "walk"%string := frame 1 ]}
                        "idle" [[0%nat]] [[0]] None None.

(** The menu attributes of [menu5], and [menu5] shown on terminal 7 at
    (0, 0) with the mouse at (1, 1). *)
Definition menu5_m : Menu_attrs :=
  Eval vm_compute in default (mkMenu 0 0 0 None None) (as_Menu menu5_me).
Definition menu5_l : Layout_attrs :=
  Eval vm_compute in default no_layout (as_Layout menu5_me).
Definition menu5_hover : world :=
  {| arrays := arrays menu5;
     objs := alter (with_terminal (Some 7%nat)) 0%nat (objs menu5);
     next_id := next_id menu5; updates := updates menu5;
     check_state := λ _, (1, 1);
     widget_locations := λ _, {[ 0%nat := (0, 0) ]} |}.
Definition menu5_hover_me : widget :=
  Eval vm_compute in default no_widget (objs menu5_hover !! 0%nat).

(** [menu5] as a game would set it up: its first item starts the game,
    and the menu clicks on activation and blips on a switch. *)
Definition start_game : BearEvent := mkEvent "start_game" VNone.
Definition game_menu : world :=
  after (update 2%nat (with_MenuItem (fmap (λ it,
           mkMenuItem (item_color it) (highlight_color it) [start_game]
                      (item_needs_redraw it)))) ;;
         update 0%nat (with_Menu (fmap (λ m,
           mkMenu (_current_highlight m) (current_delay m) (input_delay m)
                  (Some "blip"%string) (Some "click"%string)))))
        menu5.
Definition game_menu_me : widget :=
  Eval vm_compute in default no_widget (objs game_menu !! 0%nat).
Definition game_menu_m : Menu_attrs :=
  Eval vm_compute in default (mkMenu 0 0 0 None None) (as_Menu game_menu_me).
Definition game_menu_item : widget :=
  Eval vm_compute in default no_widget (objs game_menu !! 2%nat).
Definition game_menu_item_attrs : MenuItem_attrs :=
  Eval vm_compute in default an_item (as_MenuItem game_menu_item).

(** * ecs_demo.py: [WalkerComponent]

    [PositionComponent], its [move], [relative_move] and [on_event], and
    the spawner of the owning entity belong to the ecs module, which is
    not among the sources; they are parameters of this section, so that
    what is proved holds whatever they do. *)

Module Walker.

(** [s in 'TK_SPACE'] for strings is substring containment. *)
Fixpoint is_substring (needle hay : string) : bool :=
  String.prefix needle hay
  || match hay with
     | EmptyString => false
     | String _ hay' => is_substring needle hay'
     end.

(** What [on_event] returns: [None], or the [ecs_move] event with
    [(self.owner.id, self.x, self.y)]. *)
Inductive answer :=
| Nothing
| EcsMove (owner_id : string) (x y : Z).

Section WalkerComponent.
Context {S A : Type}.
Variable owner_id : S → string.
Variables x y : S → Z.
Variable move : Z → Z → M S unit.
Variable relative_move : Z → Z → M S unit.
Variable create_entity : M S unit.
Variable super_on_event : BearEvent → M S A.

(** The chain of tests on [event.event_value]. *)
Definition react (v : value) : M S unit :=
  if is_str v "TK_D" || is_str v "TK_RIGHT" then
    self <- get ;; move (x self + 1) (y self)
  else if is_str v "TK_A" || is_str v "TK_LEFT" then
    self <- get ;; move (x self - 1) (y self)
  else if is_str v "TK_S" || is_str v "TK_DOWN" then relative_move 0 1
  else if is_str v "TK_W" || is_str v "TK_UP" then relative_move 0 1
  else match v with
       | VStr k => if is_substring k "TK_SPACE" then create_entity else ret tt
       | _ => raise TypeError
       end.

(** [WalkerComponent.on_event(event)]; [early] is the value of a
    [return] inside the [if]. *)
Definition on_event (event : BearEvent) : M S answer :=
  early <- (if String.eqb (event_type event) "key_down" then
              let moved := false in
              react (event_value event) ;;
              if moved then
                self <- get ;;
                ret (Some (EcsMove (owner_id self) (x self) (y self)))
              else ret None
            else ret None) ;;
  match early with
  | Some r => ret r
  | None => super_on_event event ;; ret Nothing
  end.

End WalkerComponent.

(** A walker that is just its position, with [move] and [relative_move]
    as their names say, nothing to spawn and a silent base class. *)
Definition demo_move (nx ny : Z) : M (Z * Z) unit := put (nx, ny).
Definition demo_relative_move (dx dy : Z) : M (Z * Z) unit :=
  modify (λ p, (fst p + dx, snd p + dy)).
Definition demo_on_event : BearEvent → M (Z * Z) answer :=
  on_event (λ _, "cop"%string) fst snd demo_move demo_relative_move (ret tt)
           (λ _, ret tt).

End Walker.

(** * Lemmas and theorems *)

(** ** Running computations *)

Lemma bind_Return {S A B} (c : M S A) (k : A → M S B) s a s' :
  c s = (Return a, s') → bind c k s = k a s'.
Proof. intros H. unfold bind. by rewrite H. Qed.

Lemma bind_Raise {S A B} (c : M S A) (k : A → M S B) s e s' :
  c s = (Raise e, s') → bind c k s = (Raise e, s').
Proof. intros H. unfold bind. by rewrite H. Qed.

Lemma load_Some s w o : objs s !! w = Some o → load w s = (Return o, s).
Proof. intros H. unfold load. by rewrite H. Qed.

Lemma load_array_Some s k a : arrays s !! k = Some a → load_array k s = (Return a, s).
Proof. intros H. unfold load_array. by rewrite H. Qed.

Lemma Layout_of_Some s w o l :
  objs s !! w = Some o → as_Layout o = Some l → Layout_of w s = (Return l, s).
Proof.
  intros Ho Hl. unfold Layout_of. rewrite (bind_Return _ _ _ _ _ (load_Some _ _ _ Ho)).
  by rewrite Hl.
Qed.

(** Pasting a child that fits copies it cell by cell. *)
Lemma setitem_slice_fits a ca py px :
  0 ≤ py → py + height ca ≤ height a → 0 ≤ px → px + width ca ≤ width a →
  ∃ a', setitem_slice a py (py + height ca) px (px + width ca) ca = Some a'
        ∧ shape0 a' = shape0 a ∧ shape1 a' = shape1 a
        ∧ ∀ y x, item a' y x =
                 if (py <=? y) && (y <? py + height ca) && (px <=? x) && (x <? px + width ca)
                 then item ca (y - py) (x - px) else item a y x.
Proof.
  intros Hy0 Hy1 Hx0 Hx1.
  assert (Hh : 0 ≤ height ca) by (unfold height; lia).
  assert (Hw : 0 ≤ width ca) by (unfold width; lia).
  unfold setitem_slice, slice_bounds, slice_index.
  repeat match goal with |- context [?a <? ?b] => 
     lazymatch a with py => destruct (Z.ltb_spec a b); [lia|] | px => destruct (Z.ltb_spec a b); [lia|]
       | py + _ => destruct (Z.ltb_spec a b); [lia|] | px + _ => destruct (Z.ltb_spec a b); [lia|] end end.
  rewrite !Z.min_l, !Z.max_r by lia.
  replace (py + height ca - py) with (height ca) by lia.
  replace (px + width ca - px) with (width ca) by lia.
  unfold broadcastable. rewrite !Z.eqb_refl. simpl.
  eexists; split; [reflexivity|]. simpl. repeat split.
  intros y x. 
  destruct ((py <=? y) && (y <? py + height ca) && (px <=? x) && (x <? px + width ca)) eqn:E; [|done].
  apply andb_prop in E as [E Ex2]. apply andb_prop in E as [E Ex1]. apply andb_prop in E as [Ey1 Ey2].
  unfold bidx.
  f_equal.
  - destruct (Z.eqb_spec (height ca) 1); lia.
  - destruct (Z.eqb_spec (width ca) 1); lia.
Qed.

(** ** Recomposite: [Layout._rebuild_self] *)

Lemma repainted_refl k s a : arrays s !! k = Some a → repainted k s s.
Proof. intros Ha. repeat split; auto. exists a, a. by repeat split. Qed.

Lemma repainted_trans k s1 s2 s3 :
  repainted k s1 s2 → repainted k s2 s3 → repainted k s1 s3.
Proof.
  intros (Ho1 & Hk1 & a1 & a2 & Ha1 & Ha2 & [? ?]) (Ho2 & Hk2 & b2 & b3 & Hb2 & Hb3 & [? ?]).
  repeat split.
  - congruence.
  - intros k' Hk'. rewrite Hk2, Hk1; auto.
  - exists a1, b3. assert (a2 = b2) by congruence. subst.
    repeat split; congruence.
Qed.

Lemma repainted_geom k s s' c : repainted k s s' → geom s' c = geom s c.
Proof.
  intros (Ho & Hk & a & a' & Ha & Ha' & H0 & H1). unfold geom. rewrite Ho.
  destruct (objs s !! c) as [oc|]; [|done].
  destruct (decide (tile_array oc = k)) as [->|Hne].
  - rewrite Ha, Ha'. unfold height, width. by rewrite H0, H1.
  - by rewrite Hk.
Qed.

Lemma repainted_covers k s s' l c y x :
  repainted k s s' → covers s' l c y x = covers s l c y x.
Proof. intros H. unfold covers. by rewrite (repainted_geom _ _ _ _ H). Qed.

Lemma repainted_valid_child k s s' h w l c :
  repainted k s s' → valid_child s' h w l c = valid_child s h w l c.
Proof. intros H. unfold valid_child. by rewrite (repainted_geom _ _ _ _ H). Qed.

(** One child that fits is pasted without an exception, into the
    Layout's own array and nowhere else. *)
Lemma paste_child_fits s self me l a c :
  objs s !! self = Some me → as_Layout me = Some l →
  arrays s !! tile_array me = Some a →
  valid_child s (height a) (width a) l c = true →
  ∃ s' a', paste_child self c s = (Return tt, s')
    ∧ repainted (tile_array me) s s'
    ∧ arrays s' !! tile_array me = Some a'
    ∧ (∀ y x, covers s l c y x = false → item a' y x = item a y x)
    ∧ (∀ y x, covers s l c y x = true →
         child_cell s l c y x = Some (item a' y x)).
Proof.
  intros Hme Hl Ha Hv. unfold valid_child, geom in Hv.
  destruct (objs s !! c) as [oc|] eqn:Hoc; [|done].
  destruct (arrays s !! tile_array oc) as [ca|] eqn:Hca; [|done].
  destruct (child_locations l !! c) as [[py px]|] eqn:Hpos; [|done].
  apply andb_prop in Hv as [Hv Hx1]. apply andb_prop in Hv as [Hv Hx0].
  apply andb_prop in Hv as [Hy0 Hy1].
  apply Z.leb_le in Hy0, Hy1, Hx0, Hx1.
  unfold paste_child.
  rewrite (bind_Return _ _ _ _ _ (load_Some _ _ _ Hoc)).
  destruct (hidden oc) eqn:Hhid.
  { exists s, a. split; [done|]. split; [by eapply repainted_refl|]. split; [done|].
    split; [done|]. intros y x. unfold covers, geom. rewrite Hoc, Hca, Hpos, Hhid. done. }
  rewrite (bind_Return _ _ _ _ _ (load_array_Some _ _ _ Hca)).
  rewrite (bind_Return _ _ _ _ _ (Layout_of_Some _ _ _ _ Hme Hl)).
  rewrite Hpos.
  rewrite (bind_Return _ _ _ _ _ (load_Some _ _ _ Hme)).
  rewrite (bind_Return _ _ _ _ _ (load_array_Some _ _ _ Ha)).
  destruct (setitem_slice_fits a ca py px Hy0 Hy1 Hx0 Hx1) as (a' & -> & H0 & H1 & Hitem).
  exists (with_arrays <[tile_array me := a']> s), a'.
  split; [done|]. split.
  { repeat split; simpl.
    - intros k' Hk'. by rewrite lookup_insert_ne.
    - exists a, a'. rewrite lookup_insert_eq. done. }
  split; [simpl; by rewrite lookup_insert_eq|].
  split.
  - intros y x. unfold covers, geom. rewrite Hoc, Hca, Hpos, Hhid. simpl.
    intros Hc. by rewrite Hitem, Hc.
  - intros y x. unfold covers, geom, child_cell, cell. rewrite Hoc, Hca, Hpos, Hhid. simpl.
    intros Hc. by rewrite Hitem, Hc.
Qed.

Lemma forallb_pointwise {A} (f g : A → bool) (xs : list A) :
  (∀ x, f x = g x) → forallb f xs = forallb g xs.
Proof. intros H. induction xs as [|x xs IH]; simpl; [done|]. by rewrite H, IH. Qed.

Lemma same_shape_height a a' : same_shape a a' → height a' = height a.
Proof. intros [H _]. unfold height. by rewrite H. Qed.
Lemma same_shape_width a a' : same_shape a a' → width a' = width a.
Proof. intros [_ H]. unfold width. by rewrite H. Qed.

Lemma repainted_child_cell k s s' l c y x oc :
  repainted k s s' → objs s !! c = Some oc → tile_array oc ≠ k →
  child_cell s' l c y x = child_cell s l c y x.
Proof.
  intros (Ho & Hk & _) Hoc Hne. unfold child_cell, cell. rewrite Ho, Hoc.
  destruct (child_locations l !! c) as [[py px]|]; [|done]. by rewrite Hk.
Qed.

(** The loop of [_rebuild_self] over children that fit: it ends without an
    exception; a cell no child covers keeps its tile; a cell whose last
    covering child is [B] shows B's tile. *)
Lemma rebuild_loop self me l cs : ∀ s a,
  objs s !! self = Some me → as_Layout me = Some l →
  arrays s !! tile_array me = Some a →
  forallb (valid_child s (height a) (width a) l) cs = true →
  ∃ s' a', for_each cs (paste_child self) s = (Return tt, s')
    ∧ repainted (tile_array me) s s'
    ∧ arrays s' !! tile_array me = Some a'
    ∧ (∀ y x, (∀ c, c ∈ cs → covers s l c y x = false) → item a' y x = item a y x)
    ∧ (∀ (j : nat) B y x, cs !! j = Some B → covers s l B y x = true →
         (∀ (k : nat) C, (j < k)%nat → cs !! k = Some C → covers s l C y x = false) →
         child_cell s' l B y x = Some (item a' y x)).
Proof.
  induction cs as [|c cs IH]; intros s a Hme Hl Ha Hv.
  { exists s, a. split; [done|]. split; [by eapply repainted_refl|].
    split; [done|]. split; [done|]. intros j B y x Hj. by rewrite lookup_nil in Hj. }
  simpl in Hv. apply andb_prop in Hv as [Hvc Hvs].
  destruct (paste_child_fits s self me l a c Hme Hl Ha Hvc)
    as (s1 & a1 & Hrun & Hrep & Ha1 & Hframe1 & Hcell1).
  assert (Hme1 : objs s1 !! self = Some me) by (destruct Hrep as [-> _]; done).
  assert (Hsh : same_shape a a1).
  { destruct Hrep as (_ & _ & b & b' & Hb & Hb' & Hs). congruence. }
  assert (Hvs1 : forallb (valid_child s1 (height a1) (width a1) l) cs = true).
  { rewrite (same_shape_height _ _ Hsh), (same_shape_width _ _ Hsh).
    erewrite forallb_pointwise; [exact Hvs|]. intros c'. by eapply repainted_valid_child. }
  destruct (IH s1 a1 Hme1 Hl Ha1 Hvs1) as (s' & a' & Hrun' & Hrep' & Ha' & Hframe' & Hcell').
  exists s', a'. split.
  { simpl. by rewrite (bind_Return _ _ _ _ _ Hrun). }
  split; [by eapply repainted_trans|]. split; [done|]. split.
  - intros y x Hno. rewrite Hframe'.
    + apply Hframe1, Hno. left.
    + intros c' Hc'. rewrite (repainted_covers _ _ _ _ _ _ _ Hrep). apply Hno. by right.
  - intros [|j] B y x HB Hcov Hlater.
    + simpl in HB. injection HB as <-.
      assert (Hitem : item a' y x = item a1 y x).
      { apply Hframe'. intros c' Hc'. rewrite (repainted_covers _ _ _ _ _ _ _ Hrep).
        apply list_elem_of_lookup in Hc' as [k Hk]. by apply (Hlater (S k)); [lia|]. }
      rewrite Hitem. specialize (Hcell1 y x Hcov).
      unfold valid_child, geom in Hvc. unfold covers, geom in Hcov.
      destruct (objs s !! c) as [oc|] eqn:Hoc; [|done].
      destruct (decide (tile_array oc = tile_array me)) as [Heq|Hne].
      * rewrite Heq, Ha in Hvc.
        destruct (child_locations l !! c) as [[py px]|] eqn:Hpos; [|done].
        assert (py = 0 ∧ px = 0) as [-> ->].
        { apply andb_prop in Hvc as [Hvc Hx1]. apply andb_prop in Hvc as [Hvc Hx0].
          apply andb_prop in Hvc as [Hy0 Hy1]. apply Z.leb_le in Hy0, Hy1, Hx0, Hx1. lia. }
        unfold child_cell, cell. destruct Hrep' as (Ho' & _). destruct Hrep as (Ho & _).
        rewrite Ho', Ho, Hoc, Hpos, Heq, Ha'. simpl.
        rewrite !Z.sub_0_r. by rewrite Hitem.
      * rewrite <- Hcell1. eapply repainted_child_cell; [|exact Hoc|exact Hne].
        by eapply repainted_trans.
    + simpl in HB. apply (Hcell' j B y x HB).
      * by rewrite (repainted_covers _ _ _ _ _ _ _ Hrep).
      * intros k C Hk HC. rewrite (repainted_covers _ _ _ _ _ _ _ Hrep).
        apply (Hlater (S k)); [lia|done].
Qed.

(** ** Paint order *)

Lemma valid_layout_inv s self :
  valid_layout s self = true →
  ∃ me l a, objs s !! self = Some me ∧ as_Layout me = Some l
    ∧ arrays s !! tile_array me = Some a
    ∧ forallb (valid_child s (height a) (width a) l) (children l) = true.
Proof.
  unfold valid_layout. intros H.
  destruct (objs s !! self) as [me|]; [|done].
  destruct (as_Layout me) as [l|] eqn:Hl; [|done].
  destruct (arrays s !! tile_array me) as [a|] eqn:Ha; [|done].
  by exists me, l, a.
Qed.

(** A recomposite of a valid Layout ends without an exception and only
    repaints the Layout's own array. *)
Lemma rebuild_returns s self me :
  objs s !! self = Some me → valid_layout s self = true →
  ∃ s', Layout_rebuild_self self s = (Return tt, s')
        ∧ repainted (tile_array me) s s'.
Proof.
  intros Hme Hv. destruct (valid_layout_inv _ _ Hv) as (me' & l & a & Hme' & Hl & Ha & Hcs).
  assert (me' = me) by congruence. subst me'.
  destruct (rebuild_loop self me l (children l) s a Hme Hl Ha Hcs)
    as (s' & a' & Hrun & Hrep & _).
  exists s'. split; [|done]. unfold Layout_rebuild_self.
  by rewrite (bind_Return _ _ _ _ _ (Layout_of_Some _ _ _ _ Hme Hl)).
Qed.

(** A cell that no shown child covers keeps its tile. *)
Lemma rebuild_uncovered_cell s self me l y x :
  objs s !! self = Some me → as_Layout me = Some l →
  valid_layout s self = true →
  (∀ c, c ∈ children l → covers s l c y x = false) →
  ∃ s', Layout_rebuild_self self s = (Return tt, s')
        ∧ cell s' (tile_array me) y x = cell s (tile_array me) y x.
Proof.
  intros Hme Hl Hv Hno.
  destruct (valid_layout_inv _ _ Hv) as (me' & l' & a & Hme' & Hl' & Ha & Hcs).
  assert (me' = me) by congruence. subst me'.
  assert (l' = l) by congruence. subst l'.
  destruct (rebuild_loop self me l (children l) s a Hme Hl Ha Hcs)
    as (s' & a' & Hrun & Hrep & Ha' & Hframe & _).
  exists s'. split.
  - unfold Layout_rebuild_self.
    by rewrite (bind_Return _ _ _ _ _ (Layout_of_Some _ _ _ _ Hme Hl)).
  - unfold cell. rewrite Ha, Ha'. simpl. f_equal. by apply Hframe.
Qed.


Lemma run_fst_snd {S A} (c : M S A) (s : S) r : fst (c s) = r → c s = (r, snd (c s)).
Proof. intros <-. by destruct (c s). Qed.



(** ** Children's buffers during a recomposite *)

(** Unfolds the monad and the heap accessors in a hypothesis. *)
Ltac mrun H :=
  cbv beta iota delta
    [bind ret raise get put modify load load_array store_array update
     Layout_of update_Layout Scrollable_of MenuItem_of Menu_of update_Menu
     update_widget set_parent] in H.

(** Whatever its outcome, one turn of the loop changes tiles only: no
    attribute of any object, and nothing is pushed to a terminal. *)
Lemma paste_child_attrs self c s :
  objs (snd (paste_child self c s)) = objs s
  ∧ updates (snd (paste_child self c s)) = updates s.
Proof.
  unfold paste_child.
  cbv beta iota delta [bind ret raise get put modify load load_array store_array
                       Layout_of].
  destruct (objs s !! c) as [oc|]; cbv beta iota; [|by split].
  destruct (hidden oc); cbv beta iota; [by split|].
  destruct (arrays s !! tile_array oc) as [ca|]; cbv beta iota; [|by split].
  destruct (objs s !! self) as [me|] eqn:Hme; cbv beta iota; [|by split].
  destruct (as_Layout me) as [l|]; cbv beta iota; [|by split].
  destruct (child_locations l !! c) as [[py px]|]; cbv beta iota; [|by split].
  rewrite Hme. cbv beta iota.
  destruct (arrays s !! tile_array me) as [a|]; cbv beta iota; [|by split].
  by destruct (setitem_slice _ _ _ _ _ _); split.
Qed.

Lemma for_each_paste_attrs self cs : ∀ s,
  objs (snd (for_each cs (paste_child self) s)) = objs s
  ∧ updates (snd (for_each cs (paste_child self) s)) = updates s.
Proof.
  induction cs as [|c cs IH]; intros s; [by split|].
  simpl. unfold bind.
  pose proof (paste_child_attrs self c s) as [Ho Hu].
  destruct (paste_child self c s) as [[[]|e] s1]; simpl in Ho, Hu.
  - destruct (IH s1) as [Ho' Hu']. split; congruence.
  - by split.
Qed.

Lemma rebuild_attrs self s :
  objs (snd (Layout_rebuild_self self s)) = objs s
  ∧ updates (snd (Layout_rebuild_self self s)) = updates s.
Proof.
  unfold Layout_rebuild_self, Layout_of, bind, load, ret, raise.
  destruct (objs s !! self) as [me|]; [|by split].
  destruct (as_Layout me) as [l|]; [|by split].
  apply for_each_paste_attrs.
Qed.

(** X1: a recomposite, whether it ends or raises, changes tiles only: the
    attributes of every widget (children, offsets, flags, parents and
    terminals) and the widgets pushed to terminals are as before. *)
Theorem rebuild_changes_tiles_only self s r s' :
  Layout_rebuild_self self s = (r, s') →
  objs s' = objs s ∧ updates s' = updates s.
Proof.
  intros H. pose proof (rebuild_attrs self s) as Ha. by rewrite H in Ha.
Qed.

(** [Layout.__init__] builds the background child on the very array of
    the Layout. *)
Lemma corner_background_shares_array :
  (tile_array <$> objs corner !! 0%nat) = Some 0%nat ∧
  (tile_array <$> objs corner !! 1%nat) = Some 0%nat ∧
  (children <$> (objs corner !! 0%nat ≫= as_Layout)) = Some [1%nat; 2%nat].
Proof. vm_compute. done. Qed.

(** C8, the failing input: after [Layout(2x2).add_child(1x1 child, (1, 1))]
    a recomposite changes the buffer of the background child (object 1),
    which shares the Layout's array: its cell (1, 1) becomes the child's
    tile. *)
Theorem rebuild_overwrites_background :
  buffer corner 1%nat = Some [[tile 1; tile 2]; [tile 3; tile 4]] ∧
  fst (Layout_rebuild_self 0%nat corner) = Return tt ∧
  buffer (after (Layout_rebuild_self 0%nat) corner) 1%nat
    = Some [[tile 1; tile 2]; [tile 3; tile 9]].
Proof. split; [|split]; vm_compute; reflexivity. Qed.

(** ** [Layout.add_child] *)

(** Handing a terminal down can only fail by running out of stack (or on a
    heap with a dangling reference). *)
Lemma set_terminal_raises d : ∀ self v s e s',
  set_terminal d self v s = (Raise e, s') → e = RecursionError ∨ e = SystemError.
Proof.
  induction d as [|d IH]; intros self v s e s' H.
  { simpl in H. mrun H. simplify_eq. by left. }
  simpl in H. mrun H.
  destruct (objs s !! self) as [o|]; [|simplify_eq; by right]. mrun H.
  destruct (as_Layout o) as [l|]; [|by simplify_eq].
  remember (with_objs (alter (with_terminal v) self) s) as s1 eqn:Es1. clear Es1.
  revert s1 H. induction (children l) as [|c cs IHcs]; intros s1 H.
  { simpl in H. mrun H. by simplify_eq. }
  simpl in H. mrun H.
  destruct (set_terminal d c v s1) as [[[]|e1] s2] eqn:E.
  - by eapply IHcs.
  - simplify_eq. by eapply IH.
Qed.

Lemma with_objs_id s : with_objs (λ _, objs s) s = s.
Proof. by destruct s. Qed.

Lemma terminal_set_refl v s : terminal_set v s s.
Proof. split; [by rewrite with_objs_id|]. intros w. by left. Qed.

Lemma terminal_set_trans v s1 s2 s3 :
  terminal_set v s1 s2 → terminal_set v s2 s3 → terminal_set v s1 s3.
Proof.
  intros [E1 H1] [E2 H2]. split.
  { rewrite E2, E1. by destruct s1. }
  intros w. destruct (H2 w) as [Hw2|(o2 & Hw2 & Hw3)].
  - rewrite Hw2. apply H1.
  - destruct (H1 w) as [Hw1|(o1 & Hw1 & Hw1')].
    + right. exists o2. split; congruence.
    + right. exists o1. split; [done|]. rewrite Hw3. f_equal.
      assert (o2 = with_terminal v o1) by congruence. by subst.
Qed.

(** Whatever its outcome, handing a terminal down only sets [_terminal]
    attributes, and sets them to the value handed down. *)
Lemma set_terminal_frame d : ∀ self v s r s',
  set_terminal d self v s = (r, s') → terminal_set v s s'.
Proof.
  induction d as [|d IH]; intros self v s r s' H.
  { simpl in H. mrun H. simplify_eq. apply terminal_set_refl. }
  simpl in H. mrun H.
  destruct (objs s !! self) as [o|] eqn:Ho; [|simplify_eq; apply terminal_set_refl].
  mrun H.
  assert (H1 : terminal_set v s (with_objs (alter (with_terminal v) self) s)).
  { split; [by destruct s|]. intros w. simpl.
    destruct (decide (w = self)) as [->|Hne].
    - right. exists o. split; [done|]. by rewrite lookup_alter_eq, Ho.
    - left. by rewrite lookup_alter_ne. }
  destruct (as_Layout o) as [l|]; [|by simplify_eq].
  remember (with_objs (alter (with_terminal v) self) s) as s1 eqn:Es1. clear Es1.
  revert s1 H H1. induction (children l) as [|c cs IHcs]; intros s1 H H1.
  { simpl in H. mrun H. by simplify_eq. }
  simpl in H. mrun H.
  destruct (set_terminal d c v s1) as [[[]|e1] s2] eqn:E.
  - apply (IHcs s2 H). eapply terminal_set_trans; [exact H1|]. by eapply IH.
  - simplify_eq. eapply terminal_set_trans; [exact H1|]. by eapply IH.
Qed.

(** When it returns, the widget it was called on has the new terminal. *)
Lemma set_terminal_sets d self v s s' o :
  set_terminal d self v s = (Return tt, s') → objs s !! self = Some o →
  objs s' !! self = Some (with_terminal v o).
Proof.
  destruct d as [|d]; intros H Ho; simpl in H; mrun H; [by simplify_eq|].
  rewrite Ho in H. mrun H.
  assert (H1 : objs (with_objs (alter (with_terminal v) self) s) !! self
               = Some (with_terminal v o)).
  { simpl. by rewrite lookup_alter_eq, Ho. }
  destruct (as_Layout o) as [l|]; [|by simplify_eq].
  remember (with_objs (alter (with_terminal v) self) s) as s1 eqn:Es1. clear Es1.
  revert s1 H H1. induction (children l) as [|c cs IHcs]; intros s1 H H1.
  { simpl in H. mrun H. by simplify_eq. }
  simpl in H. mrun H.
  destruct (set_terminal d c v s1) as [[[]|e1] s2] eqn:E; [|by simplify_eq].
  apply (IHcs s2 H).
  destruct (set_terminal_frame _ _ _ _ _ _ E) as [_ Hw].
  destruct (Hw self) as [->|(o' & Ho' & ->)]; [done|].
  assert (o' = with_terminal v o) by congruence. by subst.
Qed.

(** For a Widget on a live heap [add_child] is its five checks, then the
    commit. *)
Lemma add_child_widget s self me l a c oc ca pos :
  objs s !! self = Some me → as_Layout me = Some l →
  arrays s !! tile_array me = Some a →
  objs s !! c = Some oc → arrays s !! tile_array oc = Some ca →
  add_child self (PyWidget c) pos s =
    if add_child_rejects a ca l self c pos
    then (Raise BearLayoutException, s)
    else add_child_commit self c pos s.
Proof.
  intros Hme Hl Ha Hoc Hca. unfold add_child.
  rewrite (bind_Return _ _ _ _ _ (load_Some _ _ _ Hme)).
  rewrite (bind_Return _ _ _ _ _ (load_array_Some _ _ _ Ha)).
  assert (Hsh : shape_of (PyWidget c) s = (Return (height ca, width ca), s)).
  { unfold shape_of. rewrite (bind_Return _ _ _ _ _ (load_Some _ _ _ Hoc)).
    by rewrite (bind_Return _ _ _ _ _ (load_array_Some _ _ _ Hca)). }
  rewrite (bind_Return _ _ _ _ _ Hsh). destruct pos as [py px].
  rewrite (bind_Return _ _ _ _ _ (Layout_of_Some _ _ _ _ Hme Hl)).
  unfold add_child_rejects. simpl fst. simpl snd.
  destruct (bool_decide (c ∈ children l)); [done|].
  destruct ((height a <? height ca) || (width a <? width ca)); [done|].
  destruct ((height ca + py >? height a) || (width ca + px >? width a)); [done|].
  destruct (bool_decide (c = self)); done.
Qed.

Lemma add_child_commit_raises self c pos s e s' :
  add_child_commit self c pos s = (Raise e, s') →
  e = RecursionError ∨ e = SystemError.
Proof.
  intros H. unfold add_child_commit in H. mrun H.
  match type of H with context [match ?x with Some _ => _ | None => _ end] =>
    destruct x; [|simplify_eq; by right] end.
  mrun H.
  match type of H with context [set_terminal ?d ?w ?v ?s1] =>
    destruct (set_terminal d w v s1) as [[[]|e1] s2] eqn:E end;
    mrun H; simplify_eq.
  by eapply set_terminal_raises.
Qed.

(** X3: [add_child] checks before it writes: when it raises
    [BearLayoutException], or the [AttributeError] of reading the shape of
    something that has no [tile_array], nothing has changed. *)
Lemma add_child_atomic self child pos s e s' :
  add_child self child pos s = (Raise e, s') →
  e = BearLayoutException ∨ e = AttributeError → s' = s.
Proof.
  intros H He.
  destruct (objs s !! self) as [me|] eqn:Hme;
    [|unfold add_child in H; mrun H; rewrite Hme in H; simplify_eq; by destruct He].
  destruct (arrays s !! tile_array me) as [a|] eqn:Ha;
    [|unfold add_child in H; mrun H; rewrite Hme in H; mrun H; rewrite Ha in H;
      simplify_eq; by destruct He].
  destruct child as [c|[[h w]|]].
  - destruct (objs s !! c) as [oc|] eqn:Hoc;
      [|unfold add_child, shape_of in H; mrun H; rewrite Hme in H; mrun H;
        rewrite Ha in H; mrun H; rewrite Hoc in H; simplify_eq; by destruct He].
    destruct (arrays s !! tile_array oc) as [ca|] eqn:Hca;
      [|unfold add_child, shape_of in H; mrun H; rewrite Hme in H; mrun H;
        rewrite Ha in H; mrun H; rewrite Hoc in H; mrun H; rewrite Hca in H;
        simplify_eq; by destruct He].
    destruct (as_Layout me) as [l|] eqn:Hl.
    + rewrite (add_child_widget _ _ _ _ _ _ _ _ _ Hme Hl Ha Hoc Hca) in H.
      destruct (add_child_rejects a ca l self c pos); [by simplify_eq|].
      apply add_child_commit_raises in H. destruct H, He; congruence.
    + unfold add_child, shape_of in H. mrun H. rewrite Hme in H. mrun H.
      rewrite Ha in H. mrun H. rewrite Hoc in H. mrun H. rewrite Hca in H.
      mrun H. destruct pos. rewrite Hme in H. mrun H. rewrite Hl in H.
      by simplify_eq.
  - unfold add_child, shape_of in H. mrun H. rewrite Hme in H. mrun H.
    rewrite Ha in H. mrun H. destruct pos. by simplify_eq.
  - unfold add_child, shape_of in H. mrun H. rewrite Hme in H. mrun H.
    rewrite Ha in H. mrun H. by simplify_eq.
Qed.

(** An object without a [tile_array] is met with [AttributeError], not
    with the [BearLayoutException] of the type check that follows. *)
Lemma add_child_no_tile_array s self me a pos :
  objs s !! self = Some me → arrays s !! tile_array me = Some a →
  add_child self (PyOther None) pos s = (Raise AttributeError, s).
Proof.
  intros Hme Ha. unfold add_child.
  rewrite (bind_Return _ _ _ _ _ (load_Some _ _ _ Hme)).
  by rewrite (bind_Return _ _ _ _ _ (load_array_Some _ _ _ Ha)).
Qed.

(** X6: A non-Widget that does have a two-dimensional [tile_array] is turned
    down by the type check. *)
Lemma add_child_not_a_widget s self me a sh pos :
  objs s !! self = Some me → arrays s !! tile_array me = Some a →
  add_child self (PyOther (Some sh)) pos s = (Raise BearLayoutException, s).
Proof.
  intros Hme Ha. unfold add_child.
  rewrite (bind_Return _ _ _ _ _ (load_Some _ _ _ Hme)).
  rewrite (bind_Return _ _ _ _ _ (load_array_Some _ _ _ Ha)).
  destruct sh, pos. done.
Qed.

(** X4: A Widget is turned down with [BearLayoutException] exactly on the
    five grounds. *)
Lemma add_child_rejects_iff s self me l a c oc ca pos :
  objs s !! self = Some me → as_Layout me = Some l →
  arrays s !! tile_array me = Some a →
  objs s !! c = Some oc → arrays s !! tile_array oc = Some ca →
  (∃ s', add_child self (PyWidget c) pos s = (Raise BearLayoutException, s'))
  ↔ add_child_rejects a ca l self c pos = true.
Proof.
  intros Hme Hl Ha Hoc Hca.
  rewrite (add_child_widget _ _ _ _ _ _ _ _ _ Hme Hl Ha Hoc Hca).
  destruct (add_child_rejects a ca l self c pos); split; try done.
  - by exists s.
  - intros [s' H]. apply add_child_commit_raises in H. by destruct H.
Qed.

Lemma with_terminal_same o : with_terminal (_terminal o) o = o.
Proof. by destruct o. Qed.

(** What a successful [add_child] leaves: the child is last in the child
    list with its offset recorded and the Layout needs a redraw; the child
    has the Layout's terminal and the Layout as parent; no array changed. *)
Lemma add_child_returns s self me l c oc pos s' :
  objs s !! self = Some me → as_Layout me = Some l → objs s !! c = Some oc →
  add_child self (PyWidget c) pos s = (Return tt, s') →
  objs s' !! self =
    Some (with_Layout (λ _, Some {| children := children l ++ [c];
                                    child_locations := <[c := pos]> (child_locations l);
                                    needs_redraw := true;
                                    _child_pointers := _child_pointers l |}) me)
  ∧ objs s' !! c =
      Some (with_parent (WidgetParent self) (with_terminal (_terminal me) oc))
  ∧ arrays s' = arrays s ∧ next_id s' = next_id s ∧ updates s' = updates s.
Proof.
  intros Hme Hl Hoc H.
  destruct (arrays s !! tile_array me) as [a|] eqn:Ha;
    [|unfold add_child in H; mrun H; rewrite Hme in H; mrun H; rewrite Ha in H;
      by simplify_eq].
  destruct (arrays s !! tile_array oc) as [ca|] eqn:Hca;
    [|unfold add_child, shape_of in H; mrun H; rewrite Hme in H; mrun H;
      rewrite Ha in H; mrun H; rewrite Hoc in H; mrun H; rewrite Hca in H;
      by simplify_eq].
  rewrite (add_child_widget _ _ _ _ _ _ _ _ _ Hme Hl Ha Hoc Hca) in H.
  destruct (add_child_rejects a ca l self c pos) eqn:Hrej; [by simplify_eq|].
  assert (Hne : c ≠ self).
  { unfold add_child_rejects in Hrej. apply orb_false_elim in Hrej as [_ Hrej].
    by apply bool_decide_eq_false in Hrej. }
  unfold add_child_commit in H. mrun H.
  set (me1 := with_Layout (fmap (with_child_locations <[c:=pos]>))
                (with_Layout (fmap (with_children (λ cs, cs ++ [c]))) me)).
  set (s1 := with_objs (alter (with_Layout (fmap (with_child_locations <[c:=pos]>))) self)
               (with_objs (alter (with_Layout (fmap (with_children (λ cs, cs ++ [c])))) self) s)) in *.
  assert (Hme1 : objs s1 !! self = Some me1).
  { subst s1 me1. simpl. by rewrite !lookup_alter_eq, Hme. }
  assert (Hoc1 : objs s1 !! c = Some oc).
  { subst s1. simpl. by rewrite !lookup_alter_ne. }
  rewrite Hme1 in H. mrun H.
  destruct (set_terminal recursion_limit c (_terminal me1) s1) as [[[]|e1] s2] eqn:E;
    mrun H; [|by simplify_eq].
  injection H as <-.
  pose proof (set_terminal_sets _ _ _ _ _ _ E Hoc1) as Hoc2.
  destruct (set_terminal_frame _ _ _ _ _ _ E) as [Es2 Hw].
  assert (Hme2 : objs s2 !! self = Some me1).
  { destruct (Hw self) as [->|(o' & Ho' & ->)]; [done|].
    assert (o' = me1) by congruence. subst o'. by rewrite with_terminal_same. }
  simpl. rewrite lookup_alter_eq, lookup_alter_ne, Hme2 by done.
  rewrite lookup_alter_ne, lookup_alter_eq, Hoc2 by done.
  split; [|split; [done|rewrite Es2; by subst s1]].
  subst me1. destruct me. simpl in *. by rewrite Hl.
Qed.

(** C2, the failing input: [layout.add_child(None, (0, 0))] (any object
    without a [tile_array]) ends in [AttributeError], raised by the shape
    lookup that precedes the type check, not in [BearLayoutException]. *)
Theorem add_child_non_widget_AttributeError :
  fst (add_child 0%nat (PyOther None) (0, 0) corner) = Raise AttributeError.
Proof. vm_compute. reflexivity. Qed.

(** C4, the failing input: Layout 0 holds Layout 2; [add_child] of
    Layout 0 to Layout 2 passes the five checks, appends the child and
    records its offset, and then the terminal setters of the two Layouts
    call each other until the interpreter raises [RecursionError]: the
    call fails with the child list and the offsets already changed. *)
Theorem add_child_cycle_fails_after_append :
  (children <$> (objs nested !! 2%nat ≫= as_Layout)) = Some [3%nat] ∧
  fst (add_child 2%nat (PyWidget 0%nat) (0, 0) nested) = Raise RecursionError ∧
  (children <$> (objs (after (add_child 2%nat (PyWidget 0%nat) (0, 0)) nested)
                   !! 2%nat ≫= as_Layout)) = Some [3%nat; 0%nat] ∧
  ((λ l, child_locations l !! 0%nat) <$>
     (objs (after (add_child 2%nat (PyWidget 0%nat) (0, 0)) nested)
        !! 2%nat ≫= as_Layout)) = Some (Some (0, 0)).
Proof. repeat split; vm_compute; reflexivity. Qed.

(** ** Constructors *)

(** [Widget.__init__] takes the next identity and changes nothing else. *)
Lemma Widget_init_new array t s :
  Widget_init array t s =
    (Return (next_id s),
     with_next_id (S (next_id s))
       (with_objs <[next_id s := mkWidget array false t NoParent None None None None]> s)).
Proof. reflexivity. Qed.

(** Committing a plain Widget (one that is no Layout) cannot fail. *)
Lemma add_child_commit_plain s self me l c oc pos :
  objs s !! self = Some me → as_Layout me = Some l →
  objs s !! c = Some oc → as_Layout oc = None → c ≠ self →
  ∃ s', add_child_commit self c pos s = (Return tt, s').
Proof.
  intros Hme Hl Hoc Hpl Hne.
  destruct (add_child_commit self c pos s) as [[[]|e] s'] eqn:E; [by exists s'|].
  exfalso. unfold add_child_commit in E. mrun E. simpl objs in E.
  rewrite !lookup_alter_eq, Hme in E. simpl in E. mrun E. simpl objs in E.
  rewrite !lookup_alter_ne, Hoc in E by done. mrun E. rewrite Hpl in E.
  mrun E. discriminate E.
Qed.

(** The first [add_child] of [Layout.__init__], that of the background,
    is never turned down. *)
Lemma add_child_background s self me l a bg obg :
  objs s !! self = Some me → as_Layout me = Some l → children l = [] →
  arrays s !! tile_array me = Some a →
  objs s !! bg = Some obg → tile_array obg = tile_array me →
  as_Layout obg = None → bg ≠ self →
  ∃ s', add_child self (PyWidget bg) (0, 0) s = (Return tt, s').
Proof.
  intros Hme Hl Hcs Ha Hbg Hshare Hplain Hne.
  assert (Hca : arrays s !! tile_array obg = Some a) by (by rewrite Hshare).
  rewrite (add_child_widget _ _ _ _ _ _ _ _ _ Hme Hl Ha Hbg Hca).
  assert (Hrej : add_child_rejects a a l self bg (0, 0) = false).
  { unfold add_child_rejects. rewrite Hcs.
    rewrite (bool_decide_eq_false_2 (bg ∈ [])) by apply not_elem_of_nil.
    rewrite (bool_decide_eq_false_2 (bg = self)) by done.
    simpl fst. simpl snd.
    rewrite !Z.ltb_irrefl, !Z.add_0_r, !Z.gtb_ltb, !Z.ltb_irrefl. done. }
  rewrite Hrej. by eapply add_child_commit_plain.
Qed.

(** [Layout.__init__] cannot fail on an existing array.  It leaves a
    Layout on that array with exactly one child, the background, placed
    at (0, 0) and built on the same array; [needs_redraw] is off and the
    Layout has no [_child_pointers] attribute. *)
Lemma Layout_init_returns array t s a :
  arrays s !! array = Some a →
  ∃ s',
    Layout_init array t s = (Return (next_id s), s')
    ∧ objs s' !! next_id s =
        Some (mkWidget array false t NoParent
                (Some (mkLayout [S (next_id s)] {[ S (next_id s) := (0, 0) ]}
                                false None))
                None None None)
    ∧ objs s' !! S (next_id s) =
        Some (mkWidget array false t (WidgetParent (next_id s)) None None None None)
    ∧ arrays s' = arrays s ∧ next_id s' = S (S (next_id s))
    ∧ updates s' = updates s.
Proof.
  intros Ha. set (n := next_id s).
  destruct (Layout_init array t s) as [r s'] eqn:E.
  unfold Layout_init, Widget_init, new in E. mrun E.
  simpl objs in E. simpl next_id in E. simpl arrays in E. fold n in E.
  rewrite lookup_alter_eq, lookup_insert_eq in E. cbn -[add_child] in E.
  rewrite Ha in E. mrun E. cbn -[add_child] in E. fold n in E.
  set (me0 := mkWidget array false t NoParent (Some (mkLayout [] ∅ false None))
                       None None None) in *.
  set (bg0 := mkWidget array false None NoParent None None None None) in *.
  match type of E with context [add_child n (PyWidget (S n)) (0, 0) ?w] =>
    set (s2 := w) in * end.
  assert (Hme0 : objs s2 !! n = Some me0).
  { subst s2. simpl. rewrite lookup_insert_ne by lia.
    by rewrite lookup_alter_eq, lookup_insert_eq. }
  assert (Hbg0 : objs s2 !! S n = Some bg0).
  { subst s2. simpl. by rewrite lookup_insert_eq. }
  assert (Ha2 : arrays s2 !! tile_array me0 = Some a) by (by subst s2).
  destruct (add_child_background s2 n me0 _ a (S n) bg0 Hme0 eq_refl eq_refl Ha2
              Hbg0 eq_refl eq_refl ltac:(lia)) as [s3 Eadd].
  rewrite Eadd in E. mrun E.
  destruct (add_child_returns _ _ _ _ _ _ _ _ Hme0 eq_refl Hbg0 Eadd)
    as (Hme' & Hbg' & Harr & Hnext & Hupd).
  simplify_eq. exists (with_objs (alter (with_Layout (fmap (with_needs_redraw false))) n) s3).
  split; [done|]. simpl.
  rewrite lookup_alter_eq, Hme', lookup_alter_ne, Hbg' by lia.
  rewrite Harr, Hnext, Hupd. by subst s2.
Qed.

(** ** Scrollable viewports *)

Lemma Layout_init_no_array array t s :
  arrays s !! array = None →
  ∃ s', Layout_init array t s = (Raise SystemError, s').
Proof.
  intros Ha. destruct (Layout_init array t s) as [r s'] eqn:E.
  unfold Layout_init, Widget_init, new in E. mrun E.
  simpl objs in E. rewrite lookup_alter_eq, lookup_insert_eq in E.
  cbn -[add_child] in E. rewrite Ha in E. simplify_eq. by eexists.
Qed.

(** [ScrollableLayout.__init__] on an existing array: it returns exactly
    when its own two checks pass, and raises [BearLayoutException]
    otherwise; the instance it returns has the viewport asked for and, as
    every Layout, no [_child_pointers]. *)
Lemma ScrollableLayout_init_spec array t vp vs s a :
  arrays s !! array = Some a →
  if ScrollableLayout_accepts (height a) (width a) vp vs then
    ∃ s' me l sc,
      ScrollableLayout_init array t vp vs s = (Return (next_id s), s')
      ∧ objs s' !! next_id s = Some me
      ∧ as_Layout me = Some l ∧ _child_pointers l = None
      ∧ as_Scrollable me = Some sc ∧ view_pos sc = vp ∧ view_size sc = vs
      ∧ arrays s' = arrays s
  else
    ∃ s', ScrollableLayout_init array t vp vs s = (Raise BearLayoutException, s').
Proof.
  intros Ha.
  destruct (Layout_init_returns array t s a Ha) as (s1 & Einit & Hme & Hbg & Harr & Hnext & Hupd).
  unfold ScrollableLayout_init.
  rewrite (bind_Return _ _ _ _ _ Einit).
  rewrite (bind_Return _ _ _ _ _ (load_Some _ _ _ Hme)).
  assert (Ha1 : arrays s1 !! array = Some a) by (by rewrite Harr).
  simpl tile_array.
  rewrite (bind_Return _ _ _ _ _ (load_array_Some _ _ _ Ha1)).
  unfold ScrollableLayout_accepts.
  destruct ((0 <=? fst vp) && (fst vp <=? width a - fst vs)); simpl;
    [|by eexists].
  destruct ((0 <=? snd vp) && (snd vp <=? height a - snd vs)); simpl;
    [|by eexists].
  destruct ((0 <? fst vs) && (fst vs <=? height a)); simpl; [|by eexists].
  destruct ((0 <? snd vs) && (snd vs <=? width a)); simpl; [|by eexists].
  unfold ScrollableLayout_rebuild_self, Scrollable_of, update, modify, bind, load,
    load_array, ret. simpl.
  rewrite !lookup_alter_eq, Hme. simpl. rewrite Ha1. simpl.
  rewrite !lookup_alter_eq, Hme. simpl.
  eexists _, _, _, _. split; [reflexivity|]. simpl.
  rewrite !lookup_alter_eq, Hme. simpl. repeat split; try reflexivity. done.
Qed.

(** X13: the checks of [ScrollableWidget.__init__] pass exactly for a
    viewport that is a window of at least one row and one column inside
    the full array, and raise [BearLayoutException] with nothing changed
    for every other; rows are compared with the height and columns with
    the width throughout. *)
Theorem ScrollableWidget_viewport_inside array vp vs s a :
  arrays s !! array = Some a →
  ScrollableWidget_init_checks array vp vs s =
    (if window_inside (height a) (width a) vp vs
     then Return tt else Raise BearLayoutException, s).
Proof.
  intros Ha. unfold ScrollableWidget_init_checks.
  rewrite (bind_Return _ _ _ _ _ (load_array_Some _ _ _ Ha)).
  unfold window_inside, ret, raise.
  destruct (0 <=? fst vp) eqn:H1, (fst vp <=? height a - fst vs) eqn:H2,
    (0 <=? snd vp) eqn:H3, (snd vp <=? width a - snd vs) eqn:H4,
    (0 <? fst vs) eqn:H5, (fst vs <=? height a) eqn:H6,
    (0 <? snd vs) eqn:H7, (snd vs <=? width a) eqn:H8,
    (fst vp + fst vs <=? height a) eqn:H9,
    (snd vp + snd vs <=? width a) eqn:H10; try reflexivity; exfalso;
    repeat match goal with
           | H : (_ <=? _) = true |- _ => apply Z.leb_le in H
           | H : (_ <=? _) = false |- _ => apply Z.leb_gt in H
           | H : (_ <? _) = true |- _ => apply Z.ltb_lt in H
           | H : (_ <? _) = false |- _ => apply Z.ltb_ge in H
           end; lia.
Qed.

(** On a square backing array [ScrollableLayout.__init__] accepts the
    viewports the specification describes. *)
Lemma square_viewport_as_stated n vp vs :
  ScrollableLayout_accepts n n vp vs
  = viewport_as_stated n n (fst vp) (snd vp) (fst vs) (snd vs).
Proof.
  unfold ScrollableLayout_accepts, viewport_as_stated.
  destruct (0 <=? fst vp), (fst vp <=? n - fst vs), (0 <=? snd vp),
    (snd vp <=? n - snd vs), (0 <? fst vs), (fst vs <=? n), (0 <? snd vs),
    (snd vs <=? n); reflexivity.
Qed.

(** C9, the failing input: on a backing array 5 high and 20 wide,
    [ScrollableLayout(view_pos=(0, 0), view_size=(10, 3))] (a view 10 wide
    and 3 high) meets the condition of the specification, yet the
    constructor raises [BearLayoutException]: its second check compares
    the view's width with the array's height. *)
Theorem ScrollableLayout_init_swaps_axes :
  viewport_as_stated 20 5 0 0 10 3 = true ∧
  fst (ScrollableLayout_init 0%nat None (0, 0) (10, 3) (world_of [blank 5 20]))
    = Raise BearLayoutException.
Proof. split; vm_compute; reflexivity. Qed.

(** [scroll_to] checks before it writes: whenever it raises, nothing has
    changed. *)
Lemma scroll_to_atomic self pos s e s' :
  scroll_to self pos s = (Raise e, s') → s' = s.
Proof.
  intros H. unfold scroll_to in H.
  destruct pos as [|[| |p0|] [|[| |p1|] [|]]]; try (by mrun H; simplify_eq).
  destruct (negb (0 <=? p0)); [by mrun H; simplify_eq|]. mrun H.
  destruct (objs s !! self) as [me|]; [|by simplify_eq].
  destruct (as_Layout me) as [l|]; [|by simplify_eq].
  destruct (_child_pointers l) as [cp|]; [|by simplify_eq].
  unfold py_getitem in H. mrun H.
  repeat (case_match; mrun H; simplify_eq; try done).
Qed.

(** Without a [_child_pointers] attribute, and no Layout has one,
    [scroll_to] of two ints with [0 <= pos[0]] ends in [AttributeError]. *)
Lemma scroll_to_no_child_pointers s self me l p0 p1 :
  objs s !! self = Some me → as_Layout me = Some l →
  _child_pointers l = None → 0 ≤ p0 →
  scroll_to self [VInt p0; VInt p1] s = (Raise AttributeError, s).
Proof.
  intros Hme Hl Hcp Hp.
  destruct (scroll_to self [VInt p0; VInt p1] s) as [r s'] eqn:E.
  unfold scroll_to in E. rewrite (proj2 (Z.leb_le 0 p0) Hp) in E.
  change (negb true) with false in E. mrun E. rewrite Hme in E. mrun E. rewrite Hl in E. mrun E.
  rewrite Hcp in E. by simplify_eq.
Qed.

(** A position that is not two ints, or whose first component is
    negative, is turned down with [BearLayoutException]. *)
Lemma scroll_to_negative self p0 p1 s :
  p0 < 0 → scroll_to self [VInt p0; VInt p1] s = (Raise BearLayoutException, s).
Proof. intros Hp. unfold scroll_to. destruct (Z.leb_spec 0 p0); [lia|]. done. Qed.

(** X14: No call of [scroll_to] on a ScrollableLayout that its constructor
    returned succeeds: every position raises, and the view stays where it
    was. *)
Lemma scroll_to_never_returns array t vp vs s self s' pos :
  ScrollableLayout_init array t vp vs s = (Return self, s') →
  ∃ e, scroll_to self pos s' = (Raise e, s').
Proof.
  intros Hinit.
  destruct (arrays s !! array) as [a|] eqn:Ha.
  2: { destruct (Layout_init_no_array array t s Ha) as [s1 E].
       unfold ScrollableLayout_init in Hinit.
       rewrite (bind_Raise _ _ _ _ _ E) in Hinit. discriminate. }
  pose proof (ScrollableLayout_init_spec array t vp vs s a Ha) as Hspec.
  destruct (ScrollableLayout_accepts (height a) (width a) vp vs).
  2: { destruct Hspec as [s1 E]. congruence. }
  destruct Hspec as (s1 & me & l & sc & E & Hme & Hl & Hcp & _).
  assert (self = next_id s ∧ s' = s1) as [-> ->] by (split; congruence).
  destruct (scroll_to (next_id s) pos s1) as [[[]|e] s2] eqn:Esc.
  - exfalso. unfold scroll_to in Esc.
    destruct pos as [|[| |p0|] [|[| |p1|] [|]]]; try (by mrun Esc; simplify_eq).
    destruct (negb (0 <=? p0)); [by mrun Esc; simplify_eq|]. mrun Esc.
    rewrite Hme in Esc. mrun Esc. rewrite Hl in Esc. mrun Esc.
    rewrite Hcp in Esc. by simplify_eq.
  - exists e. by rewrite (scroll_to_atomic _ _ _ _ _ Esc).
Qed.

(** C3, the failing input (the scenario of the specification): backing
    array 20x20, view 5x5 at (0, 0), [scroll_to((3, 0))] and
    [scroll_by((3, 0))]: the position is within range, yet the call raises
    [AttributeError] on [self._child_pointers] and the view stays at
    (0, 0); one unit beyond the range, (16, 0), raises the same
    [AttributeError] rather than [BearLayoutException]. *)
Theorem scroll_to_raises_AttributeError :
  fst (ScrollableLayout_init 0%nat None (0, 0) (5, 5) (world_of [blank 20 20]))
    = Return 0%nat ∧
  fst (scroll_to 0%nat [VInt 3; VInt 0] viewport20) = Raise AttributeError ∧
  fst (scroll_by 0%nat (3, 0) viewport20) = Raise AttributeError ∧
  fst (scroll_to 0%nat [VInt 16; VInt 0] viewport20) = Raise AttributeError ∧
  (view_pos <$> (objs (after (scroll_to 0%nat [VInt 3; VInt 0]) viewport20)
                   !! 0%nat ≫= as_Scrollable)) = Some (0, 0).
Proof. repeat split; vm_compute; reflexivity. Qed.

(** ** [SwitchingWidget.switch_to_image] *)

(** Switching to the image already shown does nothing. *)
Lemma switch_to_current (w : Switching.SwitchingWidget) :
  Switching.switch_to_image (Switching.current_image w) w = (Return tt, w).
Proof.
  unfold Switching.switch_to_image, bind, get. by rewrite String.eqb_refl.
Qed.

(** Switching to another known image shows its chars and colors and
    makes it the current one. *)
Lemma switch_to_known image_id (i : Anim.image) (w : Switching.SwitchingWidget) :
  image_id ≠ Switching.current_image w →
  Switching.images w !! image_id = Some i →
  Switching.switch_to_image image_id w =
    (Return tt,
     {| Switching.images := Switching.images w;
        Switching.current_image := image_id;
        Switching.tile_array := Switching.tile_array w;
        Switching.layer := Switching.layer w;
        Switching.chars := Some (fst i);
        Switching.colors := Some (snd i) |}).
Proof.
  intros Hne Hi. apply String.eqb_neq in Hne.
  destruct (Switching.switch_to_image image_id w) as [r w'] eqn:E.
  cbv beta iota delta [Switching.switch_to_image Switching.lookup_image
    try_except bind get modify ret raise] in E.
  rewrite Hne in E. cbv beta iota delta [negb] in E.
  rewrite Hi in E. cbv beta iota in E.
  cbn [Switching.images] in E. rewrite Hi in E. by simplify_eq.
Qed.

(** Switching to an unknown image raises [BearException] and leaves the
    widget as it was. *)
Lemma switch_to_unknown image_id (w : Switching.SwitchingWidget) :
  image_id ≠ Switching.current_image w →
  Switching.images w !! image_id = None →
  Switching.switch_to_image image_id w = (Raise BearException, w).
Proof.
  intros Hne Hi. apply String.eqb_neq in Hne.
  destruct (Switching.switch_to_image image_id w) as [r w'] eqn:E.
  cbv beta iota delta [Switching.switch_to_image Switching.lookup_image
    try_except bind get modify ret raise] in E.
  rewrite Hne in E. cbv beta iota delta [negb] in E.
  rewrite Hi in E. cbv beta iota in E.
  destruct (decide (KeyError = KeyError)); [|done]. by simplify_eq.
Qed.

(** X17: [switch_to_image] has no partial failure: whenever it raises, the
    widget is as it was. *)
Lemma switch_to_image_atomic image_id (w w' : Switching.SwitchingWidget) e :
  Switching.switch_to_image image_id w = (Raise e, w') →
  w' = w ∧ e = BearException.
Proof.
  intros H.
  destruct (decide (image_id = Switching.current_image w)) as [->|Hne].
  { by rewrite switch_to_current in H. }
  destruct (Switching.images w !! image_id) as [i|] eqn:Hi.
  - by rewrite (switch_to_known _ _ _ Hne Hi) in H.
  - rewrite (switch_to_unknown _ _ Hne Hi) in H. by simplify_eq.
Qed.

(** ** Animation playback *)

Ltac arun H :=
  cbv beta iota delta
    [bind ret raise get put modify Anim.tick event_type event_value
     as_number] in H.

(** A tick that does not complete the frame only adds to the time
    waited. *)
Lemma Simple_tick_waits (w : Simple.SimpleAnimationWidget) dt :
  Simple.is_running w = true →
  PrimFloat.leb (Anim.frame_time (Simple.animation w)) (Simple.have_waited w + dt) = false →
  Simple.on_event (Anim.tick dt) w
  = (Return None, Simple.with_have_waited (Simple.have_waited w + dt)%float w).
Proof.
  intros Hrun Hlt.
  destruct (Simple.on_event (Anim.tick dt) w) as [r w'] eqn:E.
  unfold Simple.on_event in E. arun E.
  change (String.eqb "tick" "tick") with true in E. rewrite Hrun in E.
  cbv beta iota delta [andb] in E. cbn [Simple.have_waited Simple.animation Simple.with_have_waited] in E.
  rewrite Hlt in E. by simplify_eq.
Qed.

(** A tick that completes the frame advances the index by one, wrapping
    past the last frame, shows the frame at the new index and starts
    waiting afresh; the time beyond [frame_time] is dropped. *)
Lemma Simple_tick_advances (w : Simple.SimpleAnimationWidget) dt (f : Anim.image) :
  Simple.is_running w = true →
  PrimFloat.leb (Anim.frame_time (Simple.animation w)) (Simple.have_waited w + dt) = true →
  0 ≤ Simple.running_index w →
  Anim.frames (Simple.animation w)
    !! Z.to_nat (wrap (Anim.len (Simple.animation w)) (Simple.running_index w)) = Some f →
  Simple.on_event (Anim.tick dt) w
  = (Return (if Simple.emit_ecs w then Some Anim.ecs_update else None),
     {| Simple.animation := Simple.animation w;
        Simple.running_index := wrap (Anim.len (Simple.animation w)) (Simple.running_index w);
        Simple.have_waited := 0%float;
        Simple.emit_ecs := Simple.emit_ecs w;
        Simple.is_running := Simple.is_running w;
        Simple.chars := fst f; Simple.colors := snd f;
        Simple.parent := Simple.parent w; Simple.terminal := Simple.terminal w;
        Simple.updates := Simple.updates w |}).
Proof.
  intros Hrun Hge Hi Hf.
  assert (Hw : 0 ≤ wrap (Anim.len (Simple.animation w)) (Simple.running_index w)).
  { unfold wrap. destruct (_ >=? _); lia. }
  destruct (Simple.on_event (Anim.tick dt) w) as [r w'] eqn:E.
  unfold Simple.on_event in E. arun E.
  change (String.eqb "tick" "tick") with true in E. rewrite Hrun in E.
  cbv beta iota delta [andb] in E.
  cbn [Simple.have_waited Simple.animation Simple.with_have_waited
       Simple.with_running_index Simple.running_index] in E.
  rewrite Hge in E. simpl in E. unfold wrap in Hf, Hw |- *.
  revert E.
  destruct (Simple.running_index w + 1 >=? Anim.len (Simple.animation w)) eqn:Hwrap;
    intros E; simpl in E; unfold py_getitem in E; arun E; simpl in E.
  - rewrite Hf in E. simpl in E. rewrite Hf in E. simpl in E.
    revert E; destruct (Simple.emit_ecs w) eqn:Hemit; intros E; simplify_eq;
      cbv [Simple.with_have_waited Simple.with_colors Simple.with_chars
           Simple.with_running_index]; simpl; rewrite ?Hemit; done.
  - assert (Hnn : (Simple.running_index w + 1 <? 0) = false)
      by (apply Z.ltb_ge; lia).
    rewrite !Hnn in E. rewrite Hf in E. simpl in E.
    rewrite !Hnn in E. rewrite Hf in E. simpl in E.
    revert E; destruct (Simple.emit_ecs w) eqn:Hemit; intros E; simplify_eq;
      cbv [Simple.with_have_waited Simple.with_colors Simple.with_chars
           Simple.with_running_index]; simpl; rewrite ?Hemit; done.
Qed.

Ltac arun_goal :=
  cbv beta iota delta
    [bind ret raise get put modify Anim.tick event_type event_value
     as_number Multiple.animation py_getitem].


Ltac msimp :=
  cbv beta iota;
  cbn [Multiple.with_have_waited Multiple.with_running_index Multiple.with_chars
       Multiple.with_colors Multiple.with_am_running
       Multiple.animations Multiple.current_animation Multiple.cycle
       Multiple.have_waited Multiple.running_index Multiple.emit_ecs
       Multiple.am_running].

(** An advance inside the sequence, or past its end when cycling. *)
Lemma Multiple_tick_advances (w : Multiple.MultipleAnimationWidget) dt
    (a : Anim.Animation) (f : Anim.image) :
  Multiple.am_running w = true →
  Multiple.animations w !! Multiple.current_animation w = Some a →
  PrimFloat.leb (Anim.frame_time a) (Multiple.have_waited w + dt) = true →
  0 ≤ Multiple.running_index w →
  Multiple.running_index w + 1 < Anim.len a ∨ Multiple.cycle w = true →
  Anim.frames a !! Z.to_nat (wrap (Anim.len a) (Multiple.running_index w)) = Some f →
  Multiple.on_event (Anim.tick dt) w
  = (Return (if Multiple.emit_ecs w then Some Anim.ecs_update else None),
     {| Multiple.animations := Multiple.animations w;
        Multiple.current_animation := Multiple.current_animation w;
        Multiple.running_index := wrap (Anim.len a) (Multiple.running_index w);
        Multiple.have_waited := 0%float;
        Multiple.emit_ecs := Multiple.emit_ecs w;
        Multiple.cycle := Multiple.cycle w;
        Multiple.am_running := Multiple.am_running w;
        Multiple.chars := fst f; Multiple.colors := snd f;
        Multiple.parent := Multiple.parent w;
        Multiple.terminal := Multiple.terminal w;
        Multiple.updates := Multiple.updates w |}).
Proof.
  intros Hrun Ha Hge Hi Hin Hf. unfold Multiple.on_event. arun_goal.
  rewrite Hrun. change (String.eqb "tick" "tick") with true. msimp.
  rewrite Ha. msimp. rewrite Hge. msimp. rewrite Ha. msimp. unfold wrap in *.
  destruct (Multiple.running_index w + 1 >=? Anim.len a) eqn:Hwrap.
  - destruct Hin as [Hin|Hc]; [apply Z.geb_le in Hwrap; lia|].
    rewrite Hc. msimp. rewrite Ha. msimp.
    repeat (change (0 <? 0) with false; msimp).
    rewrite Hf. msimp. rewrite Ha. msimp.
    repeat (change (0 <? 0) with false; msimp).
    rewrite Hf. msimp.
    destruct (Multiple.emit_ecs w) eqn:Hemit;
      cbv [Multiple.with_have_waited Multiple.with_colors Multiple.with_chars
           Multiple.with_running_index]; simpl; rewrite ?Hemit, ?Hc, ?Hrun; done.
  - assert (Hnn : (Multiple.running_index w + 1 <? 0) = false)
      by (apply Z.ltb_ge; lia).
    msimp. rewrite Ha. msimp. repeat (rewrite Hnn; msimp).
    rewrite Hf. msimp. rewrite Ha. msimp. repeat (rewrite Hnn; msimp).
    rewrite Hf. msimp.
    destruct (Multiple.emit_ecs w) eqn:Hemit;
      cbv [Multiple.with_have_waited Multiple.with_colors Multiple.with_chars
           Multiple.with_running_index]; simpl; rewrite ?Hemit, ?Hrun; done.
Qed.

(** The non-cycling widget at the end of its sequence: the index moves
    past the last frame, playback is switched off, and reading the frame
    at that index raises [IndexError] before the time waited is reset. *)
Lemma Multiple_tick_past_end (w : Multiple.MultipleAnimationWidget) dt
    (a : Anim.Animation) :
  Multiple.am_running w = true →
  Multiple.animations w !! Multiple.current_animation w = Some a →
  PrimFloat.leb (Anim.frame_time a) (Multiple.have_waited w + dt) = true →
  Multiple.cycle w = false →
  Anim.len a ≤ Multiple.running_index w + 1 →
  Multiple.on_event (Anim.tick dt) w
  = (Raise IndexError,
     Multiple.with_am_running false
       (Multiple.with_running_index (Multiple.running_index w + 1)
          (Multiple.with_have_waited (Multiple.have_waited w + dt)%float w))).
Proof.
  intros Hrun Ha Hge Hc Hend. unfold Multiple.on_event. arun_goal.
  rewrite Hrun. change (String.eqb "tick" "tick") with true. msimp.
  rewrite Ha. msimp. rewrite Hge. msimp. rewrite Ha. msimp.
  assert (Hwrap : (Multiple.running_index w + 1 >=? Anim.len a) = true)
    by (apply Z.geb_le; lia).
  rewrite Hwrap, Hc. msimp. rewrite Ha. msimp.
  assert (Hnn : (Multiple.running_index w + 1 <? 0) = false).
  { apply Z.ltb_ge. unfold Anim.len in Hend. lia. }
  repeat (rewrite Hnn; msimp).
  rewrite (proj2 (lookup_ge_None (Anim.frames a) _)); [done|].
  unfold Anim.len in Hend. lia.
Qed.

Lemma wrap_range n i : 0 ≤ i < n → 0 ≤ wrap n i < n.
Proof. intros H. unfold wrap. destruct (Z.geb_spec (i + 1) n); lia. Qed.

Lemma frames_lookup (a : Anim.Animation) i :
  0 ≤ i < Anim.len a → ∃ f : Anim.image, Anim.frames a !! Z.to_nat i = Some f.
Proof.
  intros H. unfold Anim.len in H. apply lookup_lt_is_Some_2. lia.
Qed.




(** C10, the failing input: a running non-cycling
    [MultipleAnimationWidget] with 3 frames at fps=10 shows its last
    frame, index 2, and receives a tick of 0.1: the index advances to 3,
    the handler raises [IndexError], and the time waited stays at 0.1
    instead of being reset.  Three ticks of 0.1 from the first frame end
    the same way. *)
Theorem noncycling_end_raises_IndexError :
  (let r := Multiple.on_event (Anim.tick (1 / 10)) (demo_multiple false 2) in
   fst r = Raise IndexError ∧
   Multiple.running_index (snd r) = 3 ∧
   Multiple.have_waited (snd r) = (1 / 10)%float ∧
   Multiple.am_running (snd r) = false) ∧
  (let r := feed Multiple.on_event (map Anim.tick (replicate 3 (1 / 10)%float))
                 (demo_multiple false 0) in
   fst r = Raise IndexError ∧
   Multiple.running_index (snd r) = 3 ∧
   Multiple.have_waited (snd r) = (1 / 10)%float).
Proof. vm_compute. repeat split. Qed.

(** ** [Layout.on_event] *)

(** C6, the failing input: a Layout 3 high and 1 wide is given a child 2
    high at offset (-1, 0), which [add_child] accepts, and is placed on a
    terminal.  It then receives the service event ["tick_over"] with
    [needs_redraw] set: the recomposite pastes the child into the rows
    [-1:1], which are none, numpy raises [ValueError], and [on_event]
    ends there, with the Layout not pushed to the terminal and
    [needs_redraw] still set. *)
Theorem tick_over_fails_on_negative_offset :
  fst (sunk_setup three_rows) = Return tt
  ∧ (needs_redraw <$> (objs sunk !! 0%nat ≫= as_Layout)) = Some true
  ∧ (_parent <$> objs sunk !! 0%nat) = Some (TerminalParent 7%nat)
  ∧ (let r := Layout_on_event 0%nat tick_over sunk in
     fst r = Raise ValueError
     ∧ (needs_redraw <$> (objs (snd r) !! 0%nat ≫= as_Layout)) = Some true
     ∧ updates (snd r) = []
     ∧ buffer (snd r) 0%nat = Some [[tile 1]; [tile 2]; [tile 3]]).
Proof. vm_compute. repeat split. Qed.

(** On the example the push is recorded and the flag is cleared. *)
Example corner_redraw_pushes :
  updates corner_on_terminal = [] ∧
  updates (after (Layout_on_event 0%nat tick_over) corner_on_terminal)
    = [(7%nat, 0%nat)] ∧
  (needs_redraw <$> (objs (after (Layout_on_event 0%nat tick_over) corner_on_terminal)
                       !! 0%nat ≫= as_Layout)) = Some false ∧
  updates (after (Layout_on_event 0%nat tick_over) corner) = [].
Proof. repeat split; vm_compute; reflexivity. Qed.

(** ** [MenuWidget.on_event] *)

Lemma py_getitem_Some {S A} (l : list A) i x (s : S) :
  0 ≤ i → l !! Z.to_nat i = Some x → py_getitem l i s = (Return x, s).
Proof.
  intros Hi Hx. unfold py_getitem.
  rewrite (proj2 (Z.ltb_ge i 0) Hi). rewrite (proj2 (Z.ltb_ge i 0) Hi).
  by rewrite Hx.
Qed.

Lemma MenuItem_of_Some s w o it :
  objs s !! w = Some o → as_MenuItem o = Some it → MenuItem_of w s = (Return it, s).
Proof.
  intros Ho Hi. unfold MenuItem_of.
  rewrite (bind_Return _ _ _ _ _ (load_Some _ _ _ Ho)). by rewrite Hi.
Qed.

Lemma Menu_of_Some s w o m :
  objs s !! w = Some o → as_Menu o = Some m → Menu_of w s = (Return m, s).
Proof.
  intros Ho Hm. unfold Menu_of.
  rewrite (bind_Return _ _ _ _ _ (load_Some _ _ _ Ho)). by rewrite Hm.
Qed.

Lemma same_kind_refl o : same_kind o o.
Proof. by repeat split. Qed.

Lemma same_kind_trans o1 o2 o3 :
  same_kind o1 o2 → same_kind o2 o3 → same_kind o1 o3.
Proof.
  intros (H1 & Ht1 & Hl1 & Hm1 & Hi1) (H2 & Ht2 & Hl2 & Hm2 & Hi2).
  repeat split; try congruence.
  - intros Hn. rewrite (H1 Hn) in *. by apply H2.
  - intros H. by apply Hi1, Hi2.
  - intros H. by apply Hi2, Hi1.
Qed.

Lemma menu_step_refl self s : menu_step self s s.
Proof.
  split; [|done]. intros w _. destruct (objs s !! w) as [o|] eqn:E; [|done].
  exists o. split; [done|apply same_kind_refl].
Qed.

Lemma menu_step_trans self s1 s2 s3 :
  menu_step self s1 s2 → menu_step self s2 s3 → menu_step self s1 s3.
Proof.
  intros [H1 A1] [H2 A2]. split; [|by auto].
  intros w Hw. specialize (H1 w Hw). specialize (H2 w Hw).
  destruct (objs s1 !! w) as [o1|].
  - destruct H1 as (o2 & Ho2 & K1). rewrite Ho2 in H2.
    destruct H2 as (o3 & Ho3 & K2). exists o3. split; [done|].
    by eapply same_kind_trans.
  - by rewrite H1 in H2.
Qed.

(** Writing attributes of the menu itself is a menu step. *)
Lemma menu_step_update self f s :
  menu_step self s (with_objs (alter f self) s).
Proof.
  split; [|done]. intros w Hw. simpl. rewrite lookup_alter_ne by done.
  destruct (objs s !! w) as [o|]; [|done]. exists o. split; [done|apply same_kind_refl].
Qed.

Lemma menu_step_passive self s s' c :
  menu_step self s s' → c ≠ self → passive s' c = passive s c.
Proof.
  intros [H _] Hc. specialize (H c Hc). unfold passive.
  destruct (objs s !! c) as [o|].
  - destruct H as (o' & -> & _ & _ & Hl & Hm & _). by rewrite Hl, Hm.
  - by rewrite H.
Qed.

Lemma menu_step_is_item self s s' c :
  menu_step self s s' → c ≠ self → is_item s c = true → is_item s' c = true.
Proof.
  intros [H A] Hc. specialize (H c Hc). unfold is_item.
  destruct (objs s !! c) as [o|]; [|done].
  destruct H as (o' & -> & _ & Ht & _ & _ & Hi).
  destruct (as_MenuItem o) as [it|] eqn:Hit; [|done].
  destruct (arrays s !! tile_array o) as [a|] eqn:Ha; [|done].
  intros _. destruct (proj2 Hi (mk_is_Some _ _ eq_refl)) as [it' ->].
  rewrite Ht. destruct (A (tile_array o) (mk_is_Some _ _ Ha)) as [a' ->]. done.
Qed.

(** Recolouring a MenuItem cannot fail; it repaints the item's own array
    and sets the item's redraw flag. *)
Lemma recolor_item pick self c s :
  is_item s c = true → c ≠ self →
  ∃ s', recolor pick c s = (Return tt, s') ∧ menu_step self s s'
        ∧ objs s' !! self = objs s !! self.
Proof.
  unfold is_item. intros Hitem Hc.
  destruct (objs s !! c) as [o|] eqn:Ho; [|done].
  destruct (as_MenuItem o) as [it|] eqn:Hit; [|done].
  destruct (arrays s !! tile_array o) as [a|] eqn:Ha; [|done].
  exists (with_objs (alter (with_MenuItem (fmap (with_item_needs_redraw true))) c)
            (with_arrays <[tile_array o := set_color (pick it) a]> s)).
  split.
  { unfold recolor.
    rewrite (bind_Return _ _ _ _ _ (MenuItem_of_Some _ _ _ _ Ho Hit)).
    rewrite (bind_Return _ _ _ _ _ (load_Some _ _ _ Ho)).
    rewrite (bind_Return _ _ _ _ _ (load_array_Some _ _ _ Ha)).
    reflexivity. }
  split.
  - split.
    + intros w Hw. simpl. destruct (decide (w = c)) as [->|Hne].
      * rewrite lookup_alter_eq, Ho. simpl. eexists. split; [done|].
        repeat split; simpl; try done; try congruence.
        all: rewrite Hit; simpl; intros _; by eexists.
      * rewrite lookup_alter_ne by done. destruct (objs s !! w) as [ow|]; [|done].
        exists ow. split; [done|apply same_kind_refl].
    + intros k Hk. simpl. destruct (decide (k = tile_array o)) as [->|Hne].
      * rewrite lookup_insert_eq. by eexists.
      * by rewrite lookup_insert_ne.
  - simpl. by rewrite lookup_alter_ne.
Qed.

Lemma update_run (w : wid) (f : widget → widget) s :
  update w f s = (Return tt, with_objs (alter f w) s).
Proof. reflexivity. Qed.

(** The [current_highlight] setter on a value within 1 .. N-1, when both
    the old and the new highlighted child are MenuItems: it cannot fail,
    recolours the two items, moves the highlight and asks for a redraw. *)
Lemma set_current_highlight_items s self me m l v old new' :
  objs s !! self = Some me → as_Menu me = Some m → as_Layout me = Some l →
  1 ≤ v ≤ Z.of_nat (length (children l)) - 1 →
  0 ≤ _current_highlight m →
  children l !! Z.to_nat (_current_highlight m) = Some old →
  children l !! Z.to_nat v = Some new' →
  is_item s old = true → is_item s new' = true → old ≠ self → new' ≠ self →
  ∃ s', set_current_highlight self v s = (Return tt, s')
    ∧ menu_step self s s'
    ∧ objs s' !! self =
        Some (with_Layout (fmap (with_needs_redraw true))
                (with_Menu (fmap (with_current_highlight v)) me)).
Proof.
  intros Hme Hm Hl Hv Hh Hold Hnew Iold Inew Nold Nnew.
  destruct (recolor_item item_color self old s Iold Nold) as (s1 & R1 & M1 & S1).
  set (s2 := with_objs (alter (with_Menu (fmap (with_current_highlight v))) self) s1).
  assert (M2 : menu_step self s1 s2) by apply menu_step_update.
  assert (Inew2 : is_item s2 new' = true).
  { eapply menu_step_is_item; [|done|exact Inew]. by eapply menu_step_trans. }
  destruct (recolor_item highlight_color self new' s2 Inew2 Nnew) as (s3 & R3 & M3 & S3).
  exists (with_objs (alter (with_Layout (fmap (with_needs_redraw true))) self) s3).
  split.
  - unfold set_current_highlight.
    rewrite (bind_Return _ _ _ _ _ (Layout_of_Some _ _ _ _ Hme Hl)).
    destruct Hv as [Hv1 Hv2].
    rewrite (proj2 (Z.leb_le 1 v) Hv1), (proj2 (Z.leb_le _ _) Hv2).
    change (negb (true && true)) with false. cbv iota.
    rewrite (bind_Return _ _ _ _ _ (Menu_of_Some _ _ _ _ Hme Hm)).
    rewrite (bind_Return _ _ _ _ _ (py_getitem_Some _ _ _ _ Hh Hold)).
    unfold unhighlight. rewrite (bind_Return _ _ _ _ _ R1).
    unfold update_Menu. rewrite (bind_Return _ _ _ _ _ (update_run _ _ _)).
    fold s2.
    assert (Hv0 : 0 ≤ v) by lia.
    rewrite (bind_Return _ _ _ _ _ (py_getitem_Some _ _ _ _ Hv0 Hnew)).
    unfold highlight. rewrite (bind_Return _ _ _ _ _ R3).
    reflexivity.
  - split.
    + eapply menu_step_trans; [exact M1|]. eapply menu_step_trans; [exact M2|].
      eapply menu_step_trans; [exact M3|]. apply menu_step_update.
    + simpl. rewrite lookup_alter_eq, S3. subst s2. simpl.
      by rewrite lookup_alter_eq, S1, Hme.
Qed.

Lemma forallb_elem {A} (f : A → bool) (xs : list A) x :
  forallb f xs = true → x ∈ xs → f x = true.
Proof.
  intros H Hx. apply (proj1 (forallb_forall f xs) H). by apply list_elem_of_In.
Qed.

Lemma forallb_pointwise_on {A} (f g : A → bool) (xs : list A) :
  (∀ x, x ∈ xs → f x = g x) → forallb f xs = forallb g xs.
Proof.
  induction xs as [|x xs IH]; intros H; simpl; [done|].
  rewrite H by left. rewrite IH; [done|]. intros y Hy. apply H. by right.
Qed.

Lemma menu_ok_inv s self :
  menu_ok s self = true →
  ∃ me m l, objs s !! self = Some me ∧ as_Menu me = Some m
    ∧ as_Layout me = Some l ∧ as_MenuItem me = None
    ∧ forallb (passive s) (children l) = true
    ∧ forallb (is_item s) (navigable (children l)) = true
    ∧ 1 ≤ _current_highlight m ≤ Z.of_nat (length (children l)) - 2.
Proof.
  unfold menu_ok. intros H.
  destruct (objs s !! self) as [me|]; [|done].
  destruct (as_Menu me) as [m|] eqn:Hm; [|done].
  destruct (as_Layout me) as [l|] eqn:Hl; [|done].
  destruct (as_MenuItem me) eqn:Hi; [done|].
  apply andb_prop in H as [H Hr]. apply andb_prop in H as [Hp Hit].
  apply andb_prop in Hr as [H1 H2]. apply Z.leb_le in H1, H2.
  exists me, m, l. repeat split; done.
Qed.

Lemma menu_ok_intro s self me m l :
  objs s !! self = Some me → as_Menu me = Some m → as_Layout me = Some l →
  as_MenuItem me = None →
  forallb (passive s) (children l) = true →
  forallb (is_item s) (navigable (children l)) = true →
  1 ≤ _current_highlight m ≤ Z.of_nat (length (children l)) - 2 →
  menu_ok s self = true.
Proof.
  intros Hme Hm Hl Hi Hp Hit [H1 H2]. unfold menu_ok.
  rewrite Hme, Hm, Hl, Hi, Hp, Hit. simpl.
  by rewrite (proj2 (Z.leb_le _ _) H1), (proj2 (Z.leb_le _ _) H2).
Qed.

(** The child at an index within 1 .. N-2 exists and is navigable. *)
Lemma navigable_lookup (cs : list wid) i :
  1 ≤ i ≤ Z.of_nat (length cs) - 2 →
  ∃ c, cs !! Z.to_nat i = Some c ∧ c ∈ navigable cs.
Proof.
  intros Hi.
  destruct (lookup_lt_is_Some_2 cs (Z.to_nat i)) as [c Hc]; [lia|].
  exists c. split; [done|]. unfold navigable.
  apply list_elem_of_lookup. exists (Z.to_nat i - 1)%nat.
  rewrite lookup_drop, lookup_take_lt by lia.
  replace (1 + (Z.to_nat i - 1))%nat with (Z.to_nat i) by lia. done.
Qed.

Lemma navigable_subset (cs : list wid) c : c ∈ navigable cs → c ∈ cs.
Proof.
  unfold navigable. intros H. apply list_elem_of_lookup in H as [j Hj].
  rewrite lookup_drop in Hj. apply lookup_take_Some in Hj as [Hj _].
  by eapply list_elem_of_lookup_2.
Qed.

(** A passive child is not the menu. *)
Lemma passive_not_menu s self me m c :
  objs s !! self = Some me → as_Menu me = Some m → passive s c = true → c ≠ self.
Proof.
  intros Hme Hm Hp ->. unfold passive in Hp. by rewrite Hme, Hm in Hp.
Qed.

(** A passive child does nothing with an event. *)
Lemma on_event_passive d c event s :
  passive s c = true → on_event (S d) c event s = (Return [], s).
Proof.
  unfold passive. intros H. destruct (objs s !! c) as [o|] eqn:Ho; [|done].
  simpl. rewrite (bind_Return _ _ _ _ _ (load_Some _ _ _ Ho)).
  by destruct (as_Menu o), (as_Layout o).
Qed.

Lemma collect_passive d event s (cs : list wid) :
  forallb (passive s) cs = true →
  collect cs (λ item,
    bind (on_event (S d) item event)
         (λ response, ret (match response with [] => [] | _ => [EmitWidget item] end))) s
  = (Return [], s).
Proof.
  induction cs as [|c cs IH]; intros H; [done|].
  simpl in H. apply andb_prop in H as [Hc Hcs]. simpl collect.
  assert (Hone : bind (on_event (S d) c event)
            (λ response, ret (match response with
                              | [] => []
                              | _ => [EmitWidget c]
                              end)) s = (Return [], s)).
  { by rewrite (bind_Return _ _ _ _ _ (on_event_passive d c event s Hc)). }
  rewrite (bind_Return _ _ _ _ _ Hone).
  by rewrite (bind_Return _ _ _ _ _ (IH Hcs)).
Qed.

Lemma is_str_eq v k : is_str v k = true → v = VStr k.
Proof.
  destruct v as [|s'| |]; simpl; try done. intros H.
  apply String.eqb_eq in H. by subst.
Qed.

(** Moving the highlight of a well-formed menu to another navigable
    index. *)
Lemma move_highlight s self me m l v :
  objs s !! self = Some me → as_Menu me = Some m → as_Layout me = Some l →
  forallb (passive s) (children l) = true →
  forallb (is_item s) (navigable (children l)) = true →
  1 ≤ _current_highlight m ≤ Z.of_nat (length (children l)) - 2 →
  1 ≤ v ≤ Z.of_nat (length (children l)) - 2 →
  ∃ s', set_current_highlight self v s = (Return tt, s')
    ∧ menu_step self s s'
    ∧ objs s' !! self =
        Some (with_Layout (fmap (with_needs_redraw true))
                (with_Menu (fmap (with_current_highlight v)) me)).
Proof.
  intros Hme Hm Hl Hp Hit Hh Hv.
  destruct (navigable_lookup _ _ Hh) as (old & Hold & Nold).
  destruct (navigable_lookup _ _ Hv) as (new' & Hnew & Nnew).
  eapply (set_current_highlight_items s self me m l v old new'); try done; try lia.
  - by eapply forallb_elem.
  - by eapply forallb_elem.
  - eapply passive_not_menu; [done..|]. eapply forallb_elem; [exact Hp|].
    by apply navigable_subset.
  - eapply passive_not_menu; [done..|]. eapply forallb_elem; [exact Hp|].
    by apply navigable_subset.
Qed.

(** What the menu makes of a key event: it cannot fail, it touches the
    menu and the colours of its items only, the children stay the same,
    and the highlight ends where [highlight_after] says. *)
Lemma MenuWidget_react_key s self me m l event :
  objs s !! self = Some me → as_Menu me = Some m → as_Layout me = Some l →
  forallb (passive s) (children l) = true →
  forallb (is_item s) (navigable (children l)) = true →
  1 ≤ _current_highlight m ≤ Z.of_nat (length (children l)) - 2 →
  is_key_event event = true →
  ∃ res s' me' m',
    MenuWidget_react self event s = (Return res, s')
    ∧ menu_step self s s'
    ∧ objs s' !! self = Some me'
    ∧ (children <$> as_Layout me') = Some (children l)
    ∧ as_MenuItem me' = as_MenuItem me
    ∧ as_Menu me' = Some m'
    ∧ _current_highlight m' =
        highlight_after event m (Z.of_nat (length (children l))).
Proof.
  intros Hme Hm Hl Hp Hit Hh Hkey.
  destruct event as [ty v]. unfold is_key_event in Hkey. simpl in Hkey.
  unfold MenuWidget_react, highlight_after. simpl event_type. simpl event_value.
  rewrite (bind_Return _ _ _ _ _ (Menu_of_Some _ _ _ _ Hme Hm)).
  apply orb_prop in Hkey as [Hk|Hk]; apply String.eqb_eq in Hk; subst ty.
  2: { change (String.eqb "key_up" "tick") with false.
       change (String.eqb "key_up" "key_down") with false.
       change (String.eqb "key_up" "misc_input") with false. simpl.
       exists ([], false, false), s, me, m.
       rewrite Hl. repeat split; try done. apply menu_step_refl. }
  change (String.eqb "key_down" "tick") with false.
  change (String.eqb "key_down" "key_down") with true.
  change (String.eqb "key_down" "misc_input") with false.
  destruct (PrimFloat.leb (input_delay m) (current_delay m)); cbn [andb]; cbv iota.
  2: { exists ([], false, false), s, me, m.
       rewrite Hl. repeat split; try done. apply menu_step_refl. }
  unfold update_Menu. rewrite (bind_Return _ _ _ _ _ (update_run _ _ _)).
  set (me1 := with_Menu (fmap (with_current_delay 0%float)) me).
  set (s1 := with_objs (alter (with_Menu (fmap (with_current_delay 0%float))) self) s).
  assert (M1 : menu_step self s s1) by apply menu_step_update.
  assert (Hme1 : objs s1 !! self = Some me1).
  { subst s1 me1. simpl. by rewrite lookup_alter_eq, Hme. }
  assert (Hm1 : as_Menu me1 = Some (with_current_delay 0%float m)).
  { subst me1. simpl. by rewrite Hm. }
  assert (Hl1 : as_Layout me1 = Some l) by done.
  assert (Hp1 : forallb (passive s1) (children l) = true).
  { rewrite <- Hp. apply forallb_pointwise_on. intros c Hc.
    eapply menu_step_passive; [exact M1|].
    apply (passive_not_menu s self me m c Hme Hm). by eapply forallb_elem. }
  assert (Hit1 : forallb (is_item s1) (navigable (children l)) = true).
  { apply forallb_forall. intros c Hc. apply list_elem_of_In in Hc.
    eapply menu_step_is_item; [exact M1| |by eapply forallb_elem].
    apply (passive_not_menu s self me m c Hme Hm). eapply forallb_elem; [exact Hp|].
    by apply navigable_subset. }
  rewrite (bind_Return _ _ _ _ _ (Layout_of_Some _ _ _ _ Hme1 Hl1)).
  unfold moved.
  destruct (is_str v "TK_SPACE" || is_str v "TK_ENTER") eqn:Hact.
  { destruct (navigable_lookup _ _ Hh) as (c & Hc & Nc).
    assert (H0 : 0 ≤ _current_highlight m) by lia.
    rewrite (bind_Return _ _ _ _ _ (py_getitem_Some _ _ _ _ H0 Hc)).
    pose proof (forallb_elem _ _ _ Hit1 Nc) as Ic. unfold is_item in Ic.
    destruct (objs s1 !! c) as [oc|] eqn:Hoc; [|done].
    destruct (as_MenuItem oc) as [it|] eqn:Hitc; [|done].
    assert (Hact' : activate c s1 = (Return (action it), s1)).
    { unfold activate.
      by rewrite (bind_Return _ _ _ _ _ (MenuItem_of_Some _ _ _ _ Hoc Hitc)). }
    rewrite (bind_Return _ _ _ _ _ Hact').
    exists (action it, false, true), s1, me1, (with_current_delay 0%float m).
    split; [reflexivity|]. split; [exact M1|]. split; [exact Hme1|].
    split; [by rewrite Hl1|]. repeat split; done. }
  destruct (is_str v "TK_UP" || is_str v "TK_W") eqn:Hup.
  { assert (Hdown : is_str v "TK_DOWN" || is_str v "TK_S" = false).
    { apply orb_prop in Hup as [Hu|Hu]; apply is_str_eq in Hu; by subst v. }
    destruct (Z.ltb_spec 1 (_current_highlight m)) as [Hgt|Hle]; cbn [andb]; cbv iota.
    - assert (Hv : 1 ≤ _current_highlight m - 1 ≤ Z.of_nat (length (children l)) - 2)
        by lia.
      destruct (move_highlight s1 self me1 (with_current_delay 0%float m) l
                  (_current_highlight m - 1) Hme1 Hm1 Hl1 Hp1 Hit1 Hh Hv)
        as (s2 & Hset & M2 & Hme2).
      rewrite (bind_Return _ _ _ _ _ Hset).
      eexists ([], true, false), s2, _, _. split; [reflexivity|].
      split; [by eapply menu_step_trans|]. split; [exact Hme2|].
      simpl. rewrite Hl, Hm. simpl. done.
    - rewrite Hdown. cbn [andb]. cbv iota.
      exists ([], false, false), s1, me1, (with_current_delay 0%float m).
      split; [reflexivity|]. split; [exact M1|]. split; [exact Hme1|].
    split; [by rewrite Hl1|]. repeat split; done. }
  destruct (is_str v "TK_DOWN" || is_str v "TK_S") eqn:Hdown; cbn [andb]; cbv iota.
  2: { exists ([], false, false), s1, me1, (with_current_delay 0%float m).
       split; [reflexivity|]. split; [exact M1|]. split; [exact Hme1|].
    split; [by rewrite Hl1|]. repeat split; done. }
  destruct (Z.ltb_spec (_current_highlight m) (Z.of_nat (length (children l)) - 2))
    as [Hlt|Hge]; cbv iota.
  - assert (Hv : 1 ≤ _current_highlight m + 1 ≤ Z.of_nat (length (children l)) - 2)
      by lia.
    destruct (move_highlight s1 self me1 (with_current_delay 0%float m) l
                (_current_highlight m + 1) Hme1 Hm1 Hl1 Hp1 Hit1 Hh Hv)
      as (s2 & Hset & M2 & Hme2).
    rewrite (bind_Return _ _ _ _ _ Hset).
    eexists ([], true, false), s2, _, _. split; [reflexivity|].
    split; [by eapply menu_step_trans|]. split; [exact Hme2|].
    simpl. rewrite Hl, Hm. simpl. done.
  - exists ([], false, false), s1, me1, (with_current_delay 0%float m).
    split; [reflexivity|]. split; [exact M1|]. split; [exact Hme1|].
    split; [by rewrite Hl1|]. repeat split; done.
Qed.

(** A tick only moves the input delay on. *)
Lemma MenuWidget_react_tick s self me m l event :
  objs s !! self = Some me → as_Menu me = Some m → as_Layout me = Some l →
  is_tick_event event = true →
  ∃ res s' me' m',
    MenuWidget_react self event s = (Return res, s')
    ∧ menu_step self s s'
    ∧ objs s' !! self = Some me'
    ∧ (children <$> as_Layout me') = Some (children l)
    ∧ as_MenuItem me' = as_MenuItem me
    ∧ as_Menu me' = Some m'
    ∧ _current_highlight m' =
        highlight_after event m (Z.of_nat (length (children l))).
Proof.
  intros Hme Hm Hl Ht.
  destruct event as [ty v]. unfold is_tick_event in Ht. simpl in Ht.
  apply andb_prop in Ht as [Hty Hv]. apply String.eqb_eq in Hty. subst ty.
  apply bool_decide_eq_true in Hv as [dt Hdt].
  unfold MenuWidget_react, highlight_after. simpl event_type. simpl event_value.
  rewrite (bind_Return _ _ _ _ _ (Menu_of_Some _ _ _ _ Hme Hm)).
  change (String.eqb "tick" "tick") with true.
  change (String.eqb "tick" "key_down") with false.
  change (String.eqb "tick" "misc_input") with false.
  cbn [andb]. cbv iota.
  destruct (PrimFloat.leb (current_delay m) (input_delay m)).
  - rewrite Hdt. unfold update_Menu.
    rewrite (bind_Return _ _ _ _ _ (update_run _ _ _)).
    eexists ([], false, false), _, _, _. split; [reflexivity|].
    split; [apply menu_step_update|].
    split; [simpl; by rewrite lookup_alter_eq, Hme|].
    simpl. rewrite Hl, Hm. done.
  - exists ([], false, false), s, me, m.
    rewrite Hl. split; [reflexivity|]. split; [apply menu_step_refl|]. done.
Qed.

Lemma moved_range key n h : 1 ≤ h ≤ n - 2 → 1 ≤ moved key n h ≤ n - 2.
Proof.
  intros Hh. unfold moved.
  destruct (is_str key "TK_SPACE" || is_str key "TK_ENTER"); [done|].
  destruct (is_str key "TK_UP" || is_str key "TK_W").
  { destruct (Z.ltb_spec 1 h); lia. }
  destruct (is_str key "TK_DOWN" || is_str key "TK_S"); [|done].
  destruct (Z.ltb_spec h (n - 2)); lia.
Qed.

Lemma highlight_after_range event m n :
  1 ≤ _current_highlight m ≤ n - 2 → 1 ≤ highlight_after event m n ≤ n - 2.
Proof.
  intros Hh. unfold highlight_after.
  destruct (_ && _); [by apply moved_range|done].
Qed.

(** [MenuWidget.on_event] on a key event or a tick: it returns, the menu
    is still well formed with the same children, and the highlight is
    where [highlight_after] says. *)
Lemma on_event_menu d s self me m l event :
  objs s !! self = Some me → as_Menu me = Some m → as_Layout me = Some l →
  menu_ok s self = true →
  is_key_event event || is_tick_event event = true →
  ∃ out s',
    on_event (S (S d)) self event s = (Return out, s')
    ∧ menu_ok s' self = true
    ∧ children_of s' self = Some (children l)
    ∧ current_highlight s' self =
        Some (highlight_after event m (Z.of_nat (length (children l)))).
Proof.
  intros Hme Hm Hl Hok Hev.
  destruct (menu_ok_inv _ _ Hok) as (me0 & m0 & l0 & Hme0 & Hm0 & Hl0 & Hi & Hp & Hit & Hh).
  rewrite Hme in Hme0. injection Hme0 as <-.
  rewrite Hm in Hm0. injection Hm0 as <-.
  rewrite Hl in Hl0. injection Hl0 as <-.
  assert (Hreact : ∃ res s' me' m',
    MenuWidget_react self event s = (Return res, s')
    ∧ menu_step self s s'
    ∧ objs s' !! self = Some me'
    ∧ (children <$> as_Layout me') = Some (children l)
    ∧ as_MenuItem me' = as_MenuItem me
    ∧ as_Menu me' = Some m'
    ∧ _current_highlight m' =
        highlight_after event m (Z.of_nat (length (children l)))).
  { apply orb_prop in Hev as [Hk|Ht].
    - by eapply MenuWidget_react_key.
    - by eapply MenuWidget_react_tick. }
  destruct Hreact as (res & s' & me' & m' & Hrun & Mstep & Hme' & Hch & Hi' & Hm' & Hhl).
  destruct (as_Layout me') as [l'|] eqn:Hl'; [|done].
  simpl in Hch. injection Hch as Hch.
  assert (Hp' : forallb (passive s') (children l) = true).
  { rewrite <- Hp. apply forallb_pointwise_on. intros c Hc.
    eapply menu_step_passive; [exact Mstep|].
    apply (passive_not_menu s self me m c Hme Hm). by eapply forallb_elem. }
  assert (Hit' : forallb (is_item s') (navigable (children l)) = true).
  { apply forallb_forall. intros c Hc. apply list_elem_of_In in Hc.
    eapply menu_step_is_item; [exact Mstep| |by eapply forallb_elem].
    apply (passive_not_menu s self me m c Hme Hm). eapply forallb_elem; [exact Hp|].
    by apply navigable_subset. }
  assert (Hquiet : Layout_on_event self event s' = (Return tt, s')).
  { unfold Layout_on_event, Layout_on_event_with.
    assert (Hns : String.eqb (event_type event) "service" = false).
    { unfold is_key_event, is_tick_event in Hev.
      destruct (String.eqb_spec (event_type event) "service") as [E|]; [|done].
      rewrite E in Hev. done. }
    by rewrite Hns. }
  destruct res as [[r sw] act].
  eexists _, s'.
  split.
  - cbn [on_event]. rewrite (bind_Return _ _ _ _ _ (load_Some _ _ _ Hme)).
    rewrite Hm. unfold MenuWidget_on_event.
    rewrite (bind_Return _ _ _ _ _ Hrun).
    rewrite (bind_Return _ _ _ _ _ (Layout_of_Some _ _ _ _ Hme' Hl')).
    rewrite Hch.
    rewrite (bind_Return _ _ _ _ _ (collect_passive d event s' (children l) Hp')).
    rewrite (bind_Return _ _ _ _ _ (Menu_of_Some _ _ _ _ Hme' Hm')).
    rewrite (bind_Return _ _ _ _ _ Hquiet).
    reflexivity.
  - split; [|split].
    + eapply (menu_ok_intro s' self me' m' l'); try done.
      * by rewrite Hi'.
      * by rewrite Hch.
      * by rewrite Hch.
      * rewrite Hch, Hhl. by apply highlight_after_range.
    + unfold children_of. rewrite Hme'. simpl. rewrite Hl'. simpl. by rewrite Hch.
    + unfold current_highlight. rewrite Hme'. simpl. rewrite Hm'. simpl. by rewrite Hhl.
Qed.

(** Any run of key events and ticks keeps the menu well formed. *)
Lemma feed_menu d self cs events : ∀ s,
  menu_ok s self = true → children_of s self = Some cs →
  forallb (λ e, is_key_event e || is_tick_event e) events = true →
  ∃ outs s' h',
    feed (on_event (S (S d)) self) events s = (Return outs, s')
    ∧ menu_ok s' self = true
    ∧ children_of s' self = Some cs
    ∧ current_highlight s' self = Some h'
    ∧ 1 ≤ h' ≤ Z.of_nat (length cs) - 2.
Proof.
  induction events as [|e es IH]; intros s Hok Hcs Hev.
  - destruct (menu_ok_inv _ _ Hok) as (me & m & l & Hme & Hm & Hl & _ & _ & _ & Hh).
    exists [], s, (_current_highlight m). split; [done|]. split; [done|].
    split; [done|]. unfold children_of in Hcs. rewrite Hme in Hcs. simpl in Hcs.
    rewrite Hl in Hcs. injection Hcs as <-.
    split; [|done]. unfold current_highlight. rewrite Hme. simpl. by rewrite Hm.
  - simpl in Hev. apply andb_prop in Hev as [He Hes].
    destruct (menu_ok_inv _ _ Hok) as (me & m & l & Hme & Hm & Hl & _ & _ & _ & Hh).
    assert (Hcl : children l = cs).
    { unfold children_of in Hcs. rewrite Hme in Hcs. simpl in Hcs.
      rewrite Hl in Hcs. by injection Hcs. }
    destruct (on_event_menu d s self me m l e Hme Hm Hl Hok He)
      as (out & s1 & Hrun & Hok1 & Hcs1 & _).
    rewrite Hcl in Hcs1.
    destruct (IH s1 Hok1 Hcs1 Hes) as (outs & s' & h' & Hfeed & Hok' & Hcs' & Hh' & Hr).
    exists (out :: outs), s', h'. split; [|done].
    simpl feed. rewrite (bind_Return _ _ _ _ _ Hrun).
    by rewrite (bind_Return _ _ _ _ _ Hfeed).
Qed.

Lemma moved_down k n h :
  k = "TK_DOWN"%string ∨ k = "TK_S"%string →
  moved (VStr k) n h = if h <? n - 2 then h + 1 else h.
Proof. by intros [-> | ->]. Qed.

Lemma moved_up k n h :
  k = "TK_UP"%string ∨ k = "TK_W"%string →
  moved (VStr k) n h = if 1 <? h then h - 1 else h.
Proof. by intros [-> | ->]. Qed.

(** C7: in a MenuWidget with N children (the background first, a header
    last, MenuItems between them) whose highlight [h] is in the navigable
    range [1, N-2], a Down or S key press that the menu accepts (its input
    delay has run out) moves the highlight to [h+1] unless [h] is [N-2],
    an accepted Up or W key press moves it to [h-1] unless [h] is [1], and
    every sequence of key events (with or without ticks between them) is
    handled with the highlight still in [1, N-2], so it never wraps. *)
Theorem menu_highlight_stays_navigable d s self cs h :
  menu_ok s self = true →
  children_of s self = Some cs →
  current_highlight s self = Some h →
  1 ≤ h ≤ Z.of_nat (length cs) - 2
  ∧ (∀ k, accepts_input s self = true →
       k = "TK_DOWN"%string ∨ k = "TK_S"%string →
       ∃ out s', on_event (S (S d)) self (key_down k) s = (Return out, s')
         ∧ current_highlight s' self =
             Some (if h <? Z.of_nat (length cs) - 2 then h + 1 else h))
  ∧ (∀ k, accepts_input s self = true →
       k = "TK_UP"%string ∨ k = "TK_W"%string →
       ∃ out s', on_event (S (S d)) self (key_down k) s = (Return out, s')
         ∧ current_highlight s' self = Some (if 1 <? h then h - 1 else h))
  ∧ (∀ events,
       forallb (λ e, is_key_event e || is_tick_event e) events = true →
       ∃ outs s' h',
         feed (on_event (S (S d)) self) events s = (Return outs, s')
         ∧ children_of s' self = Some cs
         ∧ current_highlight s' self = Some h'
         ∧ 1 ≤ h' ≤ Z.of_nat (length cs) - 2).
Proof.
  intros Hok Hcs Hh.
  destruct (menu_ok_inv _ _ Hok) as (me & m & l & Hme & Hm & Hl & _ & _ & _ & Hr).
  assert (Hcl : children l = cs).
  { unfold children_of in Hcs. rewrite Hme in Hcs. simpl in Hcs.
    rewrite Hl in Hcs. by injection Hcs. }
  assert (Hhm : _current_highlight m = h).
  { unfold current_highlight in Hh. rewrite Hme in Hh. simpl in Hh.
    rewrite Hm in Hh. by injection Hh. }
  assert (Hone : ∀ k, accepts_input s self = true →
    ∃ out s', on_event (S (S d)) self (key_down k) s = (Return out, s')
      ∧ current_highlight s' self = Some (moved (VStr k) (Z.of_nat (length cs)) h)).
  { intros k Hacc.
    destruct (on_event_menu d s self me m l (key_down k) Hme Hm Hl Hok eq_refl)
      as (out & s' & Hrun & _ & _ & Hhl).
    exists out, s'. split; [done|]. rewrite Hhl, Hcl.
    unfold highlight_after, accepts_input in *. rewrite Hme in Hacc. simpl in Hacc.
    rewrite Hm in Hacc. simpl. rewrite Hacc, Hhm. done. }
  split; [by rewrite <- Hcl, <- Hhm|].
  split; [|split].
  - intros k Hacc Hk. destruct (Hone k Hacc) as (out & s' & Hrun & Hhl).
    exists out, s'. by rewrite <- (moved_down k (Z.of_nat (length cs)) h Hk).
  - intros k Hacc Hk. destruct (Hone k Hacc) as (out & s' & Hrun & Hhl).
    exists out, s'. by rewrite <- (moved_up k (Z.of_nat (length cs)) h Hk).
  - intros events Hev.
    destruct (feed_menu d self cs events s Hok Hcs Hev)
      as (outs & s' & h' & Hfeed & _ & Hcs' & Hh' & Hr').
    by exists outs, s', h'.
Qed.

Lemma menu_highlight_stays_navigable_witness :
  menu_ok menu5 0%nat = true
  ∧ children_of menu5 0%nat = Some [1; 2; 3; 4; 5]%nat
  ∧ current_highlight menu5 0%nat = Some 1
  ∧ accepts_input menu5 0%nat = true
  ∧ (∃ out s', on_event 2 0%nat (key_down "TK_DOWN") menu5 = (Return out, s')
       ∧ current_highlight s' 0%nat = Some 2)
  ∧ (∃ out s', on_event 2 0%nat (key_down "TK_UP") menu5 = (Return out, s')
       ∧ current_highlight s' 0%nat = Some 1).
Proof.
  assert (H1 : menu_ok menu5 0%nat = true) by (vm_compute; reflexivity).
  assert (H2 : children_of menu5 0%nat = Some [1; 2; 3; 4; 5]%nat)
    by (vm_compute; reflexivity).
  assert (H3 : current_highlight menu5 0%nat = Some 1) by (vm_compute; reflexivity).
  assert (H4 : accepts_input menu5 0%nat = true) by (vm_compute; reflexivity).
  split; [exact H1|]. split; [exact H2|]. split; [exact H3|]. split; [exact H4|].
  destruct (menu_highlight_stays_navigable 0 menu5 0%nat [1; 2; 3; 4; 5]%nat 1 H1 H2 H3)
    as (_ & Hdown & Hup & _).
  split.
  - exact (Hdown "TK_DOWN"%string H4 (or_introl eq_refl)).
  - exact (Hup "TK_UP"%string H4 (or_introl eq_refl)).
Defined.

(** * Further properties of the Layout *)

Lemma rebuild_changes_tiles_only_witness :
  Layout_rebuild_self 0%nat corner
    = (Return tt, after (Layout_rebuild_self 0%nat) corner)
  ∧ objs (after (Layout_rebuild_self 0%nat) corner) = objs corner
  ∧ updates (after (Layout_rebuild_self 0%nat) corner) = updates corner.
Proof.
  assert (Hrun : Layout_rebuild_self 0%nat corner
                 = (Return tt, after (Layout_rebuild_self 0%nat) corner)).
  { unfold after. apply (run_fst_snd (Layout_rebuild_self 0%nat) corner (Return tt)).
    vm_compute. reflexivity. }
  split; [exact Hrun|].
  exact (rebuild_changes_tiles_only 0%nat corner (Return tt)
           (after (Layout_rebuild_self 0%nat) corner) Hrun).
Defined.


(** X30: a [tick_over] whose recomposite raises.  [Layout.on_event]
    lets the exception of [_rebuild_self] through: the Layout is not
    pushed to its terminal and [needs_redraw] stays set, as does every
    other attribute, so the next [tick_over] tries the same recomposite
    again. *)
Theorem tick_over_failed_rebuild s self me l e s1 :
  objs s !! self = Some me → as_Layout me = Some l → as_Scrollable me = None →
  needs_redraw l = true →
  Layout_rebuild_self self s = (Raise e, s1) →
  Layout_on_event self tick_over s = (Raise e, s1)
  ∧ objs s1 = objs s ∧ updates s1 = updates s.
Proof.
  intros Hme Hl Hsc Hn Hrun. split.
  - unfold Layout_on_event, Layout_on_event_with. cbn [tick_over event_type event_value].
    change (String.eqb "service" "service") with true.
    change (is_str (VStr "tick_over") "tick_over") with true. cbn [negb].
    rewrite (bind_Return _ _ _ _ _ (Layout_of_Some _ _ _ _ Hme Hl)).
    rewrite Hn. cbn [negb]. apply bind_Raise.
    unfold rebuild_self. rewrite (bind_Return _ _ _ _ _ (load_Some _ _ _ Hme)).
    by rewrite Hsc.
  - pose proof (rebuild_attrs self s) as Ha. by rewrite Hrun in Ha.
Qed.

Lemma tick_over_failed_rebuild_witness :
  needs_redraw sunk_l = true
  ∧ Layout_rebuild_self 0%nat sunk
    = (Raise ValueError, after (Layout_rebuild_self 0%nat) sunk)
  ∧ Layout_on_event 0%nat tick_over sunk
    = (Raise ValueError, after (Layout_rebuild_self 0%nat) sunk)
  ∧ objs (after (Layout_rebuild_self 0%nat) sunk) = objs sunk
  ∧ updates (after (Layout_rebuild_self 0%nat) sunk) = updates sunk.
Proof.
  assert (H1 : objs sunk !! 0%nat = Some sunk_me) by (vm_compute; reflexivity).
  assert (H2 : as_Layout sunk_me = Some sunk_l) by reflexivity.
  assert (H3 : as_Scrollable sunk_me = None) by reflexivity.
  assert (H4 : needs_redraw sunk_l = true) by reflexivity.
  assert (H5 : Layout_rebuild_self 0%nat sunk
               = (Raise ValueError, after (Layout_rebuild_self 0%nat) sunk)).
  { unfold after. apply (run_fst_snd (Layout_rebuild_self 0%nat) sunk (Raise ValueError)).
    vm_compute. reflexivity. }
  split; [exact H4|]. split; [exact H5|].
  exact (tick_over_failed_rebuild sunk 0%nat sunk_me sunk_l ValueError
           (after (Layout_rebuild_self 0%nat) sunk) H1 H2 H3 H4 H5).
Defined.





Lemma add_child_atomic_witness :
  fst (add_child 0%nat (PyWidget 2%nat) (0, 0) corner) = Raise BearLayoutException ∧
  after (add_child 0%nat (PyWidget 2%nat) (0, 0)) corner = corner.
Proof.
  assert (H1 : fst (add_child 0%nat (PyWidget 2%nat) (0, 0) corner)
               = Raise BearLayoutException) by (vm_compute; reflexivity).
  split; [exact H1|].
  exact (add_child_atomic 0%nat (PyWidget 2%nat) (0, 0) corner BearLayoutException
           (after (add_child 0%nat (PyWidget 2%nat) (0, 0)) corner)
           (run_fst_snd (add_child 0%nat (PyWidget 2%nat) (0, 0)) corner _ H1)
           (or_introl eq_refl)).
Defined.

Lemma add_child_rejects_iff_witness :
  add_child_rejects corner_a corner_ca corner_l 0%nat 2%nat (0, 0) = true ∧
  ((∃ s', add_child 0%nat (PyWidget 2%nat) (0, 0) corner
          = (Raise BearLayoutException, s'))
   ↔ add_child_rejects corner_a corner_ca corner_l 0%nat 2%nat (0, 0) = true).
Proof.
  assert (H1 : objs corner !! 0%nat = Some corner_layout) by (vm_compute; reflexivity).
  assert (H2 : as_Layout corner_layout = Some corner_l) by reflexivity.
  assert (H3 : arrays corner !! tile_array corner_layout = Some corner_a)
    by (vm_compute; reflexivity).
  assert (H4 : objs corner !! 2%nat = Some corner_child) by (vm_compute; reflexivity).
  assert (H5 : arrays corner !! tile_array corner_child = Some corner_ca)
    by (vm_compute; reflexivity).
  split; [vm_compute; reflexivity|].
  exact (add_child_rejects_iff corner 0%nat corner_layout corner_l corner_a 2%nat
           corner_child corner_ca (0, 0) H1 H2 H3 H4 H5).
Defined.

(** X5: [add_child] of a plain Widget (one that is no Layout) that none
    of the five checks turns down always returns: the child is last in
    the child list with its offset recorded, the Layout asks for a
    redraw, the child has the Layout's terminal and the Layout as its
    parent, and no array, no other object and no identity has changed. *)
Theorem add_child_plain_returns s self me l a c oc ca pos :
  objs s !! self = Some me → as_Layout me = Some l →
  arrays s !! tile_array me = Some a →
  objs s !! c = Some oc → arrays s !! tile_array oc = Some ca →
  as_Layout oc = None →
  add_child_rejects a ca l self c pos = false →
  ∃ s', add_child self (PyWidget c) pos s = (Return tt, s')
    ∧ (objs s' !! self ≫= as_Layout) =
        Some {| children := children l ++ [c];
                child_locations := <[c := pos]> (child_locations l);
                needs_redraw := true;
                _child_pointers := _child_pointers l |}
    ∧ objs s' !! c =
        Some (with_parent (WidgetParent self) (with_terminal (_terminal me) oc))
    ∧ (∀ w, w ≠ self → w ≠ c → objs s' !! w = objs s !! w)
    ∧ arrays s' = arrays s ∧ next_id s' = next_id s.
Proof.
  intros Hme Hl Ha Hoc Hca Hplain Hrej.
  assert (Hne : c ≠ self).
  { unfold add_child_rejects in Hrej. apply orb_false_elim in Hrej as [_ Hrej].
    by apply bool_decide_eq_false in Hrej. }
  destruct (add_child_commit_plain s self me l c oc pos Hme Hl Hoc Hplain Hne)
    as (s' & Hcommit).
  assert (Hrun : add_child self (PyWidget c) pos s = (Return tt, s')).
  { rewrite (add_child_widget _ _ _ _ _ _ _ _ _ Hme Hl Ha Hoc Hca). by rewrite Hrej. }
  exists s'. split; [exact Hrun|].
  destruct (add_child_returns s self me l c oc pos s' Hme Hl Hoc Hrun)
    as (Hs & Hc & Harr & Hid & _).
  split; [by rewrite Hs|]. split; [exact Hc|]. split; [|done].
  intros w Hws Hwc.
  unfold add_child_commit in Hcommit. mrun Hcommit. simpl objs in Hcommit.
  rewrite !lookup_alter_eq, Hme in Hcommit. simpl in Hcommit. mrun Hcommit.
  simpl objs in Hcommit. rewrite !lookup_alter_ne, Hoc in Hcommit by done.
  mrun Hcommit. rewrite Hplain in Hcommit. mrun Hcommit.
  injection Hcommit as <-. simpl.
  by rewrite !lookup_alter_ne.
Qed.

Lemma add_child_plain_returns_witness :
  add_child_rejects corner_a corner_ca corner_l 0%nat 3%nat (0, 1) = false ∧
  ∃ s', add_child 0%nat (PyWidget 3%nat) (0, 1) spare = (Return tt, s')
    ∧ (objs s' !! 0%nat ≫= as_Layout) =
        Some {| children := children corner_l ++ [3%nat];
                child_locations := <[3%nat := (0, 1)]> (child_locations corner_l);
                needs_redraw := true;
                _child_pointers := _child_pointers corner_l |}
    ∧ objs s' !! 3%nat =
        Some (with_parent (WidgetParent 0%nat)
                (with_terminal (_terminal corner_layout) spare_widget))
    ∧ (∀ w, w ≠ 0%nat → w ≠ 3%nat → objs s' !! w = objs spare !! w)
    ∧ arrays s' = arrays spare ∧ next_id s' = next_id spare.
Proof.
  assert (H1 : objs spare !! 0%nat = Some corner_layout) by (vm_compute; reflexivity).
  assert (H2 : as_Layout corner_layout = Some corner_l) by reflexivity.
  assert (H3 : arrays spare !! tile_array corner_layout = Some corner_a)
    by (vm_compute; reflexivity).
  assert (H4 : objs spare !! 3%nat = Some spare_widget) by (vm_compute; reflexivity).
  assert (H5 : arrays spare !! tile_array spare_widget = Some corner_ca)
    by (vm_compute; reflexivity).
  assert (H6 : as_Layout spare_widget = None) by reflexivity.
  assert (H7 : add_child_rejects corner_a corner_ca corner_l 0%nat 3%nat (0, 1) = false)
    by (vm_compute; reflexivity).
  split; [exact H7|].
  exact (add_child_plain_returns spare 0%nat corner_layout corner_l corner_a 3%nat
           spare_widget corner_ca (0, 1) H1 H2 H3 H4 H5 H6 H7).
Defined.

(** ** The [terminal] setter *)

Lemma for_each_set_terminal_frame d v cs : ∀ s r s',
  for_each cs (λ child, set_terminal d child v) s = (r, s') → terminal_set v s s'.
Proof.
  induction cs as [|c cs IH]; intros s r s' H.
  { simpl in H. injection H as _ <-. apply terminal_set_refl. }
  simpl in H. unfold bind in H.
  destruct (set_terminal d c v s) as [[[]|e] s1] eqn:E.
  - eapply terminal_set_trans; [by eapply set_terminal_frame|by eapply IH].
  - injection H as _ <-. by eapply set_terminal_frame.
Qed.

Lemma terminal_set_keeps v s s' w o :
  terminal_set v s s' → objs s !! w = Some o → _terminal o = v →
  ∃ o', objs s' !! w = Some o' ∧ _terminal o' = v.
Proof.
  intros [_ H] Ho Ht. destruct (H w) as [Hw|(o1 & Hw & Hw')].
  - exists o. by rewrite Hw.
  - exists (with_terminal v o1). done.
Qed.

Lemma for_each_set_terminal_children d v cs : ∀ s s',
  for_each cs (λ child, set_terminal d child v) s = (Return tt, s') →
  ∀ c, c ∈ cs → ∃ o, objs s' !! c = Some o ∧ _terminal o = v.
Proof.
  induction cs as [|c0 cs IH]; intros s s' H c Hc.
  { by apply elem_of_nil in Hc. }
  simpl in H. unfold bind in H.
  destruct (set_terminal d c0 v s) as [[[]|e] s1] eqn:E; [|done].
  destruct (decide (c ∈ cs)) as [Hin|Hnin]; [by eapply IH|].
  apply elem_of_cons in Hc as [->|Hc]; [|done].
  assert (∃ o0, objs s !! c0 = Some o0) as [o0 Ho0].
  { destruct (objs s !! c0) as [o0|] eqn:Ho; [by exists o0|].
    destruct d as [|d]; simpl in E; mrun E; [done|]. rewrite Ho in E. done. }
  pose proof (set_terminal_sets _ _ _ _ _ _ E Ho0) as H1.
  eapply terminal_set_keeps; [by eapply for_each_set_terminal_frame|exact H1|done].
Qed.

(** X7: when the terminal setter of a Layout returns, the Layout and each
    of its children have the terminal it was given; every other
    attribute of every object, and every array, is as before. *)
Theorem terminal_reaches_children d self v s s' me l :
  set_terminal d self v s = (Return tt, s') →
  objs s !! self = Some me → as_Layout me = Some l →
  (∀ c, c = self ∨ c ∈ children l →
        ∃ o, objs s' !! c = Some o ∧ _terminal o = v)
  ∧ (∀ w o, objs s !! w = Some o →
            ∃ o', objs s' !! w = Some o' ∧ with_terminal v o' = with_terminal v o)
  ∧ arrays s' = arrays s.
Proof.
  intros H Hme Hl.
  pose proof (set_terminal_frame _ _ _ _ _ _ H) as Hframe.
  split; [|split].
  - intros c [->|Hc].
    + exists (with_terminal v me). split; [|done]. by eapply set_terminal_sets.
    + destruct d as [|d]; [simpl in H; by mrun H|].
      simpl in H. rewrite (bind_Return _ _ _ _ _ (load_Some _ _ _ Hme)) in H.
      rewrite (bind_Return _ _ _ _ _ (update_run _ _ _)) in H.
      rewrite Hl in H.
      by eapply for_each_set_terminal_children.
  - intros w o Ho. destruct Hframe as [_ Hw]. destruct (Hw w) as [E|(o1 & E1 & E2)].
    + exists o. by rewrite E.
    + exists (with_terminal v o1). split; [done|].
      assert (o1 = o) by congruence. subst o1. by destruct o.
  - destruct Hframe as [-> _]. done.
Qed.

Lemma terminal_reaches_children_witness :
  set_terminal recursion_limit 0%nat (Some 7%nat) corner
    = (Return tt, after (set_terminal recursion_limit 0%nat (Some 7%nat)) corner) ∧
  children corner_l = [1%nat; 2%nat] ∧
  ∃ o, objs (after (set_terminal recursion_limit 0%nat (Some 7%nat)) corner) !! 2%nat
       = Some o ∧ _terminal o = Some 7%nat.
Proof.
  assert (H1 : set_terminal recursion_limit 0%nat (Some 7%nat) corner
    = (Return tt, after (set_terminal recursion_limit 0%nat (Some 7%nat)) corner)).
  { unfold after.
    apply (run_fst_snd (set_terminal recursion_limit 0%nat (Some 7%nat)) corner (Return tt)).
    vm_compute. reflexivity. }
  assert (H2 : objs corner !! 0%nat = Some corner_layout) by (vm_compute; reflexivity).
  assert (H3 : as_Layout corner_layout = Some corner_l) by reflexivity.
  assert (H4 : 2%nat = 0%nat ∨ 2%nat ∈ children corner_l).
  { right. change (children corner_l) with [1%nat; 2%nat].
    apply elem_of_cons. right. apply elem_of_cons. by left. }
  split; [exact H1|]. split; [reflexivity|].
  exact (proj1 (terminal_reaches_children recursion_limit 0%nat (Some 7%nat) corner
                  (after (set_terminal recursion_limit 0%nat (Some 7%nat)) corner)
                  corner_layout corner_l H1 H2 H3) 2%nat H4).
Defined.

(** ** [Layout.remove_child] and [Layout.move_child] *)

Lemma set_terminal_plain d c v s oc :
  objs s !! c = Some oc → as_Layout oc = None →
  set_terminal (S d) c v s = (Return tt, with_objs (alter (with_terminal v) c) s).
Proof.
  intros Hoc Hplain. simpl.
  rewrite (bind_Return _ _ _ _ _ (load_Some _ _ _ Hoc)).
  rewrite (bind_Return _ _ _ _ _ (update_run _ _ _)).
  by rewrite Hplain.
Qed.

Lemma list_remove_last c cs : c ∉ cs → list_remove c (cs ++ [c]) = cs.
Proof.
  induction cs as [|y cs IH]; intros Hc; simpl.
  - by destruct (decide (c = c)).
  - apply not_elem_of_cons in Hc as [Hne Hc].
    destruct (decide (y = c)) as [->|_]; [done|]. by rewrite IH.
Qed.

(** X8: [remove_child] turns down exactly the widgets that are not
    children of the Layout: for those it raises [BearLayoutException] and
    changes nothing; for a child it never raises that exception. *)
Theorem remove_child_only_own_child s self me l c :
  objs s !! self = Some me → as_Layout me = Some l →
  (c ∉ children l → remove_child self c s = (Raise BearLayoutException, s))
  ∧ (c ∈ children l →
     ∀ s', remove_child self c s ≠ (Raise BearLayoutException, s')).
Proof.
  intros Hme Hl. unfold remove_child.
  rewrite (bind_Return _ _ _ _ _ (Layout_of_Some _ _ _ _ Hme Hl)).
  split; intros Hc.
  - by rewrite (bool_decide_eq_false_2 _ Hc).
  - rewrite (bool_decide_eq_true_2 _ Hc). intros s' H.
    destruct (child_locations l !! c); [|discriminate H].
    unfold update_Layout in H.
    rewrite (bind_Return _ _ _ _ _ (update_run _ _ _)) in H.
    rewrite (bind_Return _ _ _ _ _ (update_run _ _ _)) in H.
    unfold bind at 1 in H.
    destruct (set_terminal recursion_limit c None _) as [[[]|e] s1] eqn:E.
    + unfold set_parent in H.
      rewrite (bind_Return _ _ _ _ _ (update_run _ _ _)) in H.
      rewrite update_run in H. discriminate H.
    + injection H as -> _.
      destruct (set_terminal_raises _ _ _ _ _ _ E) as [?|?]; discriminate.
Qed.

Lemma remove_child_only_own_child_witness :
  (3%nat ∉ children corner_l) ∧
  remove_child 0%nat 3%nat corner = (Raise BearLayoutException, corner).
Proof.
  assert (H1 : objs corner !! 0%nat = Some corner_layout) by (vm_compute; reflexivity).
  assert (H2 : as_Layout corner_layout = Some corner_l) by reflexivity.
  assert (H3 : 3%nat ∉ children corner_l).
  { change (children corner_l) with [1%nat; 2%nat].
    intros H. apply elem_of_cons in H as [H|H]; [discriminate H|].
    apply elem_of_cons in H as [H|H]; [discriminate H|]. by apply elem_of_nil in H. }
  split; [exact H3|].
  exact (proj1 (remove_child_only_own_child corner 0%nat corner_layout corner_l 3%nat
                  H1 H2) H3).
Defined.

(** X9: adding a plain Widget and removing it again restores the child
    list; the offset recorded for the widget is deleted, the widget is
    left with no parent and no terminal, the Layout asks for a redraw,
    and the arrays are untouched (the tiles already pasted stay). *)
Theorem add_child_then_remove_child s self me l a c oc ca pos :
  objs s !! self = Some me → as_Layout me = Some l →
  arrays s !! tile_array me = Some a →
  objs s !! c = Some oc → arrays s !! tile_array oc = Some ca →
  as_Layout oc = None →
  add_child_rejects a ca l self c pos = false →
  ∃ s', bind (add_child self (PyWidget c) pos) (λ _, remove_child self c) s
        = (Return tt, s')
    ∧ (objs s' !! self ≫= as_Layout) =
        Some {| children := children l;
                child_locations := delete c (child_locations l);
                needs_redraw := true;
                _child_pointers := _child_pointers l |}
    ∧ objs s' !! c = Some (with_parent NoParent (with_terminal None oc))
    ∧ arrays s' = arrays s.
Proof.
  intros Hme Hl Ha Hoc Hca Hplain Hrej.
  assert (Hne : c ≠ self).
  { unfold add_child_rejects in Hrej. apply orb_false_elim in Hrej as [_ Hrej].
    by apply bool_decide_eq_false in Hrej. }
  assert (Hnin : c ∉ children l).
  { unfold add_child_rejects in Hrej. apply orb_false_elim in Hrej as [Hrej _].
    apply orb_false_elim in Hrej as [Hrej _]. apply orb_false_elim in Hrej as [Hrej _].
    by apply bool_decide_eq_false in Hrej. }
  destruct (add_child_commit_plain s self me l c oc pos Hme Hl Hoc Hplain Hne)
    as (s1 & Hcommit).
  assert (Hadd : add_child self (PyWidget c) pos s = (Return tt, s1)).
  { rewrite (add_child_widget _ _ _ _ _ _ _ _ _ Hme Hl Ha Hoc Hca). by rewrite Hrej. }
  destruct (add_child_returns s self me l c oc pos s1 Hme Hl Hoc Hadd)
    as (Hme1 & Hc1 & Harr1 & _).
  set (l1 := mkLayout (children l ++ [c]) (<[c := pos]> (child_locations l)) true
                      (_child_pointers l)) in *.
  set (me1 := with_Layout (λ _, Some l1) me) in *.
  assert (Hl1 : as_Layout me1 = Some l1) by done.
  set (oc1 := with_parent (WidgetParent self) (with_terminal (_terminal me) oc)) in *.
  rewrite (bind_Return _ _ _ _ _ Hadd).
  unfold remove_child.
  rewrite (bind_Return _ _ _ _ _ (Layout_of_Some _ _ _ _ Hme1 Hl1)).
  cbn [children].
  rewrite bool_decide_eq_true_2 by (apply elem_of_app; right; apply elem_of_cons; by left).
  change (child_locations l1) with (<[c := pos]> (child_locations l)).
  rewrite lookup_insert_eq.
  unfold update_Layout.
  rewrite (bind_Return _ _ _ _ _ (update_run _ _ _)).
  rewrite (bind_Return _ _ _ _ _ (update_run _ _ _)).
  set (s2 := with_objs _ (with_objs _ s1)).
  assert (Hc2 : objs s2 !! c = Some oc1).
  { subst s2. simpl. by rewrite !lookup_alter_ne. }
  unfold recursion_limit.
  rewrite (bind_Return _ _ _ _ _ (set_terminal_plain _ c None s2 oc1 Hc2 Hplain)).
  unfold set_parent.
  rewrite (bind_Return _ _ _ _ _ (update_run _ _ _)).
  rewrite update_run.
  eexists. split; [reflexivity|].
  subst s2. simpl.
  rewrite lookup_alter_eq, !lookup_alter_ne, !lookup_alter_eq, Hme1 by done.
  rewrite lookup_alter_ne, lookup_alter_eq, lookup_alter_eq by done.
  rewrite !lookup_alter_ne, Hc1 by done.
  split; [|split; [|done]].
  - subst me1 l1. simpl. unfold with_needs_redraw, with_children, with_child_locations.
    simpl. rewrite list_remove_last by done. by rewrite delete_insert_eq.
  - done.
Qed.

Lemma add_child_then_remove_child_witness :
  add_child_rejects corner_a corner_ca corner_l 0%nat 3%nat (0, 1) = false ∧
  ∃ s', bind (add_child 0%nat (PyWidget 3%nat) (0, 1)) (λ _, remove_child 0%nat 3%nat)
          spare = (Return tt, s')
    ∧ (objs s' !! 0%nat ≫= as_Layout) =
        Some {| children := children corner_l;
                child_locations := delete 3%nat (child_locations corner_l);
                needs_redraw := true;
                _child_pointers := _child_pointers corner_l |}
    ∧ objs s' !! 3%nat = Some (with_parent NoParent (with_terminal None spare_widget))
    ∧ arrays s' = arrays spare.
Proof.
  assert (H1 : objs spare !! 0%nat = Some corner_layout) by (vm_compute; reflexivity).
  assert (H2 : as_Layout corner_layout = Some corner_l) by reflexivity.
  assert (H3 : arrays spare !! tile_array corner_layout = Some corner_a)
    by (vm_compute; reflexivity).
  assert (H4 : objs spare !! 3%nat = Some spare_widget) by (vm_compute; reflexivity).
  assert (H5 : arrays spare !! tile_array spare_widget = Some corner_ca)
    by (vm_compute; reflexivity).
  assert (H6 : as_Layout spare_widget = None) by reflexivity.
  assert (H7 : add_child_rejects corner_a corner_ca corner_l 0%nat 3%nat (0, 1) = false)
    by (vm_compute; reflexivity).
  split; [exact H7|].
  exact (add_child_then_remove_child spare 0%nat corner_layout corner_l corner_a 3%nat
           spare_widget corner_ca (0, 1) H1 H2 H3 H4 H5 H6 H7).
Defined.

(** A value at least two long is not broadcast to a slice that the end of
    the array cuts short. *)
Lemma slice_overhang len p n :
  0 ≤ len → 0 ≤ p → len < p + n → 1 < n →
  broadcastable n (snd (slice_bounds len p (p + n)) - fst (slice_bounds len p (p + n)))
  = false.
Proof.
  intros Hlen Hp Hover Hn. unfold slice_bounds, slice_index. simpl.
  destruct (Z.ltb_spec p 0); [lia|]. destruct (Z.ltb_spec (p + n) 0); [lia|].
  unfold broadcastable. apply orb_false_intro; apply Z.eqb_neq; lia.
Qed.

Lemma setitem_slice_overhang a src y0 x0 :
  (0 ≤ y0 ∧ height a < y0 + height src ∧ 1 < height src)
  ∨ (0 ≤ x0 ∧ width a < x0 + width src ∧ 1 < width src) →
  setitem_slice a y0 (y0 + height src) x0 (x0 + width src) src = None.
Proof.
  intros H. unfold setitem_slice.
  assert (Hh : 0 ≤ height a) by (unfold height; lia).
  assert (Hw : 0 ≤ width a) by (unfold width; lia).
  destruct (slice_bounds (height a) y0 (y0 + height src)) as [sy ey] eqn:Ey.
  destruct (slice_bounds (width a) x0 (x0 + width src)) as [sx ex] eqn:Ex.
  destruct H as [(H0 & H1 & H2)|(H0 & H1 & H2)].
  - pose proof (slice_overhang _ _ _ Hh H0 H1 H2) as Hb. rewrite Ey in Hb.
    simpl in Hb. by rewrite Hb.
  - pose proof (slice_overhang _ _ _ Hw H0 H1 H2) as Hb. rewrite Ex in Hb.
    simpl in Hb. by rewrite Hb, andb_false_r.
Qed.

Lemma for_each_app {S A} (xs ys : list A) (f : A → M S unit) s :
  for_each (xs ++ ys) f s = bind (for_each xs f) (λ _, for_each ys f) s.
Proof.
  revert s. induction xs as [|x xs IH]; intros s; [done|].
  simpl. unfold bind. destruct (f x s) as [[[]|e] s1]; [|done].
  rewrite IH. done.
Qed.

(** X10: [move_child] checks nothing.  Moving a shown child that is at
    least two tiles high (wide) to a non-negative offset at which it
    sticks out below (right of) the Layout is accepted, and it is the
    next recomposite that fails, with numpy's [ValueError]. *)
Theorem move_child_out_of_bounds s self me l a c oc ca py px :
  objs s !! self = Some me → as_Layout me = Some l →
  arrays s !! tile_array me = Some a →
  valid_layout s self = true →
  c ∈ children l → objs s !! c = Some oc → hidden oc = false →
  arrays s !! tile_array oc = Some ca →
  (0 ≤ py ∧ height a < py + height ca ∧ 1 < height ca)
  ∨ (0 ≤ px ∧ width a < px + width ca ∧ 1 < width ca) →
  ∃ s1 s2, move_child self c (py, px) s = (Return tt, s1)
    ∧ (children <$> (objs s1 !! self ≫= as_Layout)) = Some (children l)
    ∧ Layout_rebuild_self self s1 = (Raise ValueError, s2).
Proof.
  intros Hme Hl Ha Hv Hc Hoc Hshown Hca Hover.
  set (l1 := with_needs_redraw true (with_child_locations <[c := (py, px)]> l)).
  set (me1 := with_Layout (λ _, Some l1) me).
  set (s1 := with_objs (alter (with_Layout (fmap (with_needs_redraw true))) self)
               (with_objs (alter (with_Layout (fmap (with_child_locations
                                                       <[c := (py, px)]>))) self) s)).
  assert (Hrun : move_child self c (py, px) s = (Return tt, s1)).
  { unfold move_child, update_Layout.
    by rewrite (bind_Return _ _ _ _ _ (update_run _ _ _)), update_run. }
  assert (Hme1 : objs s1 !! self = Some me1).
  { subst s1 me1 l1. simpl. rewrite !lookup_alter_eq, Hme. simpl.
    unfold with_Layout. simpl. by rewrite Hl. }
  assert (Hl1 : as_Layout me1 = Some l1) by done.
  assert (Ha1 : arrays s1 !! tile_array me1 = Some a) by done.
  assert (Hgeom : ∀ w, geom s1 w = geom s w).
  { intros w. unfold geom. subst s1. simpl.
    destruct (decide (w = self)) as [->|Hw].
    - rewrite !lookup_alter_eq, Hme. done.
    - by rewrite !lookup_alter_ne. }
  exists s1. 
  destruct (list_elem_of_split_l _ _ Hc) as (pre & post & Hsplit & Hpre).
  assert (Hvpre : forallb (valid_child s1 (height a) (width a) l1) pre = true).
  { destruct (valid_layout_inv _ _ Hv) as (me' & l' & a' & Hme' & Hl' & Ha' & Hcs).
    assert (me' = me) by congruence. subst me'.
    assert (l' = l) by congruence. subst l'.
    assert (a' = a) by congruence. subst a'.
    apply forallb_forall. intros c' Hc'. apply list_elem_of_In in Hc'.
    assert (Hin : c' ∈ children l) by (rewrite Hsplit; apply elem_of_app; by left).
    pose proof (forallb_elem _ _ _ Hcs Hin) as Hvc.
    unfold valid_child in *. rewrite Hgeom. subst l1. simpl.
    rewrite lookup_insert_ne; [done|]. intros ->. done. }
  destruct (rebuild_loop self me1 l1 pre s1 a Hme1 Hl1 Ha1 Hvpre)
    as (s2 & a2 & Hloop & Hrep & Ha2 & _).
  exists s2. split; [exact Hrun|]. split; [by rewrite Hme1|].
  unfold Layout_rebuild_self.
  rewrite (bind_Return _ _ _ _ _ (Layout_of_Some _ _ _ _ Hme1 Hl1)).
  change (children l1) with (children l). rewrite Hsplit, for_each_app.
  rewrite (bind_Return _ _ _ _ _ Hloop). simpl for_each.
  apply bind_Raise.
  pose proof (repainted_geom _ _ _ c Hrep) as Hg2. rewrite Hgeom in Hg2.
  assert (Hg : geom s c = Some (false, tile_array oc, height ca, width ca)).
  { unfold geom. by rewrite Hoc, Hca, Hshown. }
  rewrite Hg in Hg2. unfold geom in Hg2.
  destruct (objs s2 !! c) as [oc2|] eqn:Hoc2; [|done].
  destruct (arrays s2 !! tile_array oc2) as [ca2|] eqn:Hca2; [|done].
  injection Hg2 as Hhid Hta Hh2 Hw2.
  assert (Hme2 : objs s2 !! self = Some me1) by (destruct Hrep as [-> _]; done).
  assert (Hsh : same_shape a a2).
  { destruct Hrep as (_ & _ & b & b' & Hb & Hb' & Hs). congruence. }
  unfold paste_child.
  rewrite (bind_Return _ _ _ _ _ (load_Some _ _ _ Hoc2)). rewrite Hhid.
  rewrite (bind_Return _ _ _ _ _ (load_array_Some _ _ _ Hca2)).
  rewrite (bind_Return _ _ _ _ _ (Layout_of_Some _ _ _ _ Hme2 Hl1)).
  change (child_locations l1) with (<[c := (py, px)]> (child_locations l)).
  rewrite lookup_insert_eq.
  rewrite (bind_Return _ _ _ _ _ (load_Some _ _ _ Hme2)).
  rewrite (bind_Return _ _ _ _ _ (load_array_Some _ _ _ Ha2)).
  rewrite setitem_slice_overhang; [done|].
  rewrite (same_shape_height _ _ Hsh), (same_shape_width _ _ Hsh), Hh2, Hw2.
  exact Hover.
Qed.

(** * The background and the tiles already painted *)

(** The loop of [_rebuild_self] at a cell that only children built on the
    Layout's own array cover: the cell keeps its tile. *)
Lemma rebuild_loop_own_array self me l cs y x : ∀ s a,
  objs s !! self = Some me → as_Layout me = Some l →
  arrays s !! tile_array me = Some a →
  forallb (valid_child s (height a) (width a) l) cs = true →
  (∀ c oc, c ∈ cs → covers s l c y x = true → objs s !! c = Some oc →
           tile_array oc = tile_array me) →
  ∃ s' a', for_each cs (paste_child self) s = (Return tt, s')
    ∧ repainted (tile_array me) s s'
    ∧ arrays s' !! tile_array me = Some a'
    ∧ item a' y x = item a y x.
Proof.
  induction cs as [|c cs IH]; intros s a Hme Hl Ha Hv Hown.
  { exists s, a. split; [done|]. split; [by eapply repainted_refl|]. done. }
  simpl in Hv. apply andb_prop in Hv as [Hvc Hvs].
  destruct (paste_child_fits s self me l a c Hme Hl Ha Hvc)
    as (s1 & a1 & Hrun & Hrep & Ha1 & Hframe1 & Hcell1).
  assert (Hme1 : objs s1 !! self = Some me) by (destruct Hrep as [-> _]; done).
  assert (Hsh : same_shape a a1).
  { destruct Hrep as (_ & _ & b & b' & Hb & Hb' & Hs). congruence. }
  assert (Hvs1 : forallb (valid_child s1 (height a1) (width a1) l) cs = true).
  { rewrite (same_shape_height _ _ Hsh), (same_shape_width _ _ Hsh).
    erewrite forallb_pointwise; [exact Hvs|]. intros c'. by eapply repainted_valid_child. }
  assert (Hitem1 : item a1 y x = item a y x).
  { destruct (covers s l c y x) eqn:Hcov; [|by apply Hframe1].
    specialize (Hcell1 y x Hcov).
    unfold valid_child, geom in Hvc. unfold covers, geom in Hcov.
    destruct (objs s !! c) as [oc|] eqn:Hoc; [|done].
    assert (Heq : tile_array oc = tile_array me).
    { apply (Hown c oc); [by left| |done]. unfold covers, geom. by rewrite Hoc. }
    rewrite Heq, Ha in Hvc.
    destruct (child_locations l !! c) as [[py px]|] eqn:Hpos; [|done].
    assert (py = 0 ∧ px = 0) as [-> ->].
    { apply andb_prop in Hvc as [Hvc Hx1]. apply andb_prop in Hvc as [Hvc Hx0].
      apply andb_prop in Hvc as [Hy0 Hy1]. apply Z.leb_le in Hy0, Hy1, Hx0, Hx1. lia. }
    unfold child_cell, cell in Hcell1. rewrite Hoc, Hpos, Heq, Ha in Hcell1.
    simpl in Hcell1. rewrite !Z.sub_0_r in Hcell1. by injection Hcell1. }
  destruct (IH s1 a1 Hme1 Hl Ha1 Hvs1) as (s' & a' & Hrun' & Hrep' & Ha' & Hitem').
  { intros c' oc' Hc' Hcov' Hoc'.
    rewrite (repainted_covers _ _ _ _ _ _ _ Hrep) in Hcov'.
    destruct Hrep as [Ho _]. rewrite Ho in Hoc'.
    apply (Hown c' oc'); [by right|done|done]. }
  exists s', a'. split.
  { simpl. by rewrite (bind_Return _ _ _ _ _ Hrun). }
  split; [by eapply repainted_trans|]. split; [done|]. congruence.
Qed.

(** X2: a recomposite never clears the buffer.  At a cell that no child
    with a buffer of its own covers (the background, built on the
    Layout's own array, may cover it) the tile painted before stays: a
    child that was removed, or moved away, remains on show there. *)
Theorem rebuild_keeps_painted_tiles s self me l y x :
  objs s !! self = Some me → as_Layout me = Some l →
  valid_layout s self = true →
  (∀ c oc, c ∈ children l → covers s l c y x = true → objs s !! c = Some oc →
           tile_array oc = tile_array me) →
  ∃ s', Layout_rebuild_self self s = (Return tt, s')
        ∧ cell s' (tile_array me) y x = cell s (tile_array me) y x.
Proof.
  intros Hme Hl Hv Hown.
  destruct (valid_layout_inv _ _ Hv) as (me' & l' & a & Hme' & Hl' & Ha & Hcs).
  assert (me' = me) by congruence. subst me'.
  assert (l' = l) by congruence. subst l'.
  destruct (rebuild_loop_own_array self me l (children l) y x s a Hme Hl Ha Hcs Hown)
    as (s' & a' & Hrun & _ & Ha' & Hitem).
  exists s'. split.
  - unfold Layout_rebuild_self.
    by rewrite (bind_Return _ _ _ _ _ (Layout_of_Some _ _ _ _ Hme Hl)).
  - unfold cell. rewrite Ha, Ha'. simpl. by rewrite Hitem.
Qed.

Lemma rebuild_keeps_painted_tiles_witness :
  covers corner corner_l 1%nat 0 0 = true ∧
  covers corner corner_l 2%nat 0 0 = false ∧
  ∃ s', Layout_rebuild_self 0%nat corner = (Return tt, s')
        ∧ cell s' (tile_array corner_layout) 0 0
          = cell corner (tile_array corner_layout) 0 0.
Proof.
  assert (H1 : objs corner !! 0%nat = Some corner_layout) by (vm_compute; reflexivity).
  assert (H2 : as_Layout corner_layout = Some corner_l) by reflexivity.
  assert (H3 : valid_layout corner 0%nat = true) by (vm_compute; reflexivity).
  assert (H4 : covers corner corner_l 2%nat 0 0 = false) by (vm_compute; reflexivity).
  assert (H5 : ∀ oc, objs corner !! 1%nat = Some oc →
                     tile_array oc = tile_array corner_layout).
  { intros oc Hoc. vm_compute in Hoc. injection Hoc as <-. reflexivity. }
  split; [vm_compute; reflexivity|]. split; [exact H4|].
  apply (rebuild_keeps_painted_tiles corner 0%nat corner_layout corner_l 0 0 H1 H2 H3).
  intros c oc Hc Hcov Hoc. change (children corner_l) with [1%nat; 2%nat] in Hc.
  apply elem_of_cons in Hc as [->|Hc]; [by apply H5|].
  apply list_elem_of_singleton in Hc. subst c. rewrite H4 in Hcov. discriminate Hcov.
Defined.

(** X11: [Layout.__init__] on an existing array returns a Layout whose
    only child is the background, placed at (0, 0); the background shows
    the very buffer of the Layout, the Layout is within its own grid,
    and, [needs_redraw] being off, no event makes it recomposite. *)
Theorem Layout_init_fresh array t s a :
  arrays s !! array = Some a →
  ∃ s', Layout_init array t s = (Return (next_id s), s')
    ∧ children_of s' (next_id s) = Some [S (next_id s)]
    ∧ valid_layout s' (next_id s) = true
    ∧ buffer s' (S (next_id s)) = buffer s' (next_id s)
    ∧ ∀ event, Layout_on_event (next_id s) event s' = (Return tt, s').
Proof.
  intros Ha.
  destruct (Layout_init_returns array t s a Ha) as (s' & Hrun & Hme & Hbg & Harr & _).
  exists s'. split; [exact Hrun|].
  split; [unfold children_of; by rewrite Hme|].
  split; [|split].
  - unfold valid_layout. rewrite Hme. simpl. rewrite Harr, Ha. simpl.
    unfold valid_child, geom. rewrite Hbg. simpl. rewrite Harr, Ha.
    rewrite lookup_singleton_eq. simpl. by rewrite !Z.leb_refl.
  - unfold buffer. by rewrite Hme, Hbg.
  - intros event. unfold Layout_on_event, Layout_on_event_with.
    destruct (negb (String.eqb (event_type event) "service")); [done|].
    destruct (negb (is_str (event_value event) "tick_over")); [done|].
    by rewrite (bind_Return _ _ _ _ _ (Layout_of_Some _ _ _ _ Hme eq_refl)).
Qed.

Lemma Layout_init_fresh_witness :
  ∃ s', Layout_init 0%nat None (world_of [blank 2 2]) = (Return 0%nat, s')
    ∧ children_of s' 0%nat = Some [1%nat]
    ∧ valid_layout s' 0%nat = true
    ∧ buffer s' 1%nat = buffer s' 0%nat
    ∧ ∀ event, Layout_on_event 0%nat event s' = (Return tt, s').
Proof.
  assert (H1 : arrays (world_of [blank 2 2]) !! 0%nat
               = Some (array (tile 0) (blank 2 2))) by (vm_compute; reflexivity).
  exact (Layout_init_fresh 0%nat None (world_of [blank 2 2])
           (array (tile 0) (blank 2 2)) H1).
Defined.

Lemma add_child_not_a_widget_witness :
  add_child 0%nat (PyOther (Some (1, 1))) (0, 0) corner
  = (Raise BearLayoutException, corner).
Proof.
  assert (H1 : objs corner !! 0%nat = Some corner_layout) by (vm_compute; reflexivity).
  assert (H2 : arrays corner !! tile_array corner_layout = Some corner_a)
    by (vm_compute; reflexivity).
  exact (add_child_not_a_widget corner 0%nat corner_layout corner_a (1, 1) (0, 0) H1 H2).
Defined.

Lemma move_child_out_of_bounds_witness :
  valid_layout tall 0%nat = true ∧
  height tall_a < 2 + height tall_ca ∧
  ∃ s1 s2, move_child 0%nat 2%nat (2, 0) tall = (Return tt, s1)
    ∧ (children <$> (objs s1 !! 0%nat ≫= as_Layout)) = Some (children tall_l)
    ∧ Layout_rebuild_self 0%nat s1 = (Raise ValueError, s2).
Proof.
  assert (H1 : objs tall !! 0%nat = Some tall_layout) by (vm_compute; reflexivity).
  assert (H2 : as_Layout tall_layout = Some tall_l) by reflexivity.
  assert (H3 : arrays tall !! tile_array tall_layout = Some tall_a)
    by (vm_compute; reflexivity).
  assert (H4 : valid_layout tall 0%nat = true) by (vm_compute; reflexivity).
  assert (H5 : 2%nat ∈ children tall_l).
  { change (children tall_l) with [1%nat; 2%nat].
    apply elem_of_cons. right. apply elem_of_cons. by left. }
  assert (H6 : objs tall !! 2%nat = Some tall_child) by (vm_compute; reflexivity).
  assert (H7 : hidden tall_child = false) by reflexivity.
  assert (H8 : arrays tall !! tile_array tall_child = Some tall_ca)
    by (vm_compute; reflexivity).
  assert (H9 : 0 ≤ 2 ∧ height tall_a < 2 + height tall_ca ∧ 1 < height tall_ca)
    by (vm_compute; repeat split; congruence).
  split; [exact H4|]. split; [exact (proj1 (proj2 H9))|].
  exact (move_child_out_of_bounds tall 0%nat tall_layout tall_l tall_a 2%nat
           tall_child tall_ca 2 0 H1 H2 H3 H4 H5 H6 H7 H8 (or_introl H9)).
Defined.

(** * Further properties of the scrollable viewports *)

Lemma ScrollableWidget_viewport_inside_witness :
  window_inside 5 20 (0, 0) (3, 10) = true ∧
  window_inside 5 20 (3, 0) (3, 10) = false ∧
  ScrollableWidget_init_checks 0%nat (0, 0) (3, 10) (world_of [blank 5 20])
    = (Return tt, world_of [blank 5 20]) ∧
  ScrollableWidget_init_checks 0%nat (3, 0) (3, 10) (world_of [blank 5 20])
    = (Raise BearLayoutException, world_of [blank 5 20]).
Proof.
  assert (H1 : arrays (world_of [blank 5 20]) !! 0%nat
               = Some (array (tile 0) (blank 5 20))) by (vm_compute; reflexivity).
  split; [reflexivity|]. split; [reflexivity|]. split.
  - exact (ScrollableWidget_viewport_inside 0%nat (0, 0) (3, 10) (world_of [blank 5 20])
             (array (tile 0) (blank 5 20)) H1).
  - exact (ScrollableWidget_viewport_inside 0%nat (3, 0) (3, 10) (world_of [blank 5 20])
             (array (tile 0) (blank 5 20)) H1).
Defined.

Lemma scroll_to_never_returns_witness :
  ScrollableLayout_init 0%nat None (0, 0) (5, 5) (world_of [blank 20 20])
    = (Return 0%nat, viewport20) ∧
  ∃ e, scroll_to 0%nat [VInt 3; VInt 0] viewport20 = (Raise e, viewport20).
Proof.
  assert (H1 : ScrollableLayout_init 0%nat None (0, 0) (5, 5) (world_of [blank 20 20])
               = (Return 0%nat, viewport20)).
  { unfold viewport20, after.
    apply (run_fst_snd (ScrollableLayout_init 0%nat None (0, 0) (5, 5))
             (world_of [blank 20 20]) (Return 0%nat)).
    vm_compute. reflexivity. }
  split; [exact H1|].
  exact (scroll_to_never_returns 0%nat None (0, 0) (5, 5) (world_of [blank 20 20])
           0%nat viewport20 [VInt 3; VInt 0] H1).
Defined.

(** X12: no Layout that [Layout.__init__] returned can answer
    [get_child_on_pos]: the lookup of [self._child_pointers], which no
    method assigns, raises [AttributeError] for every position and either
    value of [return_bg], and nothing changes. *)
Theorem get_child_on_pos_raises array t s self s' pos return_bg :
  Layout_init array t s = (Return self, s') →
  get_child_on_pos self pos return_bg s' = (Raise AttributeError, s').
Proof.
  intros H.
  destruct (arrays s !! array) as [a|] eqn:Ha.
  - destruct (Layout_init_returns array t s a Ha) as (s1 & Hrun & Hme & _).
    rewrite Hrun in H. injection H as <- <-.
    unfold get_child_on_pos.
    by rewrite (bind_Return _ _ _ _ _ (Layout_of_Some _ _ _ _ Hme eq_refl)).
  - destruct (Layout_init_no_array array t s Ha) as (s1 & Hrun).
    rewrite Hrun in H. discriminate H.
Qed.

Lemma get_child_on_pos_raises_witness :
  Layout_init 0%nat None (world_of [blank 2 2])
    = (Return 0%nat, after (Layout_init 0%nat None) (world_of [blank 2 2])) ∧
  get_child_on_pos 0%nat (1, 1) true (after (Layout_init 0%nat None) (world_of [blank 2 2]))
    = (Raise AttributeError, after (Layout_init 0%nat None) (world_of [blank 2 2])).
Proof.
  assert (H1 : Layout_init 0%nat None (world_of [blank 2 2])
    = (Return 0%nat, after (Layout_init 0%nat None) (world_of [blank 2 2]))).
  { unfold after.
    apply (run_fst_snd (Layout_init 0%nat None) (world_of [blank 2 2]) (Return 0%nat)).
    vm_compute. reflexivity. }
  split; [exact H1|].
  exact (get_child_on_pos_raises 0%nat None (world_of [blank 2 2]) 0%nat
           (after (Layout_init 0%nat None) (world_of [blank 2 2])) (1, 1) true H1).
Defined.

(** X15: no call of [scroll_by] on a ScrollableLayout that its
    constructor returned succeeds.  A shift that would make the first
    coordinate negative is turned down with [BearLayoutException]; any
    other shift ends in the [AttributeError] of [self._child_pointers];
    the view stays where it was. *)
Theorem scroll_by_never_returns array t vp vs s self s' shift :
  ScrollableLayout_init array t vp vs s = (Return self, s') →
  scroll_by self shift s' =
    (Raise (if fst vp + fst shift <? 0 then BearLayoutException else AttributeError),
     s').
Proof.
  intros Hinit.
  destruct (arrays s !! array) as [a|] eqn:Ha.
  2: { destruct (Layout_init_no_array array t s Ha) as [s1 E].
       unfold ScrollableLayout_init in Hinit.
       rewrite (bind_Raise _ _ _ _ _ E) in Hinit. discriminate. }
  pose proof (ScrollableLayout_init_spec array t vp vs s a Ha) as Hspec.
  destruct (ScrollableLayout_accepts (height a) (width a) vp vs).
  2: { destruct Hspec as [s1 E]. congruence. }
  destruct Hspec as (s1 & me & l & sc & E & Hme & Hl & Hcp & Hsc & Hvp & _).
  assert (self = next_id s ∧ s' = s1) as [-> ->] by (split; congruence).
  unfold scroll_by.
  assert (Hof : Scrollable_of (next_id s) s1 = (Return sc, s1)).
  { unfold Scrollable_of. rewrite (bind_Return _ _ _ _ _ (load_Some _ _ _ Hme)).
    by rewrite Hsc. }
  rewrite (bind_Return _ _ _ _ _ Hof), Hvp.
  destruct (Z.ltb_spec (fst vp + fst shift) 0) as [Hneg|Hpos].
  - by apply scroll_to_negative.
  - by eapply scroll_to_no_child_pointers.
Qed.

Lemma scroll_by_never_returns_witness :
  scroll_by 0%nat (3, 0) viewport20 = (Raise AttributeError, viewport20) ∧
  scroll_by 0%nat (-1, 0) viewport20 = (Raise BearLayoutException, viewport20).
Proof.
  assert (H1 : ScrollableLayout_init 0%nat None (0, 0) (5, 5) (world_of [blank 20 20])
               = (Return 0%nat, viewport20)).
  { unfold viewport20, after.
    apply (run_fst_snd (ScrollableLayout_init 0%nat None (0, 0) (5, 5))
             (world_of [blank 20 20]) (Return 0%nat)).
    vm_compute. reflexivity. }
  split.
  - exact (scroll_by_never_returns 0%nat None (0, 0) (5, 5) (world_of [blank 20 20])
             0%nat viewport20 (3, 0) H1).
  - exact (scroll_by_never_returns 0%nat None (0, 0) (5, 5) (world_of [blank 20 20])
             0%nat viewport20 (-1, 0) H1).
Defined.

Lemma tolist_lookup {A} (f : Tile → A) (a : ndarray) (i j : nat) :
  (i < shape0 a)%nat → (j < shape1 a)%nat →
  tolist f a !! i ≫= (λ row, row !! j) = Some (f (item a (Z.of_nat i) (Z.of_nat j))).
Proof.
  intros Hi Hj. unfold tolist.
  change (map ?g ?l) with (g <$> l).
  rewrite list_lookup_fmap, lookup_seq_lt by done. simpl.
  change (map ?g ?l) with (g <$> l).
  by rewrite list_lookup_fmap, lookup_seq_lt.
Qed.

Lemma slice_bounds_inside len p n :
  0 ≤ p → 0 ≤ n → p + n ≤ len → slice_bounds len p (p + n) = (p, p + n).
Proof.
  intros Hp Hn Hle. unfold slice_bounds, slice_index.
  destruct (Z.ltb_spec p 0); [lia|]. destruct (Z.ltb_spec (p + n) 0); [lia|].
  f_equal; lia.
Qed.

(** X16: the recomposite of a ScrollableLayout does not paste any child:
    it returns on every live instance, leaves every array (its own buffer
    included) and every other object as they were, keeps the viewport,
    and sets [chars] and [colors] to the view cut out of its buffer: for
    a view inside the buffer, entry (i, j) is the char (color) of the
    buffer's cell (view_pos[1] + i, view_pos[0] + j). *)
Theorem ScrollableLayout_rebuild_shows_view s self me a sc :
  objs s !! self = Some me → arrays s !! tile_array me = Some a →
  as_Scrollable me = Some sc →
  0 ≤ fst (view_pos sc) → 0 ≤ fst (view_size sc) →
  fst (view_pos sc) + fst (view_size sc) ≤ width a →
  0 ≤ snd (view_pos sc) → 0 ≤ snd (view_size sc) →
  snd (view_pos sc) + snd (view_size sc) ≤ height a →
  ∃ s' sc',
    ScrollableLayout_rebuild_self self s = (Return tt, s')
    ∧ arrays s' = arrays s
    ∧ (∀ w, w ≠ self → objs s' !! w = objs s !! w)
    ∧ (objs s' !! self ≫= as_Scrollable) = Some sc'
    ∧ (as_Layout <$> objs s' !! self) = Some (as_Layout me)
    ∧ view_pos sc' = view_pos sc ∧ view_size sc' = view_size sc
    ∧ ∀ i j : nat,
        Z.of_nat i < snd (view_size sc) → Z.of_nat j < fst (view_size sc) →
        chars sc' !! i ≫= (λ row, row !! j)
          = Some (char (item a (snd (view_pos sc) + Z.of_nat i)
                               (fst (view_pos sc) + Z.of_nat j)))
        ∧ colors sc' !! i ≫= (λ row, row !! j)
          = Some (color (item a (snd (view_pos sc) + Z.of_nat i)
                                (fst (view_pos sc) + Z.of_nat j))).
Proof.
  intros Hme Ha Hsc Hx0 Hw0 Hx1 Hy0 Hh0 Hy1.
  unfold ScrollableLayout_rebuild_self.
  rewrite (bind_Return _ _ _ _ _ (load_Some _ _ _ Hme)).
  rewrite (bind_Return _ _ _ _ _ (load_array_Some _ _ _ Ha)).
  assert (Hof : Scrollable_of self s = (Return sc, s)).
  { unfold Scrollable_of. rewrite (bind_Return _ _ _ _ _ (load_Some _ _ _ Hme)).
    by rewrite Hsc. }
  rewrite (bind_Return _ _ _ _ _ Hof). rewrite update_run.
  eexists _, _. split; [reflexivity|]. split; [done|].
  split; [intros w Hw; simpl; by rewrite lookup_alter_ne|].
  simpl. rewrite lookup_alter_eq, Hme. simpl. rewrite Hsc. simpl.
  split; [reflexivity|]. split; [done|]. split; [done|]. split; [done|].
  intros i j Hi Hj. simpl.
  unfold getitem_slice.
  rewrite (slice_bounds_inside _ _ _ Hy0 Hh0 Hy1), (slice_bounds_inside _ _ _ Hx0 Hw0 Hx1).
  split; (rewrite tolist_lookup; [done|simpl; lia|simpl; lia]).
Qed.

Lemma ScrollableLayout_rebuild_shows_view_witness :
  view_pos viewport20_sc = (0, 0) ∧ view_size viewport20_sc = (5, 5) ∧
  ∃ s' sc',
    ScrollableLayout_rebuild_self 0%nat viewport20 = (Return tt, s')
    ∧ arrays s' = arrays viewport20
    ∧ (objs s' !! 0%nat ≫= as_Scrollable) = Some sc'
    ∧ chars sc' !! 4%nat ≫= (λ row, row !! 4%nat)
      = Some (char (item (array (tile 0) (blank 20 20)) (0 + 4) (0 + 4))).
Proof.
  assert (H1 : objs viewport20 !! 0%nat = Some viewport20_me)
    by (vm_compute; reflexivity).
  assert (H2 : arrays viewport20 !! tile_array viewport20_me
               = Some (array (tile 0) (blank 20 20))) by (vm_compute; reflexivity).
  assert (H3 : as_Scrollable viewport20_me = Some viewport20_sc) by reflexivity.
  assert (H4 : 0 ≤ fst (view_pos viewport20_sc)) by (vm_compute; congruence).
  assert (H5 : 0 ≤ fst (view_size viewport20_sc)) by (vm_compute; congruence).
  assert (H6 : fst (view_pos viewport20_sc) + fst (view_size viewport20_sc)
               ≤ width (array (tile 0) (blank 20 20))) by (vm_compute; congruence).
  assert (H7 : 0 ≤ snd (view_pos viewport20_sc)) by (vm_compute; congruence).
  assert (H8 : 0 ≤ snd (view_size viewport20_sc)) by (vm_compute; congruence).
  assert (H9 : snd (view_pos viewport20_sc) + snd (view_size viewport20_sc)
               ≤ height (array (tile 0) (blank 20 20))) by (vm_compute; congruence).
  split; [reflexivity|]. split; [reflexivity|].
  destruct (ScrollableLayout_rebuild_shows_view viewport20 0%nat viewport20_me
              (array (tile 0) (blank 20 20)) viewport20_sc H1 H2 H3 H4 H5 H6 H7 H8 H9)
    as (s' & sc' & Hrun & Harr & _ & Hsc' & _ & _ & _ & Hcells).
  exists s', sc'. split; [exact Hrun|]. split; [exact Harr|]. split; [exact Hsc'|].
  assert (Hi : Z.of_nat 4 < snd (view_size viewport20_sc)) by (vm_compute; reflexivity).
  assert (Hj : Z.of_nat 4 < fst (view_size viewport20_sc)) by (vm_compute; reflexivity).
  exact (proj1 (Hcells 4%nat 4%nat Hi Hj)).
Defined.

(** * Further properties of the animation widgets *)

Lemma Simple_stopped_tick (w : Simple.SimpleAnimationWidget) dt :
  Simple.is_running w = false →
  Simple.on_event (Anim.tick dt) w = (Return None, w).
Proof.
  intros Hrun.
  destruct (Simple.on_event (Anim.tick dt) w) as [r w'] eqn:E.
  unfold Simple.on_event in E. arun E.
  change (String.eqb "tick" "tick") with true in E. rewrite Hrun in E.
  change (String.eqb "tick" "service") with false in E.
  cbn [andb] in E. rewrite !andb_false_r in E. cbn [andb] in E. by simplify_eq.
Qed.

Lemma Simple_tick_step (w : Simple.SimpleAnimationWidget) dt :
  0 ≤ Simple.running_index w < Anim.len (Simple.animation w) → Simple_shows w →
  ∃ r w', Simple.on_event (Anim.tick dt) w = (Return r, w')
    ∧ Simple.animation w' = Simple.animation w
    ∧ Simple.is_running w' = Simple.is_running w
    ∧ 0 ≤ Simple.running_index w' < Anim.len (Simple.animation w')
    ∧ Simple_shows w'.
Proof.
  intros Hi Hs.
  destruct (Simple.is_running w) eqn:Hrun.
  2: { exists None, w. rewrite (Simple_stopped_tick w dt Hrun). by rewrite Hrun. }
  destruct (PrimFloat.leb (Anim.frame_time (Simple.animation w)) (Simple.have_waited w + dt))
    eqn:Hq.
  - pose proof (wrap_range _ _ Hi) as Hw.
    destruct (frames_lookup _ _ Hw) as [f Hf].
    eexists _, _. split.
    { apply (Simple_tick_advances w dt f Hrun Hq (proj1 Hi) Hf). }
    unfold Simple_shows.
    cbn [Simple.animation Simple.running_index Simple.chars Simple.colors
         Simple.is_running].
    split; [done|]. split; [done|]. split; [done|].
    transitivity (Some f); [exact Hf|by destruct f].
  - eexists _, _. split; [apply (Simple_tick_waits w dt Hrun Hq)|].
    simpl. split; [done|]. split; [done|]. done.
Qed.

(** X19: a SimpleAnimationWidget whose index is within its frames and
    which shows the frame at its index (as after [__init__]) handles
    every sequence of ticks without an exception, answers each of them,
    and ends with its index still within the frames and the frame at that
    index on show; its animation and [is_running] are never changed. *)
Theorem Simple_ticks_never_fail (dts : list float) : ∀ w : Simple.SimpleAnimationWidget,
  0 ≤ Simple.running_index w < Anim.len (Simple.animation w) → Simple_shows w →
  ∃ answers w',
    feed Simple.on_event (map Anim.tick dts) w = (Return answers, w')
    ∧ length answers = length dts
    ∧ Simple.animation w' = Simple.animation w
    ∧ Simple.is_running w' = Simple.is_running w
    ∧ 0 ≤ Simple.running_index w' < Anim.len (Simple.animation w')
    ∧ Simple_shows w'.
Proof.
  induction dts as [|dt dts IH]; intros w Hi Hs.
  { exists [], w. done. }
  destruct (Simple_tick_step w dt Hi Hs) as (r & w1 & Hrun & Ha & Hr & Hi1 & Hs1).
  destruct (IH w1 Hi1 Hs1) as (rs & w' & Hfeed & Hlen & Ha' & Hr' & Hi' & Hs').
  exists (r :: rs), w'. split.
  { simpl. rewrite (bind_Return _ _ _ _ _ Hrun). by rewrite (bind_Return _ _ _ _ _ Hfeed). }
  split; [simpl; by rewrite Hlen|]. split; [congruence|]. split; [congruence|]. done.
Qed.

Lemma Simple_ticks_never_fail_witness :
  ∃ answers w',
    feed Simple.on_event (map Anim.tick [35 / 100; 5 / 100; 2 / 10]%float) demo_simple
      = (Return answers, w')
    ∧ length answers = 3%nat
    ∧ Simple.animation w' = Simple.animation demo_simple
    ∧ Simple.is_running w' = Simple.is_running demo_simple
    ∧ 0 ≤ Simple.running_index w' < Anim.len (Simple.animation w')
    ∧ Simple_shows w'.
Proof.
  assert (H1 : 0 ≤ Simple.running_index demo_simple
               < Anim.len (Simple.animation demo_simple))
    by (vm_compute; split; [discriminate|reflexivity]).
  assert (H2 : Simple_shows demo_simple) by reflexivity.
  exact (Simple_ticks_never_fail [35 / 100; 5 / 100; 2 / 10]%float demo_simple H1 H2).
Defined.

(** X20: the [tick_over] service event.  A SimpleAnimationWidget that
    has neither a parent nor a terminal passes the test
    [self.parent is self.terminal] and fails on
    [self.terminal.update_widget] with [AttributeError]; one that sits
    directly on a terminal pushes itself to it; one inside a Layout
    does nothing.  In no case does the playback state change. *)
Theorem Simple_tick_over (w : Simple.SimpleAnimationWidget) :
  (Simple.parent w = NoParent → Simple.terminal w = None →
   Simple.on_event tick_over w = (Raise AttributeError, w))
  ∧ (∀ t, Simple.parent w = TerminalParent t → Simple.terminal w = Some t →
     Simple.on_event tick_over w
     = (Return None, Simple.with_updates (Simple.updates w ++ [t]) w))
  ∧ (∀ p, Simple.parent w = WidgetParent p →
     Simple.on_event tick_over w = (Return None, w)).
Proof.
  split; [|split].
  - intros Hp Ht.
    destruct (Simple.on_event tick_over w) as [r w'] eqn:E.
    unfold Simple.on_event, tick_over in E. arun E.
    change (String.eqb "service" "tick") with false in E. cbn [andb] in E.
    rewrite Hp, Ht in E. simpl in E. by simplify_eq.
  - intros t Hp Ht.
    destruct (Simple.on_event tick_over w) as [r w'] eqn:E.
    unfold Simple.on_event, tick_over in E. arun E.
    change (String.eqb "service" "tick") with false in E. cbn [andb] in E.
    rewrite Hp, Ht in E. simpl in E. rewrite bool_decide_eq_true_2 in E by done.
    simpl in E. by simplify_eq.
  - intros p Hp.
    destruct (Simple.on_event tick_over w) as [r w'] eqn:E.
    unfold Simple.on_event, tick_over in E. arun E.
    change (String.eqb "service" "tick") with false in E. cbn [andb] in E.
    rewrite Hp in E. simpl in E. by simplify_eq.
Qed.

Lemma Simple_tick_over_witness :
  Simple.on_event tick_over demo_simple = (Raise AttributeError, demo_simple).
Proof.
  exact (proj1 (Simple_tick_over demo_simple) eq_refl eq_refl).
Defined.

Lemma Multiple_halted_event (w : Multiple.MultipleAnimationWidget) event :
  Multiple.am_running w = false → Multiple.on_event event w = (Return None, w).
Proof.
  intros Hrun. unfold Multiple.on_event.
  unfold bind at 1. unfold get at 1. by rewrite Hrun.
Qed.

(** X21: a MultipleAnimationWidget that is not running (as after the end
    of a non-cycling animation) stays as it is under every sequence of
    events whatsoever: each of them is answered with [None] and nothing
    changes, not even for [tick_over]; only [set_animation] starts it
    again. *)
Theorem Multiple_halted_stays_halted (w : Multiple.MultipleAnimationWidget) events :
  Multiple.am_running w = false →
  feed Multiple.on_event events w = (Return (replicate (length events) None), w).
Proof.
  intros Hrun. induction events as [|e es IH]; [done|].
  simpl. rewrite (bind_Return _ _ _ _ _ (Multiple_halted_event w e Hrun)).
  by rewrite (bind_Return _ _ _ _ _ IH).
Qed.

Lemma Multiple_halted_stays_halted_witness :
  feed Multiple.on_event [tick_over; Anim.tick (1 / 10); key_down "TK_UP"]
       (Multiple.with_am_running false (demo_multiple false 2))
  = (Return [None; None; None], Multiple.with_am_running false (demo_multiple false 2)).
Proof.
  exact (Multiple_halted_stays_halted
           (Multiple.with_am_running false (demo_multiple false 2))
           [tick_over; Anim.tick (1 / 10); key_down "TK_UP"] eq_refl).
Defined.

Lemma set_animation_known anim_id cy (a : Anim.Animation)
    (w : Multiple.MultipleAnimationWidget) :
  Multiple.animations w !! anim_id = Some a →
  Multiple.set_animation anim_id cy w =
    (Return tt,
     {| Multiple.animations := Multiple.animations w;
        Multiple.current_animation := anim_id;
        Multiple.running_index := Multiple.running_index w;
        Multiple.have_waited := Multiple.have_waited w;
        Multiple.emit_ecs := Multiple.emit_ecs w;
        Multiple.cycle := cy; Multiple.am_running := true;
        Multiple.chars := Multiple.chars w; Multiple.colors := Multiple.colors w;
        Multiple.parent := Multiple.parent w;
        Multiple.terminal := Multiple.terminal w;
        Multiple.updates := Multiple.updates w |}).
Proof.
  intros Ha. unfold Multiple.set_animation. unfold bind, get. by rewrite Ha.
Qed.

(** X22: [set_animation] starts the widget but keeps the playback
    position of the animation it replaces.  If that index is the last
    one of the new animation or beyond it, the first tick that completes
    a frame wraps a cycling widget to frame 0 and makes a non-cycling one
    raise [IndexError]; an unknown animation id is turned down with
    [BearException] and nothing changes. *)
Theorem set_animation_keeps_index anim_id cy (a : Anim.Animation)
    (w : Multiple.MultipleAnimationWidget) dt :
  (Multiple.animations w !! anim_id = None →
   Multiple.set_animation anim_id cy w = (Raise BearException, w))
  ∧ (Multiple.animations w !! anim_id = Some a →
     0 < Anim.len a → 0 ≤ Multiple.running_index w →
     Anim.len a ≤ Multiple.running_index w + 1 →
     PrimFloat.leb (Anim.frame_time a) (Multiple.have_waited w + dt) = true →
     ∃ w1, Multiple.set_animation anim_id cy w = (Return tt, w1)
       ∧ Multiple.running_index w1 = Multiple.running_index w
       ∧ Multiple.am_running w1 = true
       ∧ ∃ r w2, Multiple.on_event (Anim.tick dt) w1 = (r, w2)
           ∧ if cy then r = Return (if Multiple.emit_ecs w then Some Anim.ecs_update
                                    else None)
                        ∧ Multiple.running_index w2 = 0
                        ∧ Anim.frames a !! 0%nat
                          = Some (Multiple.chars w2, Multiple.colors w2)
             else r = Raise IndexError
                  ∧ Multiple.running_index w2 = Multiple.running_index w + 1
                  ∧ Multiple.am_running w2 = false).
Proof.
  split.
  { intros Ha. unfold Multiple.set_animation. unfold bind, get. by rewrite Ha. }
  intros Ha Hlen Hi Hend Hq.
  eexists. split; [exact (set_animation_known anim_id cy a w Ha)|].
  split; [done|]. split; [done|].
  set (w1 := Multiple.mkMultiple _ _ _ _ _ _ _ _ _ _ _ _).
  assert (H1 : Multiple.am_running w1 = true) by done.
  assert (H2 : Multiple.animations w1 !! Multiple.current_animation w1 = Some a)
    by exact Ha.
  assert (H3 : PrimFloat.leb (Anim.frame_time a) (Multiple.have_waited w1 + dt) = true)
    by exact Hq.
  destruct cy.
  - assert (Hwrap : wrap (Anim.len a) (Multiple.running_index w1) = 0).
    { unfold wrap. subst w1. cbn [Multiple.running_index].
      destruct (Z.geb_spec (Multiple.running_index w + 1) (Anim.len a)); lia. }
    destruct (frames_lookup a 0 ltac:(lia)) as [f Hf].
    assert (Hf' : Anim.frames a !! Z.to_nat (wrap (Anim.len a) (Multiple.running_index w1))
                  = Some f) by (by rewrite Hwrap).
    eexists _, _. split.
    { apply (Multiple_tick_advances w1 dt a f H1 H2 H3 Hi (or_intror eq_refl) Hf'). }
    cbn [Multiple.running_index Multiple.chars Multiple.colors Multiple.emit_ecs].
    split; [done|]. split; [exact Hwrap|].
    transitivity (Some f); [exact Hf|by destruct f].
  - eexists _, _. split.
    { apply (Multiple_tick_past_end w1 dt a H1 H2 H3 eq_refl Hend). }
    done.
Qed.

Lemma set_animation_keeps_index_witness :
  ∃ w1, Multiple.set_animation "walk" false (demo_multiple true 2) = (Return tt, w1)
    ∧ Multiple.running_index w1 = Multiple.running_index (demo_multiple true 2)
    ∧ Multiple.am_running w1 = true
    ∧ ∃ r w2, Multiple.on_event (Anim.tick (1 / 10)) w1 = (r, w2)
        ∧ r = Raise IndexError
        ∧ Multiple.running_index w2 = Multiple.running_index (demo_multiple true 2) + 1
        ∧ Multiple.am_running w2 = false.
Proof.
  assert (H1 : Multiple.animations (demo_multiple true 2) !! "walk"%string
               = Some three_frames) by (vm_compute; reflexivity).
  assert (H2 : 0 < Anim.len three_frames) by reflexivity.
  assert (H3 : 0 ≤ Multiple.running_index (demo_multiple true 2))
    by (vm_compute; discriminate).
  assert (H4 : Anim.len three_frames ≤ Multiple.running_index (demo_multiple true 2) + 1)
    by (vm_compute; discriminate).
  assert (H5 : PrimFloat.leb (Anim.frame_time three_frames)
                 (Multiple.have_waited (demo_multiple true 2) + (1 / 10)) = true)
    by (vm_compute; reflexivity).
  exact (proj2 (set_animation_keeps_index "walk" false three_frames
                  (demo_multiple true 2) (1 / 10)%float) H1 H2 H3 H4 H5).
Defined.

(** * Further properties of the SwitchingWidget *)

Lemma switch_to_image_atomic_witness :
  fst (Switching.switch_to_image "run" demo_switching) = Raise BearException ∧
  snd (Switching.switch_to_image "run" demo_switching) = demo_switching.
Proof.
  assert (H1 : fst (Switching.switch_to_image "run" demo_switching)
               = Raise BearException) by (vm_compute; reflexivity).
  split; [exact H1|].
  exact (proj1 (switch_to_image_atomic "run" demo_switching
                  (snd (Switching.switch_to_image "run" demo_switching)) BearException
                  (run_fst_snd (Switching.switch_to_image "run") demo_switching _ H1))).
Defined.

(** X18: [switch_to_image] returns exactly for the current image and for
    the ids of the image dictionary.  After it has returned, the id it
    was given is the current image, and a second call with the same id
    changes nothing; for another known id the chars and colors are those
    of that image. *)
Theorem switch_to_image_returns_iff image_id (w : Switching.SwitchingWidget) :
  ((∃ w', Switching.switch_to_image image_id w = (Return tt, w'))
   ↔ image_id = Switching.current_image w
     ∨ is_Some (Switching.images w !! image_id))
  ∧ (∀ w', Switching.switch_to_image image_id w = (Return tt, w') →
       Switching.current_image w' = image_id
       ∧ Switching.images w' = Switching.images w
       ∧ Switching.switch_to_image image_id w' = (Return tt, w')
       ∧ (image_id ≠ Switching.current_image w →
          ∃ i : Anim.image, Switching.images w !! image_id = Some i
            ∧ Switching.chars w' = Some (fst i)
            ∧ Switching.colors w' = Some (snd i))).
Proof.
  destruct (decide (image_id = Switching.current_image w)) as [->|Hne].
  { pose proof (switch_to_current w) as Hc. split.
    - split; [by left|]. intros _. by exists w.
    - intros w' H. rewrite Hc in H. injection H as <-. done. }
  destruct (Switching.images w !! image_id) as [i|] eqn:Hi.
  - pose proof (switch_to_known image_id i w Hne Hi) as Hk. split.
    + split; [intros _; right; by eexists|]. intros _. by eexists.
    + intros w' H. rewrite Hk in H. injection H as <-.
      cbn [Switching.current_image Switching.images Switching.chars Switching.colors].
      split; [done|]. split; [done|]. split.
      * apply (switch_to_current (Switching.mkSwitching _ image_id _ _ _ _)).
      * intros _. by exists i.
  - pose proof (switch_to_unknown image_id w Hne Hi) as Hu. split.
    + split.
      * intros [w' H]. rewrite Hu in H. discriminate H.
      * intros [?|[? ?]]; done.
    + intros w' H. rewrite Hu in H. discriminate H.
Qed.

(** * Further properties of the menu *)

(** No sound is played for a flag that is not set. *)
Lemma play_sound_false (o : option string) : play_sound o false = [].
Proof. unfold play_sound. by rewrite andb_false_r. Qed.

(** What [MenuWidget.on_event] does after its three branches, for an
    event that is no service event and children that do nothing. *)
Lemma on_event_menu_tail d s self me m event r sw act s' me' m' l' :
  objs s !! self = Some me → as_Menu me = Some m →
  MenuWidget_react self event s = (Return (r, sw, act), s') →
  objs s' !! self = Some me' → as_Layout me' = Some l' → as_Menu me' = Some m' →
  forallb (passive s') (children l') = true →
  String.eqb (event_type event) "service" = false →
  on_event (S (S d)) self event s =
    (Return (map Emit r ++ [] ++ play_sound (switch_sound m') sw
               ++ play_sound (activation_sound m') act), s').
Proof.
  intros Hme Hm Hrun Hme' Hl' Hm' Hp' Hns.
  assert (Hquiet : Layout_on_event self event s' = (Return tt, s')).
  { unfold Layout_on_event, Layout_on_event_with. by rewrite Hns. }
  cbn [on_event]. rewrite (bind_Return _ _ _ _ _ (load_Some _ _ _ Hme)).
  rewrite Hm. unfold MenuWidget_on_event.
  rewrite (bind_Return _ _ _ _ _ Hrun).
  rewrite (bind_Return _ _ _ _ _ (Layout_of_Some _ _ _ _ Hme' Hl')).
  rewrite (bind_Return _ _ _ _ _ (collect_passive d event s' (children l') Hp')).
  rewrite (bind_Return _ _ _ _ _ (Menu_of_Some _ _ _ _ Hme' Hm')).
  rewrite (bind_Return _ _ _ _ _ Hquiet).
  reflexivity.
Qed.

(** X23: the input delay of the menu.  While the delay has not run out, a
    key event changes nothing at all and nothing is returned.  A tick
    adds its seconds to [current_delay], by float addition, as long as
    [current_delay] has not passed [input_delay], and changes nothing
    once it has; the highlight does not move in either case. *)
Theorem menu_input_delay d s self me m :
  menu_ok s self = true → objs s !! self = Some me → as_Menu me = Some m →
  (∀ event, is_key_event event = true → accepts_input s self = false →
     on_event (S (S d)) self event s = (Return [], s))
  ∧ (∀ dt, PrimFloat.leb (current_delay m) (input_delay m) = true →
       on_event (S (S d)) self (Anim.tick dt) s =
         (Return [],
          with_objs (alter (with_Menu (fmap (with_current_delay
                                               (current_delay m + dt)%float))) self) s))
  ∧ (∀ dt, PrimFloat.leb (current_delay m) (input_delay m) = false →
       on_event (S (S d)) self (Anim.tick dt) s = (Return [], s)).
Proof.
  intros Hok Hme Hm.
  destruct (menu_ok_inv _ _ Hok) as (me0 & m0 & l & Hme0 & Hm0 & Hl & Hi & Hp & Hit & Hh).
  rewrite Hme in Hme0. injection Hme0 as <-.
  rewrite Hm in Hm0. injection Hm0 as <-.
  pose proof play_sound_false as Hsound.
  split; [|split].
  - intros event Hkey Hacc.
    unfold accepts_input in Hacc. rewrite Hme in Hacc. simpl in Hacc.
    rewrite Hm in Hacc.
    assert (Hreact : MenuWidget_react self event s = (Return ([], false, false), s)).
    { unfold MenuWidget_react.
      rewrite (bind_Return _ _ _ _ _ (Menu_of_Some _ _ _ _ Hme Hm)).
      unfold is_key_event in Hkey. rewrite Hacc, andb_false_r.
      apply orb_prop in Hkey as [Hk|Hk]; apply String.eqb_eq in Hk; rewrite Hk; done. }
    assert (Hns : String.eqb (event_type event) "service" = false).
    { unfold is_key_event in Hkey.
      apply orb_prop in Hkey as [Hk|Hk]; apply String.eqb_eq in Hk; by rewrite Hk. }
    rewrite (on_event_menu_tail d s self me m event [] false false s me m l
               Hme Hm Hreact Hme Hl Hm Hp Hns).
    by rewrite !Hsound.
  - intros dt Hq.
    set (s1 := with_objs (alter (with_Menu (fmap (with_current_delay
                                                    (current_delay m + dt)%float))) self) s).
    assert (Hreact : MenuWidget_react self (Anim.tick dt) s
                     = (Return ([], false, false), s1)).
    { unfold MenuWidget_react.
      rewrite (bind_Return _ _ _ _ _ (Menu_of_Some _ _ _ _ Hme Hm)).
      cbn [Anim.tick event_type event_value as_number].
      change (String.eqb "tick" "tick") with true. rewrite Hq. cbn [andb].
      unfold update_Menu. by rewrite (bind_Return _ _ _ _ _ (update_run _ _ _)). }
    assert (M1 : menu_step self s s1) by apply menu_step_update.
    assert (Hme1 : objs s1 !! self
                   = Some (with_Menu (fmap (with_current_delay (current_delay m + dt)%float)) me)).
    { subst s1. simpl. by rewrite lookup_alter_eq, Hme. }
    assert (Hp1 : forallb (passive s1) (children l) = true).
    { rewrite <- Hp. apply forallb_pointwise_on. intros c Hc.
      eapply menu_step_passive; [exact M1|].
      apply (passive_not_menu s self me m c Hme Hm). by eapply forallb_elem. }
    rewrite (on_event_menu_tail d s self me m (Anim.tick dt) [] false false s1 _ _ l
               Hme Hm Hreact Hme1 Hl ltac:(simpl; by rewrite Hm) Hp1 eq_refl).
    simpl. by rewrite !Hsound.
  - intros dt Hq.
    assert (Hreact : MenuWidget_react self (Anim.tick dt) s
                     = (Return ([], false, false), s)).
    { unfold MenuWidget_react.
      rewrite (bind_Return _ _ _ _ _ (Menu_of_Some _ _ _ _ Hme Hm)).
      cbn [Anim.tick event_type event_value as_number].
      change (String.eqb "tick" "tick") with true. rewrite Hq. cbn [andb].
      change (String.eqb "tick" "key_down") with false.
      change (String.eqb "tick" "misc_input") with false. done. }
    rewrite (on_event_menu_tail d s self me m (Anim.tick dt) [] false false s me m l
               Hme Hm Hreact Hme Hl Hm Hp eq_refl).
    by rewrite !Hsound.
Qed.

Lemma menu_input_delay_witness :
  PrimFloat.leb (current_delay menu5_m) (input_delay menu5_m) = true ∧
  on_event 2 0%nat (Anim.tick (1 / 10)) menu5 =
    (Return [],
     with_objs (alter (with_Menu (fmap (with_current_delay
                                          (current_delay menu5_m + (1 / 10))%float))) 0%nat)
               menu5).
Proof.
  assert (H1 : menu_ok menu5 0%nat = true) by (vm_compute; reflexivity).
  assert (H2 : objs menu5 !! 0%nat = Some menu5_me) by (vm_compute; reflexivity).
  assert (H3 : as_Menu menu5_me = Some menu5_m) by reflexivity.
  assert (H4 : PrimFloat.leb (current_delay menu5_m) (input_delay menu5_m) = true)
    by reflexivity.
  split; [exact H4|].
  exact (proj1 (proj2 (menu_input_delay 0 menu5 0%nat menu5_me menu5_m H1 H2 H3))
           (1 / 10)%float H4).
Defined.

(** X24: an accepted Space or Enter key press activates the highlighted
    MenuItem: the handler returns the events of that item's action,
    followed by the activation sound if the menu has one that is not the
    empty string; the input delay restarts from zero and nothing else
    changes (the highlight stays, and the switch sound is not played). *)
Theorem menu_activation d s self me m l k c oc it :
  menu_ok s self = true → objs s !! self = Some me →
  as_Menu me = Some m → as_Layout me = Some l →
  accepts_input s self = true →
  k = "TK_SPACE"%string ∨ k = "TK_ENTER"%string →
  children l !! Z.to_nat (_current_highlight m) = Some c →
  objs s !! c = Some oc → as_MenuItem oc = Some it →
  on_event (S (S d)) self (key_down k) s =
    (Return (map Emit (action it) ++
             match activation_sound m with
             | Some (String a snd') =>
                 [Emit (mkEvent "play_sound" (VStr (String a snd')))]
             | _ => []
             end),
     with_objs (alter (with_Menu (fmap (with_current_delay 0%float))) self) s).
Proof.
  intros Hok Hme Hm Hl Hacc Hk Hc Hoc Hit.
  destruct (menu_ok_inv _ _ Hok) as (me0 & m0 & l0 & Hme0 & Hm0 & Hl0 & Hi & Hp & Hitems & Hh).
  rewrite Hme in Hme0. injection Hme0 as <-.
  rewrite Hm in Hm0. injection Hm0 as <-.
  rewrite Hl in Hl0. injection Hl0 as <-.
  unfold accepts_input in Hacc. rewrite Hme in Hacc. simpl in Hacc. rewrite Hm in Hacc.
  set (s1 := with_objs (alter (with_Menu (fmap (with_current_delay 0%float))) self) s).
  set (me1 := with_Menu (fmap (with_current_delay 0%float)) me).
  assert (M1 : menu_step self s s1) by apply menu_step_update.
  assert (Hme1 : objs s1 !! self = Some me1).
  { subst s1 me1. simpl. by rewrite lookup_alter_eq, Hme. }
  assert (Hl1 : as_Layout me1 = Some l) by done.
  assert (Hm1 : as_Menu me1 = Some (with_current_delay 0%float m)).
  { subst me1. simpl. by rewrite Hm. }
  assert (Hcin : c ∈ children l) by (by eapply list_elem_of_lookup_2).
  assert (Hcs : c ≠ self).
  { apply (passive_not_menu s self me m c Hme Hm). by eapply forallb_elem. }
  assert (Hoc1 : objs s1 !! c = Some oc).
  { subst s1. simpl. by rewrite lookup_alter_ne. }
  assert (Hp1 : forallb (passive s1) (children l) = true).
  { rewrite <- Hp. apply forallb_pointwise_on. intros c' Hc'.
    eapply menu_step_passive; [exact M1|].
    apply (passive_not_menu s self me m c' Hme Hm). by eapply forallb_elem. }
  assert (Hreact : MenuWidget_react self (key_down k) s
                   = (Return (action it, false, true), s1)).
  { unfold MenuWidget_react.
    rewrite (bind_Return _ _ _ _ _ (Menu_of_Some _ _ _ _ Hme Hm)).
    cbn [key_down event_type event_value].
    change (String.eqb "key_down" "tick") with false.
    change (String.eqb "key_down" "key_down") with true.
    rewrite Hacc. cbn [andb]. cbv iota.
    unfold update_Menu. rewrite (bind_Return _ _ _ _ _ (update_run _ _ _)).
    fold s1.
    rewrite (bind_Return _ _ _ _ _ (Layout_of_Some _ _ _ _ Hme1 Hl1)).
    assert (Hkey : is_str (VStr k) "TK_SPACE" || is_str (VStr k) "TK_ENTER" = true)
      by (by destruct Hk as [-> | ->]).
    rewrite Hkey.
    assert (H0 : 0 ≤ _current_highlight m) by lia.
    rewrite (bind_Return _ _ _ _ _ (py_getitem_Some _ _ _ _ H0 Hc)).
    assert (Hact : activate c s1 = (Return (action it), s1)).
    { unfold activate.
      by rewrite (bind_Return _ _ _ _ _ (MenuItem_of_Some _ _ _ _ Hoc1 Hit)). }
    by rewrite (bind_Return _ _ _ _ _ Hact). }
  rewrite (on_event_menu_tail d s self me m (key_down k) (action it) false true s1
             me1 (with_current_delay 0%float m) l Hme Hm Hreact Hme1 Hl1 Hm1 Hp1 eq_refl).
  cbn [switch_sound activation_sound with_current_delay].
  rewrite play_sound_false. by destruct (activation_sound m) as [[|a snd']|].
Qed.

Lemma menu_activation_witness :
  children menu5_l !! Z.to_nat (_current_highlight game_menu_m) = Some 2%nat ∧
  action game_menu_item_attrs = [start_game] ∧
  activation_sound game_menu_m = Some "click"%string ∧
  on_event 2 0%nat (key_down "TK_ENTER") game_menu =
    (Return (map Emit (action game_menu_item_attrs) ++
             match activation_sound game_menu_m with
             | Some (String a snd') =>
                 [Emit (mkEvent "play_sound" (VStr (String a snd')))]
             | _ => []
             end),
     with_objs (alter (with_Menu (fmap (with_current_delay 0%float))) 0%nat) game_menu).
Proof.
  assert (H1 : menu_ok game_menu 0%nat = true) by (vm_compute; reflexivity).
  assert (H2 : objs game_menu !! 0%nat = Some game_menu_me) by (vm_compute; reflexivity).
  assert (H3 : as_Menu game_menu_me = Some game_menu_m) by reflexivity.
  assert (H4 : as_Layout game_menu_me = Some menu5_l) by reflexivity.
  assert (H5 : accepts_input game_menu 0%nat = true) by (vm_compute; reflexivity).
  assert (H6 : children menu5_l !! Z.to_nat (_current_highlight game_menu_m) = Some 2%nat)
    by reflexivity.
  assert (H7 : objs game_menu !! 2%nat = Some game_menu_item) by (vm_compute; reflexivity).
  assert (H8 : as_MenuItem game_menu_item = Some game_menu_item_attrs) by reflexivity.
  split; [exact H6|]. split; [reflexivity|]. split; [reflexivity|].
  exact (menu_activation 0 game_menu 0%nat game_menu_me game_menu_m menu5_l "TK_ENTER" 2%nat
           game_menu_item game_menu_item_attrs H1 H2 H3 H4 H5 (or_intror eq_refl) H6 H7 H8).
Defined.

(** X25: the [current_highlight] setter.  A value outside 1 .. N-1 is
    turned down with [ValueError] and nothing changes.  A value in
    1 .. N-2 is accepted: the setter returns, the highlight is that value,
    the menu asks for a redraw and is still well formed, with the same
    children. *)
Theorem set_current_highlight_range s self me m l v :
  menu_ok s self = true → objs s !! self = Some me →
  as_Menu me = Some m → as_Layout me = Some l →
  (v < 1 ∨ Z.of_nat (length (children l)) - 1 < v →
   set_current_highlight self v s = (Raise ValueError, s))
  ∧ (1 ≤ v ≤ Z.of_nat (length (children l)) - 2 →
     ∃ s', set_current_highlight self v s = (Return tt, s')
       ∧ current_highlight s' self = Some v
       ∧ children_of s' self = Some (children l)
       ∧ (needs_redraw <$> (objs s' !! self ≫= as_Layout)) = Some true
       ∧ menu_ok s' self = true).
Proof.
  intros Hok Hme Hm Hl.
  destruct (menu_ok_inv _ _ Hok) as (me0 & m0 & l0 & Hme0 & Hm0 & Hl0 & Hi & Hp & Hit & Hh).
  rewrite Hme in Hme0. injection Hme0 as <-.
  rewrite Hm in Hm0. injection Hm0 as <-.
  rewrite Hl in Hl0. injection Hl0 as <-.
  split.
  - intros Hv. unfold set_current_highlight.
    rewrite (bind_Return _ _ _ _ _ (Layout_of_Some _ _ _ _ Hme Hl)).
    assert (Hc : (1 <=? v) && (v <=? Z.of_nat (length (children l)) - 1) = false).
    { apply andb_false_iff. destruct Hv; [left; apply Z.leb_gt|right; apply Z.leb_gt]; lia. }
    by rewrite Hc.
  - intros Hv.
    destruct (move_highlight s self me m l v Hme Hm Hl Hp Hit Hh Hv)
      as (s' & Hrun & Mstep & Hme').
    exists s'. split; [exact Hrun|].
    unfold current_highlight, children_of. rewrite Hme'. simpl. rewrite Hm, Hl. simpl.
    split; [done|]. split; [done|]. split; [done|].
    eapply (menu_ok_intro s' self _ (with_current_highlight v m)
              (with_needs_redraw true l) Hme').
    + simpl. by rewrite Hm.
    + simpl. by rewrite Hl.
    + done.
    + simpl. rewrite <- Hp. apply forallb_pointwise_on. intros c Hc.
      eapply menu_step_passive; [exact Mstep|].
      apply (passive_not_menu s self me m c Hme Hm). by eapply forallb_elem.
    + simpl. apply forallb_forall. intros c Hc. apply list_elem_of_In in Hc.
      eapply menu_step_is_item; [exact Mstep| |by eapply forallb_elem].
      apply (passive_not_menu s self me m c Hme Hm). eapply forallb_elem; [exact Hp|].
      by apply navigable_subset.
    + simpl. exact Hv.
Qed.

Lemma set_current_highlight_range_witness :
  Z.of_nat (length (children menu5_l)) = 5 ∧
  set_current_highlight 0%nat 5 menu5 = (Raise ValueError, menu5) ∧
  ∃ s', set_current_highlight 0%nat 3 menu5 = (Return tt, s')
    ∧ current_highlight s' 0%nat = Some 3
    ∧ children_of s' 0%nat = Some (children menu5_l)
    ∧ (needs_redraw <$> (objs s' !! 0%nat ≫= as_Layout)) = Some true
    ∧ menu_ok s' 0%nat = true.
Proof.
  assert (H1 : menu_ok menu5 0%nat = true) by (vm_compute; reflexivity).
  assert (H2 : objs menu5 !! 0%nat = Some menu5_me) by (vm_compute; reflexivity).
  assert (H3 : as_Menu menu5_me = Some menu5_m) by reflexivity.
  assert (H4 : as_Layout menu5_me = Some menu5_l) by reflexivity.
  assert (H5 : 5 < 1 ∨ Z.of_nat (length (children menu5_l)) - 1 < 5)
    by (right; reflexivity).
  assert (H6 : 1 ≤ 3 ≤ Z.of_nat (length (children menu5_l)) - 2)
    by (vm_compute; split; discriminate).
  split; [reflexivity|]. split.
  - exact (proj1 (set_current_highlight_range menu5 0%nat menu5_me menu5_m menu5_l 5
                    H1 H2 H3 H4) H5).
  - exact (proj2 (set_current_highlight_range menu5 0%nat menu5_me menu5_m menu5_l 3
                    H1 H2 H3 H4) H6).
Defined.

Lemma bind_get {S B} (k : S → M S B) s : bind get k s = k s s.
Proof. reflexivity. Qed.

(** X26: a mouse move over a menu that is shown on a terminal.  With the
    pointer inside the menu's rectangle the handler asks
    [get_child_on_pos], which fails on [self._child_pointers]: the event
    ends in [AttributeError].  With the pointer outside, or without a
    terminal, the event is ignored and nothing changes. *)
Theorem menu_mouse_move d s self me m l :
  menu_ok s self = true → objs s !! self = Some me →
  as_Menu me = Some m → as_Layout me = Some l → _child_pointers l = None →
  (_terminal me = None →
   on_event (S (S d)) self (mkEvent "misc_input" (VStr "TK_MOUSE_MOVE")) s
   = (Return [], s))
  ∧ (∀ t x y a,
       _terminal me = Some t → widget_locations s t !! self = Some (x, y) →
       arrays s !! tile_array me = Some a →
       on_event (S (S d)) self (mkEvent "misc_input" (VStr "TK_MOUSE_MOVE")) s
       = if (x <=? fst (check_state s t)) && (fst (check_state s t) <? x + width a)
            && (y <=? snd (check_state s t)) && (snd (check_state s t) <? y + height a)
         then (Raise AttributeError, s)
         else (Return [], s)).
Proof.
  intros Hok Hme Hm Hl Hcp.
  destruct (menu_ok_inv _ _ Hok) as (me0 & m0 & l0 & Hme0 & Hm0 & Hl0 & Hi & Hp & Hit & Hh).
  rewrite Hme in Hme0. injection Hme0 as <-.
  rewrite Hm in Hm0. injection Hm0 as <-.
  rewrite Hl in Hl0. injection Hl0 as <-.
  set (event := mkEvent "misc_input" (VStr "TK_MOUSE_MOVE")).
  assert (Hquiet : MenuWidget_react self event s = (Return ([], false, false), s) →
            on_event (S (S d)) self event s = (Return [], s)).
  { intros Hreact.
    rewrite (on_event_menu_tail d s self me m _ [] false false s me m l
               Hme Hm Hreact Hme Hl Hm Hp eq_refl).
    by rewrite !play_sound_false. }
  split.
  - intros Ht. apply Hquiet. unfold MenuWidget_react.
    rewrite (bind_Return _ _ _ _ _ (Menu_of_Some _ _ _ _ Hme Hm)).
    subst event. cbn [event_type event_value].
    change (String.eqb "misc_input" "tick") with false.
    change (String.eqb "misc_input" "key_down") with false.
    change (String.eqb "misc_input" "misc_input") with true.
    change (is_str (VStr "TK_MOUSE_MOVE") "TK_MOUSE_MOVE") with true.
    cbn [andb]. cbv iota.
    rewrite (bind_Return _ _ _ _ _ (load_Some _ _ _ Hme)). by rewrite Ht.
  - intros t x y a Ht Hloc Ha.
    destruct (check_state s t) as [mx my] eqn:Hcs. simpl fst. simpl snd.
    destruct ((x <=? mx) && (mx <? x + width a) && (y <=? my) && (my <? y + height a))
      eqn:Hin.
    + cbn [on_event]. rewrite (bind_Return _ _ _ _ _ (load_Some _ _ _ Hme)).
      rewrite Hm. unfold MenuWidget_on_event. apply bind_Raise.
      unfold MenuWidget_react.
      rewrite (bind_Return _ _ _ _ _ (Menu_of_Some _ _ _ _ Hme Hm)).
      subst event. cbn [event_type event_value].
      change (String.eqb "misc_input" "tick") with false.
      change (String.eqb "misc_input" "key_down") with false.
      change (String.eqb "misc_input" "misc_input") with true.
      change (is_str (VStr "TK_MOUSE_MOVE") "TK_MOUSE_MOVE") with true.
      cbn [andb]. cbv iota.
      rewrite (bind_Return _ _ _ _ _ (load_Some _ _ _ Hme)). rewrite Ht.
      rewrite bind_get. rewrite Hcs, Hloc.
      rewrite (bind_Return _ _ _ _ _ (load_array_Some _ _ _ Ha)). rewrite Hin.
      apply bind_Raise. unfold get_child_on_pos.
      rewrite (bind_Return _ _ _ _ _ (Layout_of_Some _ _ _ _ Hme Hl)). by rewrite Hcp.
    + apply Hquiet. unfold MenuWidget_react.
      rewrite (bind_Return _ _ _ _ _ (Menu_of_Some _ _ _ _ Hme Hm)).
      subst event. cbn [event_type event_value].
      change (String.eqb "misc_input" "tick") with false.
      change (String.eqb "misc_input" "key_down") with false.
      change (String.eqb "misc_input" "misc_input") with true.
      change (is_str (VStr "TK_MOUSE_MOVE") "TK_MOUSE_MOVE") with true.
      cbn [andb]. cbv iota.
      rewrite (bind_Return _ _ _ _ _ (load_Some _ _ _ Hme)). rewrite Ht.
      rewrite bind_get. rewrite Hcs, Hloc.
      rewrite (bind_Return _ _ _ _ _ (load_array_Some _ _ _ Ha)). by rewrite Hin.
Qed.

Lemma menu_mouse_move_witness :
  _terminal menu5_hover_me = Some 7%nat ∧
  widget_locations menu5_hover 7%nat !! 0%nat = Some (0, 0) ∧
  check_state menu5_hover 7%nat = (1, 1) ∧
  on_event 2 0%nat (mkEvent "misc_input" (VStr "TK_MOUSE_MOVE")) menu5_hover
  = (Raise AttributeError, menu5_hover).
Proof.
  assert (H1 : menu_ok menu5_hover 0%nat = true) by (vm_compute; reflexivity).
  assert (H2 : objs menu5_hover !! 0%nat = Some menu5_hover_me)
    by (vm_compute; reflexivity).
  assert (H3 : as_Menu menu5_hover_me = Some menu5_m) by reflexivity.
  assert (H4 : as_Layout menu5_hover_me = Some menu5_l) by reflexivity.
  assert (H5 : _child_pointers menu5_l = None) by reflexivity.
  assert (H6 : _terminal menu5_hover_me = Some 7%nat) by reflexivity.
  assert (H7 : widget_locations menu5_hover 7%nat !! 0%nat = Some (0, 0))
    by (vm_compute; reflexivity).
  assert (H8 : arrays menu5_hover !! tile_array menu5_hover_me
               = Some (array (tile 0) (blank 13 7))) by (vm_compute; reflexivity).
  split; [exact H6|]. split; [exact H7|]. split; [reflexivity|].
  exact (proj2 (menu_mouse_move 0 menu5_hover 0%nat menu5_hover_me menu5_m menu5_l
                  H1 H2 H3 H4 H5) 7%nat 0 0 (array (tile 0) (blank 13 7)) H6 H7 H8).
Defined.

(** * ecs_demo.py *)

Section WalkerComponent.
Context {S A : Type}.
Variable owner_id : S → string.
Variables x y : S → Z.
Variable move : Z → Z → M S unit.
Variable relative_move : Z → Z → M S unit.
Variable create_entity : M S unit.
Variable super_on_event : BearEvent → M S A.

Local Abbreviation walker_on_event :=
  (Walker.on_event owner_id x y move relative_move create_entity super_on_event).

(** Whatever happens in the branches, [on_event] is the reaction to a
    key press followed by the handler of the base class. *)
Lemma Walker_on_event_unfold event s :
  walker_on_event event s =
    bind (if String.eqb (event_type event) "key_down"
          then Walker.react x y move relative_move create_entity (event_value event)
          else ret tt)
         (λ _, bind (super_on_event event) (λ _, ret Walker.Nothing)) s.
Proof.
  unfold Walker.on_event.
  destruct (String.eqb (event_type event) "key_down"); [|done].
  unfold bind.
  by destruct (Walker.react x y move relative_move create_entity (event_value event) s)
    as [[[]|e] s1].
Qed.

(** X27: [WalkerComponent.on_event] never returns the [ecs_move] event:
    [moved] is never set, so every call that returns returns [None],
    after the handler of the base class has run.  The keys for up (W, Up)
    do exactly what the keys for down (S, Down) do: each of the four
    calls [relative_move(0, 1)]. *)
Theorem Walker_never_reports_a_move :
  (∀ event s, match fst (walker_on_event event s) with
              | Return r => r = Walker.Nothing
              | Raise _ => True
              end)
  ∧ (∀ k s, k ∈ ["TK_W"; "TK_UP"; "TK_S"; "TK_DOWN"]%string →
            walker_on_event (key_down k) s =
              bind (relative_move 0 1)
                   (λ _, bind (super_on_event (key_down k))
                              (λ _, ret Walker.Nothing)) s).
Proof.
  split.
  - intros event s. rewrite Walker_on_event_unfold. unfold bind.
    destruct (if String.eqb (event_type event) "key_down" then _ else _) as [[[]|e] s1];
      [|done].
    by destruct (super_on_event event s1) as [[a|e] s2].
  - intros k s Hk. rewrite Walker_on_event_unfold.
    repeat (apply elem_of_cons in Hk as [->|Hk]; [reflexivity|]).
    by apply elem_of_nil in Hk.
Qed.

(** X28: the test [event.event_value in ('TK_SPACE')] is a test on a
    string, not on a tuple.  A key press whose value is a string
    contained in "TK_SPACE" and is none of the eight movement keys spawns
    an entity (so do "SPACE", "TK_" and the empty string); a key press
    whose value is not a string raises [TypeError], and nothing has
    changed when it does. *)
Theorem Walker_space_is_a_substring_test :
  (∀ k s, Walker.is_substring k "TK_SPACE" = true →
          k ≠ "TK_S"%string →
          walker_on_event (key_down k) s =
            bind create_entity
                 (λ _, bind (super_on_event (key_down k))
                            (λ _, ret Walker.Nothing)) s)
  ∧ Walker.is_substring "SPACE" "TK_SPACE" = true
  ∧ Walker.is_substring "" "TK_SPACE" = true
  ∧ (∀ v s, (∀ k, v ≠ VStr k) →
            walker_on_event (mkEvent "key_down" v) s = (Raise TypeError, s)).
Proof.
  split; [|split; [done|split; [done|]]].
  - intros k s Hsub Hk. rewrite Walker_on_event_unfold.
    cbn [key_down event_type event_value].
    change (String.eqb "key_down" "key_down") with true. cbv iota.
    assert (Hkeys : ∀ k', Walker.is_substring k' "TK_SPACE" = false →
                          is_str (VStr k) k' = false).
    { intros k' Hk'. simpl. destruct (String.eqb_spec k k') as [->|]; [|done].
      by rewrite Hk' in Hsub. }
    unfold Walker.react.
    rewrite (Hkeys "TK_D"), (Hkeys "TK_RIGHT"), (Hkeys "TK_A"), (Hkeys "TK_LEFT"),
            (Hkeys "TK_DOWN"), (Hkeys "TK_W"), (Hkeys "TK_UP") by done.
    assert (Hs : is_str (VStr k) "TK_S" = false) by (by apply String.eqb_neq).
    rewrite Hs. cbn [orb]. by rewrite Hsub.
  - intros v s Hv. rewrite Walker_on_event_unfold.
    cbn [event_type event_value].
    change (String.eqb "key_down" "key_down") with true. cbv iota.
    apply bind_Raise. unfold Walker.react.
    destruct v as [|k| |]; try done. by destruct (Hv k).
Qed.

End WalkerComponent.

Lemma Walker_never_reports_a_move_witness :
  Walker.demo_on_event (key_down "TK_UP") (5, 5) = (Return Walker.Nothing, (5, 6)).
Proof.
  assert (H : "TK_UP"%string ∈ ["TK_W"; "TK_UP"; "TK_S"; "TK_DOWN"]%string).
  { apply elem_of_cons. right. apply elem_of_cons. by left. }
  unfold Walker.demo_on_event.
  rewrite (proj2 (Walker_never_reports_a_move (λ _ : Z * Z, "cop"%string) fst snd
                    Walker.demo_move Walker.demo_relative_move (ret tt)
                    (λ _, ret tt)) "TK_UP"%string (5, 5) H).
  reflexivity.
Defined.

Lemma Walker_space_is_a_substring_test_witness :
  Walker.demo_on_event (mkEvent "key_down" (VInt 3)) (5, 5) = (Raise TypeError, (5, 5)).
Proof.
  assert (H : ∀ k, VInt 3 ≠ VStr k) by (intros k; discriminate).
  unfold Walker.demo_on_event.
  exact (proj2 (proj2 (proj2 (Walker_space_is_a_substring_test
                                (λ _ : Z * Z, "cop"%string) fst snd
                                Walker.demo_move Walker.demo_relative_move (ret tt)
                                (λ _, ret tt)))) (VInt 3) (5, 5) H).
Defined.
